(** * A todo-list widget in five iterations: model and verification

    The repository holds successive re-implementations of one small browser
    widget.  Each iteration is embedded below from its source file:

    - [Inline]         unnamed/part_000 (second document): [window.addTodo]
    - [TodosArray]     the click listener shared by the next two
    - [Legacy]         src/index.js: module-level [todos], first render loop
    - [Globals]        unnamed/part_002 (first document): guarded render loop
    - [StateObject]    unnamed/part_002 (second document): [state.editIndex]
    - [StateContainer] unnamed/part_001: the generic [useState]
    - [Hooks]          unnamed/part_001: the widget on top of [useState]

    JavaScript strings are Rocq strings, array indices are [nat], the edit
    index is a [Z] (the sentinel is the literal [-1]), arrays of todo texts
    are dense [list string]. *)

From Stdlib Require Import ZArith String Ascii Lia.
From stdpp Require Import base list strings pretty gmap.

Set Warnings "-register-all".

Local Open Scope string_scope.
Local Open Scope list_scope.

(** ** Built-ins of the language used by the sources *)

Module Js.

(** White space and line terminators of ECMAScript among the code units
    below 256: TAB, LF, VT, FF, CR, SP and NBSP. *)
Definition is_white_space (c : ascii) : bool :=
  let n := nat_of_ascii c in
  (n =? 9)%nat || (n =? 10)%nat || (n =? 11)%nat || (n =? 12)%nat
  || (n =? 13)%nat || (n =? 32)%nat || (n =? 160)%nat.

Fixpoint trimStart (s : string) : string :=
  match s with
  | EmptyString => EmptyString
  | String c s' => if is_white_space c then trimStart s' else s
  end.

Fixpoint trimEnd (s : string) : string :=
  match s with
  | EmptyString => EmptyString
  | String c s' =>
      match trimEnd s' with
      | EmptyString => if is_white_space c then EmptyString else String c EmptyString
      | r => String c r
      end
  end.

(** [String.prototype.trim] *)
Definition trim (s : string) : string := trimEnd (trimStart s).

(** Truthiness of a string: every string but the empty one. *)
Definition truthy (s : string) : bool :=
  match s with EmptyString => false | String _ _ => true end.

(** [s.split(sep)] for a one-character separator. *)
Fixpoint split (sep : ascii) (s : string) : list string :=
  match s with
  | EmptyString => [EmptyString]
  | String c s' =>
      if Ascii.eqb c sep then EmptyString :: split sep s'
      else match split sep s' with
           | t :: ts => String c t :: ts
           | [] => [String c EmptyString]
           end
  end.

(** [parts.join(sep)] *)
Fixpoint join (sep : string) (parts : list string) : string :=
  match parts with
  | [] => EmptyString
  | [p] => p
  | p :: rest => p +:+ sep +:+ join sep rest
  end.

(** [s.startsWith(p)] *)
Fixpoint startsWith (p s : string) : bool :=
  match p with
  | EmptyString => true
  | String a p' =>
      match s with
      | EmptyString => false
      | String b s' => Ascii.eqb a b && startsWith p' s'
      end
  end.

(** The text a template literal gives for an array index: its decimal
    digits. *)
Definition of_index (index : nat) : string := pretty index.

(** [Object.entries] of a string primitive: one entry per character,
    keyed by its position. *)
Fixpoint entries_of_string (k : nat) (s : string) : list (string * string) :=
  match s with
  | EmptyString => []
  | String c s' => (of_index k, String c EmptyString) :: entries_of_string (S k) s'
  end.

(** [array[i] = v] on a dense array.  Inside the bounds the slot is
    overwritten, at [length] the array grows by one, a negative key names
    an ordinary property and leaves the elements alone.  A key beyond
    [length] would leave holes: dense lists cannot hold the result and
    the store answers [None]. *)
Definition store {A} (i : Z) (v : A) (l : list A) : option (list A) :=
  if (i <? 0)%Z then Some l
  else if (i <? Z.of_nat (length l))%Z then Some (<[Z.to_nat i := v]> l)
  else if (i =? Z.of_nat (length l))%Z then Some (l ++ [v])
  else None.

(** [array.splice(index, 1)] for an index the caller has seen in the
    array: one element goes, the tail moves left. *)
Definition splice1 {A} (index : nat) (l : list A) : list A :=
  take index l ++ drop (S index) l.

(** [array.filter((_, i) => i !== index)]: the elements are visited with
    their positions, starting from [k]. *)
Fixpoint filter_index_from {A} (k index : nat) (l : list A) : list A :=
  match l with
  | [] => []
  | x :: l' =>
      if negb (k =? index)%nat then x :: filter_index_from (S k) index l'
      else filter_index_from (S k) index l'
  end.

Definition filter_index_ne {A} (index : nat) (l : list A) : list A :=
  filter_index_from 0 index l.

End Js.

(** ** Computations: a state threaded through, exceptions that keep it *)

Inductive exn :=
| Error (message : string)
| TypeError (message : string)
| DOMException (name : string).

(** A statement either completes, or throws (what it had already written
    stays written), or leaves what is modelled ([Unmodelled]): an array
    with holes, a name the versions of the browser treat differently. *)
Inductive outcome (W X : Type) :=
| Return (x : X) (s : W)
| Throw (e : exn) (s : W)
| Unmodelled.

Arguments Return {W X} x s.
Arguments Throw {W X} e s.
Arguments Unmodelled {W X}.

Definition M (W X : Type) : Type := W -> outcome W X.

Definition ret {W X} (x : X) : M W X := fun s => Return x s.

Definition bind {W X Y} (m : M W X) (k : X -> M W Y) : M W Y :=
  fun s =>
    match m s with
    | Return x s' => k x s'
    | Throw e s' => Throw e s'
    | Unmodelled => Unmodelled
    end.

Notation "x <- c1 ;; c2" := (bind c1 (fun x => c2))
  (at level 100, c1 at level 99, c2 at level 200, right associativity).
Notation "c1 ;; c2" := (bind c1 (fun _ => c2))
  (at level 100, c2 at level 200, right associativity).

Definition throw {W X} (e : exn) : M W X := fun s => Throw e s.
Definition unmodelled {W X} : M W X := fun _ => Unmodelled.
Definition gets {W X} (f : W -> X) : M W X := fun s => Return (f s) s.
Definition modify {W} (f : W -> W) : M W unit := fun s => Return tt (f s).
Definition when {W} (b : bool) (m : M W unit) : M W unit :=
  if b then m else ret tt.

(** Run a computation on a component of the state. *)
Definition zoom {W D X} (get : W -> D) (set : D -> W -> W) (m : M D X) : M W X :=
  fun s =>
    match m (get s) with
    | Return x d => Return x (set d s)
    | Throw e d => Throw e (set d s)
    | Unmodelled => Unmodelled
    end.

(** The state a computation leaves behind, returning or throwing. *)
Definition final {W X} (o : outcome W X) : option W :=
  match o with
  | Return _ s => Some s
  | Throw _ s => Some s
  | Unmodelled => None
  end.

(** [array.forEach(callback)]: the bound is the length at the call; an
    index is visited only if the array still has it when its turn comes.
    The callbacks of the sources ignore the element and take the index. *)
Fixpoint forEach_from {W} (length_now : W -> nat) (callback : nat -> M W unit)
    (k n : nat) : M W unit :=
  match n with
  | O => ret tt
  | S n' =>
      (present <- gets (fun s => (k <? length_now s)%nat) ;;
       when present (callback k)) ;;
      forEach_from length_now callback (S k) n'
  end.

Definition forEach {W} (length_now : W -> nat) (callback : nat -> M W unit) : M W unit :=
  len <- gets length_now ;;
  forEach_from length_now callback 0 len.

(** ** The page: element trees, the mount point, element handles *)

Module Dom.

(** What the scripts give an element: the attributes written with
    [setAttribute], the tokens of [classList], the text last assigned to
    [style.cssText] (what the browser makes of that text is its own
    affair and is not modelled), the entries written to [dataset]. *)
Record properties := mkProperties {
  attributes : list (string * string);
  classList : list string;
  cssText : string;
  dataset : list (string * string) }.

(** An element is kept under the name it goes by in an HTML document,
    the lower-case one. *)
Inductive node :=
| Text (data : string)
| Element (tagName : string) (props : properties) (childNodes : list node).

Definition blank : properties :=
  {| attributes := []; classList := []; cssText := ""; dataset := [] |}.

Fixpoint assoc_get (k : string) (l : list (string * string)) : option string :=
  match l with
  | [] => None
  | (k', v) :: l' => if String.eqb k' k then Some v else assoc_get k l'
  end.

Fixpoint assoc_set (k v : string) (l : list (string * string)) : list (string * string) :=
  match l with
  | [] => [(k, v)]
  | (k', v') :: l' =>
      if String.eqb k' k then (k, v) :: l' else (k', v') :: assoc_set k v l'
  end.

(** [element.id]: the [id] attribute, the empty string when there is none
    (and for text nodes, which have no [id]). *)
Definition id_of (n : node) : string :=
  match n with
  | Text _ => ""
  | Element _ p _ => default "" (assoc_get "id" (attributes p))
  end.

Definition is_element (n : node) : bool :=
  match n with Text _ => false | Element _ _ _ => true end.

(** First element, in document order, whose [id] is the given one. *)
Fixpoint find_id (id : string) (n : node) : option node :=
  match n with
  | Text _ => None
  | Element _ _ children =>
      if String.eqb (id_of n) id then Some n
      else (fix first (l : list node) : option node :=
              match l with
              | [] => None
              | c :: l' =>
                  match find_id id c with
                  | Some r => Some r
                  | None => first l'
                  end
              end) children
  end.

Fixpoint find_id_list (id : string) (l : list node) : option node :=
  match l with
  | [] => None
  | c :: l' =>
      match find_id id c with
      | Some r => Some r
      | None => find_id_list id l'
      end
  end.

(** Number of nodes of a tree that satisfy [p]. *)
Fixpoint count (p : node -> bool) (n : node) : nat :=
  (if p n then 1 else 0) +
  match n with
  | Text _ => 0
  | Element _ _ children => sum_list (map (count p) children)
  end.

(** [parent.appendChild(c)] for a parent named by the positions that lead
    to it from a given element. *)
Fixpoint appendChild_at (path : list nat) (c : node) (n : node) : node :=
  match n with
  | Text _ => n
  | Element t p children =>
      match path with
      | [] => Element t p (children ++ [c])
      | i :: path' => Element t p (alter (appendChild_at path' c) i children)
      end
  end.

(** [parent.appendChild(c)] and [parent.append(...cs)] on an element
    still held in a local variable. *)
Definition append_to (parent : node) (cs : list node) : node :=
  match parent with
  | Text _ => parent
  | Element t p children => Element t p (children ++ cs)
  end.

Inductive message :=
| Debug (shown : list node)
| Warn (text : string).

(** The document as the scripts see it.  [root] is the content of the
    element with id [root], [None] on a page without one; nothing outside
    the mount point carries the ids the scripts look up.  An element is
    known by the id it carries and by its [generation]: assigning
    [root.innerHTML] detaches every element below the mount point, and
    what is attached afterwards is new.  [values] keeps the [value]
    property of elements, attached or not. *)
Record document := mkDocument {
  root : option (list node);
  generation : nat;
  values : gmap nat (gmap string string);
  console : list message }.

Record handle := mkHandle { of_generation : nat; with_id : string }.

Definition empty_document : document :=
  {| root := None; generation := 0; values := ∅; console := [] |}.

Definition set_root (r : option (list node)) (d : document) : document :=
  {| root := r; generation := generation d; values := values d; console := console d |}.

Definition log (m : message) (d : document) : document :=
  {| root := root d; generation := generation d; values := values d;
     console := console d ++ [m] |}.

Definition value_of (h : handle) (d : document) : string :=
  default "" (values d !! of_generation h ≫= fun per_id => per_id !! with_id h).

Definition write_value (h : handle) (v : string) (d : document) : document :=
  {| root := root d; generation := generation d;
     values := <[of_generation h := <[with_id h := v]> (default ∅ (values d !! of_generation h))]>
                 (values d);
     console := console d |}.

(** [document.querySelector('#' + id)] for an id below the mount point. *)
Definition querySelector (id : string) : M document (option handle) :=
  gets (fun d =>
    match root d with
    | None => None
    | Some content =>
        match find_id_list id content with
        | Some _ => Some {| of_generation := generation d; with_id := id |}
        | None => None
        end
    end).

(** [input.value] *)
Definition get_value (input : option handle) : M document string :=
  match input with
  | None => throw (TypeError "Cannot read properties of null (reading 'value')")
  | Some h => gets (value_of h)
  end.

(** [input.value = v] *)
Definition set_value (input : option handle) (v : string) : M document unit :=
  match input with
  | None => throw (TypeError "Cannot set properties of null (setting 'value')")
  | Some h => modify (write_value h v)
  end.

(** [root.innerHTML = ''] on a present mount point: the old content is
    detached, the elements attached from now on form the next generation
    and their [value]s start out empty. *)
Definition clear_root : M document unit :=
  modify (fun d =>
    {| root := Some [];
       generation := S (generation d);
       values := <[S (generation d) := ∅]> (values d);
       console := console d |}).

(** [root.appendChild(c)] with [root] the result of the lookup. *)
Definition root_appendChild (c : node) : M document unit :=
  fun d =>
    match root d with
    | None => Throw (TypeError "Cannot read properties of null (reading 'appendChild')") d
    | Some content => Return tt (set_root (Some (content ++ [c])) d)
    end.

(** [parent.appendChild(c)] where [parent] is attached: the [k]-th child
    of the mount point, then down [path]. *)
Definition attached_appendChild (k : nat) (path : list nat) (c : node) : M document unit :=
  modify (fun d => set_root (alter (appendChild_at path c) k <$> root d) d).

Definition console_debug (shown : list node) : M document unit :=
  modify (log (Debug shown)).

Definition console_warn (text : string) : M document unit :=
  modify (log (Warn text)).

(** The text shown in the field [#todo-input] of the page, if it has one. *)
Definition input_field (d : document) : option string :=
  match querySelector "todo-input" d with
  | Return (Some h) _ => Some (value_of h d)
  | _ => None
  end.

End Dom.

(** ** The element builder, the same text in every iteration that has it *)

Module Builder.
Import Dom.

(** What an attribute object holds under a key: a string, or an object
    of string properties (for [style] and [dataset]). *)
Inductive attr_value :=
| AString (s : string)
| AObject (entries : list (string * string)).

(** What can be passed as a child: a string, a node, or anything else. *)
Inductive child :=
| CString (s : string)
| CNode (n : node)
| COther.

Definition entries (v : attr_value) : list (string * string) :=
  match v with
  | AString s => Js.entries_of_string 0 s
  | AObject es => es
  end.

Definition to_string (v : attr_value) : string :=
  match v with
  | AString s => s
  | AObject _ => "[object Object]"
  end.

(** [extractStyle] *)
Definition extractStyle (entries : list (string * string)) : string :=
  Js.join ";" (map (fun '(key, value) => key +:+ ": " +:+ value) entries).

Definition is_ascii_whitespace (c : ascii) : bool :=
  let n := nat_of_ascii c in
  (n =? 9)%nat || (n =? 10)%nat || (n =? 12)%nat || (n =? 13)%nat || (n =? 32)%nat.

Fixpoint has_whitespace (s : string) : bool :=
  match s with
  | EmptyString => false
  | String c s' => is_ascii_whitespace c || has_whitespace s'
  end.

Fixpoint validate_tokens (tokens : list string) : option exn :=
  match tokens with
  | [] => None
  | t :: ts =>
      if String.eqb t "" then Some (DOMException "SyntaxError")
      else if has_whitespace t then Some (DOMException "InvalidCharacterError")
      else validate_tokens ts
  end.

Definition add_token (cl : list string) (t : string) : list string :=
  if existsb (String.eqb t) cl then cl else cl ++ [t].

(** [element.classList.add(...tokens)] *)
Definition classList_add {W} (tokens : list string) (cl : list string) : M W (list string) :=
  match validate_tokens tokens with
  | Some e => throw e
  | None => ret (fold_left add_token tokens cl)
  end.

Definition with_attribute (key value : string) (p : properties) : properties :=
  {| attributes := assoc_set key value (attributes p); classList := classList p;
     cssText := cssText p; dataset := dataset p |}.

Definition is_ascii_upper (c : ascii) : bool :=
  let n := N_of_ascii c in (65 <=? n)%N && (n <=? 90)%N.

Definition is_ascii_lower (c : ascii) : bool :=
  let n := N_of_ascii c in (97 <=? n)%N && (n <=? 122)%N.

Definition is_ascii_digit (c : ascii) : bool :=
  let n := N_of_ascii c in (48 <=? n)%N && (n <=? 57)%N.

Definition is_ascii_alpha (c : ascii) : bool := is_ascii_upper c || is_ascii_lower c.

(** ASCII lower case: what the browser does to the name of an HTML
    element and to the names of its attributes. *)
Definition ascii_lower (c : ascii) : ascii :=
  if is_ascii_upper c then ascii_of_N (N_of_ascii c + 32) else c.

Fixpoint lower (s : string) : string :=
  match s with
  | EmptyString => EmptyString
  | String c s' => String (ascii_lower c) (lower s')
  end.

Fixpoint all_chars (p : ascii -> bool) (s : string) : bool :=
  match s with
  | EmptyString => true
  | String c s' => p c && all_chars p s'
  end.

(** The browser checks a name before it makes an element or an attribute
    of it, and the rule is not the same in every version of the DOM
    standard.  A name of ASCII letters, digits and hyphens that starts
    with a letter passes under each of them; the empty name and a name
    with ASCII white space in it fail under each of them, with an
    [InvalidCharacterError]; the names in between are left out. *)
Definition plain_name (name : string) : bool :=
  match name with
  | EmptyString => false
  | String c rest =>
      is_ascii_alpha c
      && all_chars (fun c => is_ascii_alpha c || is_ascii_digit c || Ascii.eqb c "-") rest
  end.

Definition refused_name (name : string) : bool :=
  String.eqb name "" || has_whitespace name.

Definition check_name {W} (name : string) : M W unit :=
  if plain_name name then ret tt
  else if refused_name name then throw (DOMException "InvalidCharacterError")
  else unmodelled.

(** [document.createElement(tagName)] in an HTML document: the name the
    element goes by is the lower-case one. *)
Definition document_createElement {W} (tagName : string) : M W string :=
  check_name tagName ;;
  ret (lower tagName).

(** The attributes from which the browser computes what the model keeps
    elsewhere: the class list, the style, the data set, the text of a
    field.  Writing them with [setAttribute] is left out. *)
Definition reflected (name : string) : bool :=
  String.eqb name "class" || String.eqb name "style" || String.eqb name "value"
  || Js.startsWith "data-" name.

(** [element.setAttribute(key, value)] on an HTML element. *)
Definition setAttribute {W} (key value : string) (p : properties) : M W properties :=
  check_name key ;;
  if reflected (lower key) then unmodelled
  else ret (with_attribute (lower key) value p).

(** A hyphen followed by an ASCII lower-case letter. *)
Fixpoint hyphen_lower (s : string) : bool :=
  match s with
  | EmptyString => false
  | String c s' =>
      (Ascii.eqb c "-" && match s' with
                          | EmptyString => false
                          | String d _ => is_ascii_lower d
                          end)
      || hyphen_lower s'
  end.

(** [element.dataset[dataKey] = dataValue].  The browser refuses a key
    with a hyphen before a lower-case letter, then turns the key into the
    name of a [data-] attribute and checks that name: a key of ASCII
    letters and digits passes, a key with white space fails, the keys in
    between are left out. *)
Definition dataset_set {W} (dataKey dataValue : string) (p : properties) : M W properties :=
  if hyphen_lower dataKey then throw (DOMException "SyntaxError")
  else if Js.truthy dataKey && all_chars (fun c => is_ascii_alpha c || is_ascii_digit c) dataKey
  then ret {| attributes := attributes p; classList := classList p; cssText := cssText p;
              dataset := assoc_set dataKey dataValue (dataset p) |}
  else if has_whitespace dataKey then throw (DOMException "InvalidCharacterError")
  else unmodelled.

(** [for (const [dataKey, dataValue] of Object.entries(value))] *)
Fixpoint dataset_entries {W} (p : properties) (entries : list (string * string))
    : M W properties :=
  match entries with
  | [] => ret p
  | (dataKey, dataValue) :: rest =>
      p' <- dataset_set dataKey dataValue p ;; dataset_entries p' rest
  end.

(** One turn of the loop over [Object.entries(attributes)]. *)
Definition apply_attribute {W} (p : properties) (entry : string * attr_value) : M W properties :=
  let '(key, value) := entry in
  if String.eqb key "class" then
    match value with
    | AString s =>
        cl <- classList_add (Js.split " "%char s) (classList p) ;;
        ret {| attributes := attributes p; classList := cl;
               cssText := cssText p; dataset := dataset p |}
    | AObject _ => throw (TypeError "value.split is not a function")
    end
  else if String.eqb key "style" then
    ret {| attributes := attributes p; classList := classList p;
           cssText := extractStyle (entries value); dataset := dataset p |}
  else if String.eqb key "dataset" then dataset_entries p (entries value)
  else setAttribute key (to_string value) p.

Fixpoint apply_attributes {W} (p : properties) (attributes : list (string * attr_value))
    : M W properties :=
  match attributes with
  | [] => ret p
  | entry :: rest => p' <- apply_attribute p entry ;; apply_attributes p' rest
  end.

Fixpoint append_children {W} (acc : list node) (children : list child) : M W (list node) :=
  match children with
  | [] => ret acc
  | CString s :: rest => append_children (acc ++ [Text s]) rest
  | CNode n :: rest => append_children (acc ++ [n]) rest
  | COther :: _ => throw (TypeError "Children must be a string or a Node")
  end.

(** [createElement(tagName, attributes, ...children)] *)
Definition createElement {W} (tagName : string) (attributes : list (string * attr_value))
    (children : list child) : M W node :=
  name <- document_createElement tagName ;;
  p <- apply_attributes blank attributes ;;
  kids <- append_children [] children ;;
  ret (Element name p kids).

(** [array.map((x, index) => f(x, index))] with a callback that may throw. *)
Fixpoint map_from {W A B} (f : A -> nat -> M W B) (k : nat) (l : list A) : M W (list B) :=
  match l with
  | [] => ret []
  | x :: l' => y <- f x k ;; ys <- map_from f (S k) l' ;; ret (y :: ys)
  end.

(** [for (const child of children) if (child instanceof HTMLElement) f(child)] *)
Fixpoint for_elements {W} (f : node -> M W unit) (children : list node) : M W unit :=
  match children with
  | [] => ret tt
  | c :: rest => when (is_element c) (f c) ;; for_elements f rest
  end.

Definition has_class (c : string) (n : node) : bool :=
  match n with
  | Text _ => false
  | Element _ p _ => existsb (String.eqb c) (classList p)
  end.

(** The rows and controls the claims count in a rendered tree. *)
Definition is_placeholder_row (n : node) : bool :=
  match n with
  | Element t _ [Text s] =>
      String.eqb t "li" && String.eqb s "No todos available. Add a new todo!"
      && has_class "empty-message" n
  | _ => false
  end.

Definition is_delete_control (n : node) : bool :=
  is_element n && Js.startsWith "delete-todo-" (id_of n).

Definition is_edit_control (n : node) : bool :=
  is_element n && Js.startsWith "edit-todo-" (id_of n).

Definition count_in (p : node -> bool) (l : list node) : nat :=
  sum_list (map (count p) l).

End Builder.

(** [items.forEach(f)] over an array nobody else holds. *)
Fixpoint iter {W A} (f : A -> M W unit) (l : list A) : M W unit :=
  match l with
  | [] => ret tt
  | x :: l' => f x ;; iter f l'
  end.

(** ** The router of the two iterations with a bare [todos] array

    [src/index.js] and the first document of [unnamed/part_002] register
    the same click listener; they differ in [todoComponent] and [render],
    which the listener takes here as [render]. *)

Module TodosArray.
Import Dom Builder.

Record world := mkWorld { todos : list string; doc : document }.

Definition set_todos (l : list string) (w : world) : world :=
  {| todos := l; doc := doc w |}.
Definition set_doc (d : document) (w : world) : world :=
  {| todos := todos w; doc := d |}.

Definition in_doc {X} (m : M document X) : M world X := zoom doc set_doc m.

(** One row of the list: the text and its delete button. *)
Definition row {W} (todo : string) (index : nat) : M W node :=
  span <- createElement "span"
            [("class", AString "text"); ("id", AString ("todo-" +:+ Js.of_index index))]
            [CString todo] ;;
  button <- createElement "button"
              [("id", AString ("delete-todo-" +:+ Js.of_index index));
               ("class", AString "delete-button"); ("type", AString "button")]
              [CString "Delete"] ;;
  createElement "li" [("class", AString "todo-item")] [CNode span; CNode button].

(** The listener on [#root]; [visit] is the callback it hands to
    [todos.forEach].  With no [#todo-input] on the page the optional chain
    would push [undefined], which a list of strings does not hold. *)
Definition visit (render : M world unit) (target_id : string) (index : nat) : M world unit :=
  when (String.eqb target_id ("delete-todo-" +:+ Js.of_index index))
    (modify (fun w => set_todos (Js.splice1 index (todos w)) w) ;;
     render).

Definition on_click (render : M world unit) (target_id : string) : M world unit :=
  (* add_todos *)
  when (String.eqb target_id "add-todo-button")
    (input <- in_doc (querySelector "todo-input") ;;
     text <- match input with
             | Some h => v <- in_doc (gets (value_of h)) ;; ret (Js.trim v)
             | None => unmodelled
             end ;;
     modify (fun w => set_todos (todos w ++ [text]) w) ;;
     in_doc (set_value input "") ;;
     render) ;;
  (* delete_todos *)
  forEach (fun w => length (todos w)) (visit render target_id).

End TodosArray.

(** ** [src/index.js] *)

Module Legacy.
Import Dom Builder TodosArray.

Record component := mkComponent {
  todoContainer : node;
  title : node;
  input : node;
  addButton : node;
  todoList : node;
  items : list node }.

Definition todoComponent : M world component :=
  todoContainer <- createElement "div"
      [("id", AString "todo-container"); ("class", AString "todo-container")] [] ;;
  title <- createElement "h1" [("class", AString "todo-title")] [CString "Todo List"] ;;
  input <- createElement "input"
      [("id", AString "todo-input"); ("class", AString "todo-input");
       ("type", AString "text"); ("placeholder", AString "Add a new todo...")] [] ;;
  addButton <- createElement "button"
      [("id", AString "add-todo-button"); ("class", AString "todo-button");
       ("type", AString "button")] [CString "Add Todo"] ;;
  todoList <- createElement "ul"
      [("id", AString "todo-list"); ("class", AString "todo-list")] [] ;;
  todos <- gets todos ;;
  items <- map_from row 0 todos ;;
  ret {| todoContainer := todoContainer; title := title; input := input;
         addButton := addButton; todoList := todoList; items := items |}.

(** [render]: the old content is cleared only under [if (root)], and
    [root.appendChild] is reached with [root] as the lookup left it. *)
Definition render : M world unit :=
  root <- in_doc (gets Dom.root) ;;
  when (bool_decide (is_Some root)) (in_doc clear_root) ;;
  c <- todoComponent ;;
  in_doc (root_appendChild (todoContainer c)) ;;
  in_doc (attached_appendChild 0 [] (title c)) ;;
  in_doc (attached_appendChild 0 [] (input c)) ;;
  in_doc (attached_appendChild 0 [] (addButton c)) ;;
  in_doc (attached_appendChild 0 [] (todoList c)) ;;
  when (0 <? length (items c))%nat
    (iter (fun item => in_doc (attached_appendChild 0 [3%nat] item)) (items c)).

Definition on_click : string -> M world unit := TodosArray.on_click render.

(** The script up to the first paint: [let todos = []], then the
    [DOMContentLoaded] listener renders; the click listener is registered
    only once that has returned. *)
Definition boot : M world unit :=
  modify (set_todos []) ;;
  render.

End Legacy.

(** ** The first document of [unnamed/part_002] *)

Module Globals.
Import Dom Builder TodosArray.

Record component := mkComponent { container : node; children : list node }.

Definition todoComponent : M world component :=
  todoContainer <- createElement "div"
      [("id", AString "todo-container"); ("class", AString "todo-container")] [] ;;
  title <- createElement "h1" [("class", AString "todo-title")] [CString "Todo List"] ;;
  input <- createElement "input"
      [("id", AString "todo-input"); ("class", AString "todo-input");
       ("type", AString "text"); ("placeholder", AString "Add a new todo...")] [] ;;
  addButton <- createElement "button"
      [("id", AString "add-todo-button"); ("class", AString "todo-button");
       ("type", AString "button")] [CString "Add Todo"] ;;
  todoList <- createElement "ul"
      [("id", AString "todo-list"); ("class", AString "todo-list")] [] ;;
  todos <- gets todos ;;
  items <- map_from row 0 todos ;;
  (* Add items to the todo list *)
  todoList <- (if (length items =? 0)%nat then
                 emptyMessage <- createElement "li" [("class", AString "empty-message")]
                                   [CString "No todos available. Add a new todo!"] ;;
                 ret (append_to todoList [emptyMessage])
               else ret todoList) ;;
  let todoList := append_to todoList items in
  ret {| container := todoContainer; children := [title; input; addButton; todoList] |}.

(** [render].  [todoComponent] always answers an object with a
    [container] and a [children] array, so of the four shapes the
    function tells apart only the first can occur. *)
Definition render : M world unit :=
  root <- in_doc (gets Dom.root) ;;
  match root with
  | None => throw (Error "Root element not found in the DOM")
  | Some _ =>
      (* clear the prev DOM *)
      in_doc clear_root ;;
      component <- todoComponent ;;
      in_doc (console_debug (container component :: children component)) ;;
      in_doc (root_appendChild (container component)) ;;
      for_elements (fun child => in_doc (attached_appendChild 0 [] child))
        (children component)
  end.

Definition on_click : string -> M world unit := TodosArray.on_click render.

(** The script up to the first paint. *)
Definition boot : M world unit :=
  modify (set_todos []) ;;
  render.

End Globals.

(** ** The second document of [unnamed/part_002]: a state object *)

Module StateObject.
Import Dom Builder.

(** [state.todos] (also reached through the alias [todos]),
    [state.editIndex] and the page. *)
Record world := mkWorld { todos : list string; editIndex : Z; doc : document }.

Definition set_todos (l : list string) (w : world) : world :=
  {| todos := l; editIndex := editIndex w; doc := doc w |}.
Definition set_editIndex (i : Z) (w : world) : world :=
  {| todos := todos w; editIndex := i; doc := doc w |}.
Definition set_doc (d : document) (w : world) : world :=
  {| todos := todos w; editIndex := editIndex w; doc := d |}.

Definition in_doc {X} (m : M document X) : M world X := zoom doc set_doc m.

Record component := mkComponent { container : node; children : list node }.

(** One row: the text, its delete button, its edit button. *)
Definition row {W} (todo : string) (index : nat) : M W node :=
  span <- createElement "span"
            [("class", AString "text"); ("id", AString ("todo-" +:+ Js.of_index index))]
            [CString todo] ;;
  deleteButton <- createElement "button"
              [("id", AString ("delete-todo-" +:+ Js.of_index index));
               ("class", AString "delete-button"); ("type", AString "button")]
              [CString "Delete"] ;;
  editButton <- createElement "button"
              [("id", AString ("edit-todo-" +:+ Js.of_index index));
               ("class", AString "edit-button"); ("type", AString "button")]
              [CString "Edit"] ;;
  createElement "li" [("class", AString "todo-item")]
    [CNode span; CNode deleteButton; CNode editButton].

Definition todoComponent : M world component :=
  todoContainer <- createElement "div"
      [("id", AString "todo-container"); ("class", AString "todo-container")] [] ;;
  title <- createElement "h1" [("class", AString "todo-title")] [CString "Todo List"] ;;
  editing <- gets (fun w => negb (editIndex w =? -1)%Z) ;;
  input <- createElement "input"
      [("id", AString "todo-input"); ("class", AString "todo-input");
       ("type", AString "text");
       ("placeholder", AString (if editing then "Edit your todo..." else "Add a new todo..."))]
      [] ;;
  editing <- gets (fun w => negb (editIndex w =? -1)%Z) ;;
  addButton <- createElement "button"
      [("id", AString "add-todo-button"); ("class", AString "todo-button");
       ("type", AString "button")]
      [CString (if editing then "Update Todo" else "Add Todo")] ;;
  todoList <- createElement "ul"
      [("id", AString "todo-list"); ("class", AString "todo-list")] [] ;;
  todos <- gets todos ;;
  items <- map_from row 0 todos ;;
  (* Add items to the todo list *)
  todoList <- (if (length items =? 0)%nat then
                 emptyMessage <- createElement "li" [("class", AString "empty-message")]
                                   [CString "No todos available. Add a new todo!"] ;;
                 ret (append_to todoList [emptyMessage])
               else ret todoList) ;;
  let todoList := append_to todoList items in
  ret {| container := todoContainer; children := [title; input; addButton; todoList] |}.

(** [render], with the one shape of component that can occur. *)
Definition render : M world unit :=
  root <- in_doc (gets Dom.root) ;;
  match root with
  | None => throw (Error "Root element not found in the DOM")
  | Some _ =>
      (* clear the prev DOM *)
      in_doc clear_root ;;
      component <- todoComponent ;;
      in_doc (console_debug (container component :: children component)) ;;
      in_doc (root_appendChild (container component)) ;;
      for_elements (fun child => in_doc (attached_appendChild 0 [] child))
        (children component)
  end.

(** The callback handed to [todos.forEach]. *)
Definition visit (target_id : string) (input : option handle) (index : nat) : M world unit :=
  (* delete_todos *)
  when (String.eqb target_id ("delete-todo-" +:+ Js.of_index index))
    (modify (fun w => set_todos (Js.splice1 index (todos w)) w) ;;
     current <- gets editIndex ;;
     (if (current =? Z.of_nat index)%Z then
        (* deleting the todo being edited *)
        modify (set_editIndex (-1)) ;;
        in_doc (set_value input "")
      else if (Z.of_nat index <? current)%Z then
        (* we are deleting an item before the edited one *)
        modify (fun w => set_editIndex (editIndex w - 1) w)
      else ret tt) ;;
     render) ;;
  (* edit_todos *)
  when (String.eqb target_id ("edit-todo-" +:+ Js.of_index index))
    (modify (set_editIndex (Z.of_nat index)) ;;
     text <- gets (fun w => default "undefined" (todos w !! index)) ;;
     in_doc (set_value input text) ;;
     render).

(** The listener on [#root]. *)
Definition on_click (target_id : string) : M world unit :=
  input <- in_doc (querySelector "todo-input") ;;
  (* add_todos or update_todos *)
  when (String.eqb target_id "add-todo-button")
    (v <- in_doc (get_value input) ;;
     let todoText := Js.trim v in
     when (Js.truthy todoText)
       (index <- gets editIndex ;;
        if negb (index =? -1)%Z then
          l <- gets todos ;;
          match Js.store index todoText l with
          | Some l' => modify (set_todos l')
          | None => unmodelled
          end ;;
          (* reset edit index after updating *)
          modify (set_editIndex (-1))
        else modify (fun w => set_todos (todos w ++ [todoText]) w)) ;;
     in_doc (set_value input "") ;;
     render) ;;
  forEach (fun w => length (todos w)) (visit target_id input).

(** The script up to the first paint: the state object is made, then the
    [DOMContentLoaded] listener renders; the click listener is registered
    only once that has returned. *)
Definition boot : M world unit :=
  modify (set_todos []) ;;
  modify (set_editIndex (-1)) ;;
  render.

End StateObject.

(** ** [unnamed/part_001]: the state container *)

Module StateContainer.

Section UseState.
Context {W A T : Type}.

(** The variable [value] of one call of [useState], as a place in the
    world of the program. *)
Variable value : W -> T.
Variable assign : T -> W -> W.

(** [typeof newVal === 'function']: for a function, what calling it on
    an argument does; otherwise the value that [newVal] is. *)
Variable typeof_function : A -> (T -> M W T) + T.

(** The second argument, when it is truthy and a function. *)
Variable renderFn : option (M W unit).

Variable console_warn : string -> M W unit.

Definition setState (newVal : A) : M W unit :=
  match typeof_function newVal with
  | inl call =>
      current <- gets value ;;
      result <- call current ;;
      modify (assign result)
  | inr literal => modify (assign literal)
  end ;;
  match renderFn with
  | Some render => render
  | None => console_warn "No render function provided or it is not a function"
  end.

Definition getState : M W T := gets value.

(** [useState(initialVal, renderFn)]: [let value = initialVal], and the
    two closures over it. *)
Definition useState (initialVal : T) : M W (M W T * (A -> M W unit)) :=
  modify (assign initialVal) ;;
  ret (getState, setState).

End UseState.

(** What the program passes to its setters: a plain value or an arrow
    function. *)
Inductive update (W T : Type) :=
| Value (v : T)
| Updater (f : T -> M W T).

Arguments Value {W T} v.
Arguments Updater {W T} f.

Definition typeof_update {W T} (u : update W T) : (T -> M W T) + T :=
  match u with
  | Value v => inr v
  | Updater f => inl f
  end.

(** The same test where nothing is typed: any value [v] of the language
    may be passed, [is_function v] is [typeof v === 'function'], and
    [call v x] is what the call [v(x)] does. *)
Definition typeof_dynamic {W V} (is_function : V -> bool) (call : V -> V -> M W V) (v : V)
    : (V -> M W V) + V :=
  if is_function v then inl (call v) else inr v.

(** A small universe of such values, with functions among them: the
    identity and the constant functions. *)
Inductive jsval :=
| JUndefined
| JNumber (n : Z)
| JString (s : string)
| JFunction (f : jsfun)
with jsfun :=
| Identity
| Constant (v : jsval).

Definition is_function (v : jsval) : bool :=
  match v with JFunction _ => true | _ => false end.

Definition call {W} (v x : jsval) : M W jsval :=
  match v with
  | JFunction Identity => ret x
  | JFunction (Constant c) => ret c
  | _ => throw (TypeError "newVal is not a function")
  end.

End StateContainer.

(** ** [unnamed/part_001]: the widget on two state containers *)

Module Hooks.
Import Dom Builder StateContainer.

(** The [value] of the container of todos, the [value] of the container
    of the edit index, and the page. *)
Record world := mkWorld { todos_value : list string; editIndex_value : Z; doc : document }.

Definition set_todos_value (l : list string) (w : world) : world :=
  {| todos_value := l; editIndex_value := editIndex_value w; doc := doc w |}.
Definition set_editIndex_value (i : Z) (w : world) : world :=
  {| todos_value := todos_value w; editIndex_value := i; doc := doc w |}.
Definition set_doc (d : document) (w : world) : world :=
  {| todos_value := todos_value w; editIndex_value := editIndex_value w; doc := d |}.

Definition in_doc {X} (m : M document X) : M world X := zoom doc set_doc m.

Record component := mkComponent { container : node; children : list node }.

Definition getTodos : M world (list string) := getState todos_value.
Definition getEditIndex : M world Z := getState editIndex_value.

(** One row: the text, then a group with the edit and delete buttons. *)
Definition row {W} (todo : string) (index : nat) : M W node :=
  todoItem <- createElement "li" [("class", AString "todo-item")] [] ;;
  textSpan <- createElement "span"
            [("class", AString "text"); ("id", AString ("todo-" +:+ Js.of_index index))]
            [CString todo] ;;
  buttonGroup <- createElement "div" [("class", AString "button-group")] [] ;;
  editButton <- createElement "button"
              [("id", AString ("edit-todo-" +:+ Js.of_index index));
               ("class", AString "edit-button"); ("type", AString "button")]
              [CString "Edit"] ;;
  deleteButton <- createElement "button"
              [("id", AString ("delete-todo-" +:+ Js.of_index index));
               ("class", AString "delete-button"); ("type", AString "button")]
              [CString "Delete"] ;;
  let buttonGroup := append_to buttonGroup [editButton] in
  let buttonGroup := append_to buttonGroup [deleteButton] in
  let todoItem := append_to todoItem [textSpan] in
  let todoItem := append_to todoItem [buttonGroup] in
  ret todoItem.

Definition todoComponent : M world component :=
  todoContainer <- createElement "div"
      [("id", AString "todo-container"); ("class", AString "todo-container")] [] ;;
  title <- createElement "h1" [("class", AString "todo-title")] [CString "Todo List"] ;;
  (* Input section with better structure *)
  inputSection <- createElement "div" [("class", AString "input-section")] [] ;;
  index <- getEditIndex ;;
  input <- createElement "input"
      [("id", AString "todo-input"); ("class", AString "todo-input");
       ("type", AString "text");
       ("placeholder",
        AString (if negb (index =? -1)%Z then "Edit your todo..." else "Add a new todo..."))]
      [] ;;
  index <- getEditIndex ;;
  addButton <- createElement "button"
      [("id", AString "add-todo-button"); ("class", AString "todo-button");
       ("type", AString "button")]
      [CString (if negb (index =? -1)%Z then "Update Todo" else "Add Todo")] ;;
  let inputSection := append_to inputSection [input] in
  let inputSection := append_to inputSection [addButton] in
  todoList <- createElement "ul"
      [("id", AString "todo-list"); ("class", AString "todo-list")] [] ;;
  todos <- getTodos ;;
  items <- map_from row 0 todos ;;
  (* Add items to the todo list *)
  todoList <- (if (length items =? 0)%nat then
                 emptyMessage <- createElement "li" [("class", AString "empty-message")]
                                   [CString "No todos available. Add a new todo!"] ;;
                 ret (append_to todoList [emptyMessage])
               else ret (append_to todoList items)) ;;
  (* Stats section *)
  statsSection <- createElement "div" [("class", AString "stats-section")] [] ;;
  statsTitle <- createElement "div" [("class", AString "stats-title")] [CString "Statistics"] ;;
  totalStat <- createElement "div" [("class", AString "stats-item")] [] ;;
  label <- createElement "span" [] [CString "Total tasks:"] ;;
  let totalStat := append_to totalStat [label] in
  todos <- getTodos ;;
  total <- createElement "span" [("class", AString "stats-value")]
             [CString (Js.of_index (length todos))] ;;
  let totalStat := append_to totalStat [total] in
  let statsSection := append_to statsSection [statsTitle] in
  let statsSection := append_to statsSection [totalStat] in
  ret {| container := todoContainer;
         children := [title; inputSection; todoList; statsSection] |}.

(** [render], with the one shape of component that can occur. *)
Definition render : M world unit :=
  root <- in_doc (gets Dom.root) ;;
  match root with
  | None => throw (Error "Root element not found in the DOM")
  | Some _ =>
      (* clear the prev DOM *)
      in_doc clear_root ;;
      component <- todoComponent ;;
      in_doc (console_debug (container component :: children component)) ;;
      in_doc (root_appendChild (container component)) ;;
      for_elements (fun child => in_doc (attached_appendChild 0 [] child))
        (children component)
  end.

(** [const [getTodos, setTodos] = useState([], render)] and
    [const [getEditIndex, setEditIndex] = useState(-1, render)] *)
Definition setTodos : update world (list string) -> M world unit :=
  setState todos_value set_todos_value typeof_update (Some render)
    (fun text => in_doc (console_warn text)).

Definition setEditIndex : update world Z -> M world unit :=
  setState editIndex_value set_editIndex_value typeof_update (Some render)
    (fun text => in_doc (console_warn text)).

(** The callback handed to [getTodos().forEach]. *)
Definition visit (target_id : string) (input : option handle) (index : nat) : M world unit :=
  (* delete_todos *)
  when (String.eqb target_id ("delete-todo-" +:+ Js.of_index index))
    ((* remove todo at index *)
     setTodos (Updater (fun prev => ret (Js.filter_index_ne index prev))) ;;
     current <- getEditIndex ;;
     if (current =? Z.of_nat index)%Z then
       (* reset edit index if the edited todo is deleted *)
       setEditIndex (Value (-1)%Z) ;;
       in_doc (set_value input "")
     else
       current <- getEditIndex ;;
       if (Z.of_nat index <? current)%Z then
         (* adjust edit index if necessary *)
         setEditIndex (Updater (fun prev => ret (prev - 1)%Z))
       else ret tt) ;;
  (* edit_todos *)
  when (String.eqb target_id ("edit-todo-" +:+ Js.of_index index))
    (setEditIndex (Value (Z.of_nat index)) ;;
     todos <- getTodos ;;
     in_doc (set_value input (default "undefined" (todos !! index)))).

(** The listener on [#root].  [forEach] walks the array that [getTodos()]
    answered when the loop began; the setters never write into it. *)
Definition on_click (target_id : string) : M world unit :=
  input <- in_doc (querySelector "todo-input") ;;
  (* add_todos or update_todos *)
  when (String.eqb target_id "add-todo-button")
    (v <- in_doc (get_value input) ;;
     let todoText := Js.trim v in
     when (Js.truthy todoText)
       (index <- getEditIndex ;;
        if negb (index =? -1)%Z then
          setTodos (Updater (fun prev =>
            let updatedTodos := prev in
            index <- getEditIndex ;;
            (* update the todo at editIndex *)
            match Js.store index todoText updatedTodos with
            | Some updatedTodos => ret updatedTodos
            | None => unmodelled
            end)) ;;
          (* reset edit index after updating *)
          setEditIndex (Value (-1)%Z)
        else setTodos (Updater (fun prev => ret (prev ++ [todoText])))) ;;
     in_doc (set_value input "")) ;;
  snapshot <- getTodos ;;
  forEach (fun _ => length snapshot) (visit target_id input).

(** The script up to the first paint: the two containers are made, then
    the [DOMContentLoaded] listener renders; the click listener is
    registered only once that has returned. *)
Definition boot : M world unit :=
  useState todos_value set_todos_value (@typeof_update world _) (Some render)
    (fun text => in_doc (console_warn text)) [] ;;
  useState editIndex_value set_editIndex_value (@typeof_update world _) (Some render)
    (fun text => in_doc (console_warn text)) (-1)%Z ;;
  render.

End Hooks.

(** ** The second document of [unnamed/part_000]: markup edited in place *)

Module Inline.

(** The two elements the script looks up, [None] when the page lacks
    them: the text of [#todo-input], and the list items that were added to
    the markup of [#todo-list], each by the text interpolated into it;
    then the alerts shown so far. *)
Record page := mkPage {
  todoInput : option string;
  todoList : option (list string);
  alerts : list string }.

Definition alert (text : string) : M page unit :=
  modify (fun p => {| todoInput := todoInput p; todoList := todoList p;
                      alerts := alerts p ++ [text] |}).

(** [window.addTodo] *)
Definition addTodo : M page unit :=
  input <- gets todoInput ;;
  match input with
  | None => throw (TypeError "Cannot read properties of null (reading 'value')")
  | Some v =>
      let todoText := Js.trim v in
      when (String.eqb todoText "") (alert "Please enter a todo item.") ;;
      list <- gets todoList ;;
      match list with
      | None => throw (TypeError "Cannot read properties of null (reading 'innerHTML')")
      | Some lis =>
          modify (fun p => {| todoInput := todoInput p; todoList := Some (lis ++ [todoText]);
                              alerts := alerts p |}) ;;
          (* resetting the input field *)
          modify (fun p => {| todoInput := Some ""; todoList := todoList p;
                              alerts := alerts p |})
      end
  end.

End Inline.

(** ** The second document of [unnamed/part_000]: the listener that
    deletes

    [deleteTodo] and the click listener on [window] walk the element
    tree.  The page is the forest of elements below the document, an
    element is named by the positions that lead to it, tag names are the
    lower-case names of the markup. *)
Module InlineTree.
Import Dom Builder.

Record page := mkPage { tree : list node; alerts : list string }.

Definition alert (text : string) : M page unit :=
  modify (fun p => {| tree := tree p; alerts := alerts p ++ [text] |}).

Fixpoint node_at (path : list nat) (forest : list node) : option node :=
  match path with
  | [] => None
  | i :: rest =>
      match forest !! i with
      | Some n =>
          match rest with
          | [] => Some n
          | _ :: _ =>
              match n with
              | Element _ _ children => node_at rest children
              | Text _ => None
              end
          end
      | None => None
      end
  end.

(** [element.remove()] for the element at [path]. *)
Fixpoint remove_at (path : list nat) (forest : list node) : list node :=
  match path with
  | [] => forest
  | i :: rest =>
      match rest with
      | [] => delete i forest
      | _ :: _ =>
          alter (fun n => match n with
                          | Element t p children => Element t p (remove_at rest children)
                          | Text _ => n
                          end) i forest
      end
  end.

Definition is_li (n : node) : bool :=
  match n with
  | Element t _ _ => String.eqb t "li"
  | Text _ => false
  end.

Definition li_at (path : list nat) (forest : list node) : bool :=
  match node_at path forest with
  | Some n => is_li n
  | None => false
  end.

(** [element.closest('li')]: the element itself, then its parent, and
    so on up to the document; [k] inclusive ancestors are left to try. *)
Fixpoint closest_from (k : nat) (path : list nat) (forest : list node) : option (list nat) :=
  match k with
  | O => None
  | S k' =>
      if li_at (take k path) forest then Some (take k path)
      else closest_from k' path forest
  end.

Definition closest_li (path : list nat) (forest : list node) : option (list nat) :=
  closest_from (length path) path forest.

(** [deleteTodo(event)] for an event whose target is at [target];
    [event.preventDefault()] changes nothing on the page. *)
Definition deleteTodo (target : list nat) : M page unit :=
  todoItem <- gets (fun p => closest_li target (tree p)) ;;
  match todoItem with
  | Some item => modify (fun p => {| tree := remove_at item (tree p); alerts := alerts p |})
  | None => alert "Todo item not found."
  end.

(** The click listener on [window].  The target of a click is an element
    of the document. *)
Definition on_click (target : list nat) : M page unit :=
  element <- gets (fun p => node_at target (tree p)) ;;
  match element with
  | Some (Element _ props _) =>
      when (existsb (String.eqb "delete-btn") (classList props)) (deleteTodo target)
  | _ => unmodelled
  end.

(** The children of the element at [path], of the document for the
    empty path. *)
Definition children_at (path : list nat) (forest : list node) : option (list node) :=
  match path with
  | [] => Some forest
  | _ :: _ =>
      match node_at path forest with
      | Some (Element _ _ children) => Some children
      | _ => None
      end
  end.

(** A list item of the shape the markup of [window.addTodo] gives for
    a text free of markup (the white space between the tags left out),
    and a page that holds a list of them. *)
Definition item (text : string) : node :=
  Element "li" blank
    [Text text;
     Element "span" blank
       [Element "button"
          {| attributes := []; classList := ["delete-btn"]; cssText := ""; dataset := [] |}
          [Text "Delete"]]].

Definition listing (texts : list string) : page :=
  {| tree := [Element "ul" (with_attribute "id" "todo-list" blank) (map item texts)];
     alerts := [] |}.

End InlineTree.

(** ** Vocabulary of the properties *)

(** The page has a mount point with a field [#todo-input] below it. *)
Definition has_input (d : Dom.document) : bool :=
  match Dom.root d with
  | Some content =>
      match Dom.find_id_list "todo-input" content with Some _ => true | None => false end
  | None => false
  end.

(** The edit cursor names no item ([-1]) or an item of the list. *)
Definition cursor_ok (cursor : Z) (items : list string) : Prop :=
  cursor = (-1)%Z \/ (0 <= cursor < Z.of_nat (length items))%Z.

(** A click hits the add/update button, deletes or edits at an index the
    loop visits, or does neither. *)
Definition hits (target_id : string) (index : nat) : bool :=
  String.eqb target_id ("delete-todo-" +:+ Js.of_index index)
  || String.eqb target_id ("edit-todo-" +:+ Js.of_index index).

(** A container with the elements among [children] appended, as the
    render loops of the later iterations attach a component. *)
Definition attached (container : Dom.node) (children : list Dom.node) : Dom.node :=
  Dom.append_to container (filter (fun c => Dom.is_element c = true) children).

(** The page after [root.innerHTML = ''] and the attachment of [tree],
    with [logged] printed meanwhile. *)
Definition repaint (tree : Dom.node) (logged : list Dom.message) (d : Dom.document)
    : Dom.document :=
  {| Dom.root := Some [tree];
     Dom.generation := S (Dom.generation d);
     Dom.values := <[S (Dom.generation d) := ∅]> (Dom.values d);
     Dom.console := Dom.console d ++ logged |}.

(** What each [todoComponent] answers for given todos (and edit index):
    the builder run on a world that holds them. *)
Definition legacy_view (l : list string) : Legacy.component :=
  match Legacy.todoComponent {| TodosArray.todos := l; TodosArray.doc := Dom.empty_document |} with
  | Return c _ => c
  | _ => Legacy.mkComponent (Dom.Text "") (Dom.Text "") (Dom.Text "") (Dom.Text "")
           (Dom.Text "") []
  end.

Definition legacy_tree (l : list string) : Dom.node :=
  let c := legacy_view l in
  Dom.append_to (Legacy.todoContainer c)
    [Legacy.title c; Legacy.input c; Legacy.addButton c;
     Dom.append_to (Legacy.todoList c) (Legacy.items c)].

Definition globals_view (l : list string) : Globals.component :=
  match Globals.todoComponent {| TodosArray.todos := l; TodosArray.doc := Dom.empty_document |} with
  | Return c _ => c
  | _ => Globals.mkComponent (Dom.Text "") []
  end.

Definition state_object_view (l : list string) (cursor : Z) : StateObject.component :=
  match StateObject.todoComponent
          {| StateObject.todos := l; StateObject.editIndex := cursor;
             StateObject.doc := Dom.empty_document |} with
  | Return c _ => c
  | _ => StateObject.mkComponent (Dom.Text "") []
  end.

Definition hooks_view (l : list string) (cursor : Z) : Hooks.component :=
  match Hooks.todoComponent
          {| Hooks.todos_value := l; Hooks.editIndex_value := cursor;
             Hooks.doc := Dom.empty_document |} with
  | Return c _ => c
  | _ => Hooks.mkComponent (Dom.Text "") []
  end.

(** The rows of the iterations, as values. *)
Definition row_node (todo : string) (index : nat) : Dom.node :=
  match TodosArray.row todo index tt with Return n _ => n | _ => Dom.Text "" end.

Definition state_object_row_node (todo : string) (index : nat) : Dom.node :=
  match StateObject.row todo index tt with Return n _ => n | _ => Dom.Text "" end.

Definition hooks_row_node (todo : string) (index : nat) : Dom.node :=
  match Hooks.row todo index tt with Return n _ => n | _ => Dom.Text "" end.

(** The list section [#todo-list] of a rendered page. *)
Definition list_section (content : list Dom.node) : list Dom.node :=
  match Dom.find_id_list "todo-list" content with
  | Some (Dom.Element _ _ rows) => rows
  | _ => []
  end.

(** A computation that leaves a place of the world as it found it. *)
Definition preserves {W T X} (value : W -> T) (m : M W X) : Prop :=
  forall w w', final (m w) = Some w' -> value w' = value w.

(** What a setter does once the value is stored: the callback given to
    [useState], or the warning. *)
Definition notify {W} (renderFn : option (M W unit)) (console_warn : string -> M W unit)
    : M W unit :=
  match renderFn with
  | Some render => render
  | None => console_warn "No render function provided or it is not a function"
  end.

(** The handle [document.querySelector('#todo-input')] answers on a page. *)
Definition live (d : Dom.document) : Dom.handle :=
  {| Dom.of_generation := Dom.generation d; Dom.with_id := "todo-input" |}.

(** The user types [v] into the field of the page. *)
Definition typed (v : string) (d : Dom.document) : Dom.document :=
  Dom.write_value (live d) v d.

Module StateObjectRun.
Import StateObject.

(** States in which the listener can be called: the script booted on some
    page, then the user types into the field and clicks, in any order. *)
Inductive reachable : world -> Prop :=
| reach_boot w0 w : boot w0 = Return tt w -> reachable w
| reach_type w v : reachable w -> reachable (set_doc (typed v (doc w)) w)
| reach_click w target_id w' :
    reachable w -> final (on_click target_id w) = Some w' -> reachable w'.

Definition invariant (w : world) : Prop :=
  has_input (doc w) = true /\ cursor_ok (editIndex w) (todos w).

End StateObjectRun.

Module HooksRun.
Import Hooks.

Inductive reachable : world -> Prop :=
| reach_boot w0 w : boot w0 = Return tt w -> reachable w
| reach_type w v : reachable w -> reachable (set_doc (typed v (doc w)) w)
| reach_click w target_id w' :
    reachable w -> final (on_click target_id w) = Some w' -> reachable w'.

Definition invariant (w : world) : Prop :=
  has_input (doc w) = true /\ cursor_ok (editIndex_value w) (todos_value w).

End HooksRun.

(** A container over that universe made with no callback,
    [useState(initialVal)]: the world is the stored value and the
    warnings printed. *)
Module Untyped.
Import StateContainer.

Definition world : Type := jsval * list string.

Definition warn (text : string) : M world unit :=
  modify (fun w => (fst w, snd w ++ [text])).

Definition setState : jsval -> M world unit :=
  StateContainer.setState fst (fun v w => (v, snd w)) (typeof_dynamic is_function call)
    None warn.

Definition getState : M world jsval := StateContainer.getState fst.

End Untyped.

(** A container whose callback writes it:
    [const [get, set] = useState(0, () => { if (get() >= 5) set(0) })].
    The callback calls the setter, which calls the callback: [fuel]
    bounds how deep that goes.  The world is the stored value and the
    warnings printed. *)
Module Resetting.
Import StateContainer.

Definition world : Type := Z * list string.

Definition warn (text : string) : M world unit :=
  modify (fun w => (fst w, snd w ++ [text])).

Fixpoint callback (fuel : nat) : M world unit :=
  match fuel with
  | O => unmodelled
  | S fuel' =>
      current <- StateContainer.getState fst ;;
      if (5 <=? current)%Z
      then StateContainer.setState fst (fun v w => (v, snd w)) typeof_update
             (Some (callback fuel')) warn (Value 0%Z)
      else ret tt
  end.

Definition container (fuel : nat)
    : M world (M world Z * (update world Z -> M world unit)) :=
  useState fst (fun v w => (v, snd w)) typeof_update (Some (callback fuel)) warn 0%Z.

End Resetting.

Import Dom Builder.

(** The shape every view has: a container, then the children with the
    list section among them; what stands around the list section is free
    of rows and controls and holds the text field. *)
Definition plain (n : node) : bool :=
  is_element n && negb (has_class "empty-message" n) && negb (is_delete_control n)
  && negb (is_edit_control n)
  && (count is_placeholder_row n =? 0)%nat
  && (count is_delete_control n =? 0)%nat && (count is_edit_control n =? 0)%nat.

Definition shaped (l : list string) (rows : list node) (container : node)
    (children : list node) : Prop :=
  exists t p k t' p' section,
    container = Element t p []
    /\ children !! k = Some (Element t' p' section)
    /\ match l with
       | [] => exists ph, section = [ph] /\ is_placeholder_row ph = true
                          /\ count is_delete_control ph = 0%nat
                          /\ count is_edit_control ph = 0%nat
       | _ => section = rows
       end
    /\ plain (Element t p []) = true /\ plain (Element t' p' []) = true
    /\ forallb plain (take k children) = true
    /\ forallb plain (drop (S k) children) = true
    /\ String.eqb (id_of (Element t p [])) "todo-input" = false
    /\ String.eqb (id_of (Element t p [])) "todo-list" = false
    /\ is_Some (find_id_list "todo-input" (take k children))
    /\ find_id_list "todo-list" (take k children) = None
    /\ String.eqb (id_of (Element t' p' [])) "todo-list" = true.

(** The world after [render] on a page with a mount point. *)
Definition so_painted (w : StateObject.world) : StateObject.world :=
  let c := state_object_view (StateObject.todos w) (StateObject.editIndex w) in
  StateObject.set_doc
    (repaint (attached (StateObject.container c) (StateObject.children c))
       [Debug (StateObject.container c :: StateObject.children c)] (StateObject.doc w)) w.

Definition hk_painted (w : Hooks.world) : Hooks.world :=
  let c := hooks_view (Hooks.todos_value w) (Hooks.editIndex_value w) in
  Hooks.set_doc
    (repaint (attached (Hooks.container c) (Hooks.children c))
       [Debug (Hooks.container c :: Hooks.children c)] (Hooks.doc w)) w.

(** A render function of the first two iterations that paints. *)
Definition paints (render : M TodosArray.world unit) : Prop :=
  forall w, has_input (TodosArray.doc w) = true ->
    exists w', render w = Return tt w'
      /\ TodosArray.todos w' = TodosArray.todos w
      /\ has_input (TodosArray.doc w') = true
      /\ input_field (TodosArray.doc w') = Some "".

(** A page with an empty mount point, and the worlds the iterations
    reach from it with given todos (and edit index) once painted. *)
Definition demo_page : document :=
  {| root := Some []; generation := 0; values := ∅; console := [] |}.

Definition legacy_world (l : list string) (v : string) : TodosArray.world :=
  {| TodosArray.todos := l;
     TodosArray.doc := typed v (repaint (legacy_tree l) [] demo_page) |}.

Definition globals_world (l : list string) (v : string) : TodosArray.world :=
  let c := globals_view l in
  {| TodosArray.todos := l;
     TodosArray.doc :=
       typed v (repaint (attached (Globals.container c) (Globals.children c))
                  [Debug (Globals.container c :: Globals.children c)] demo_page) |}.

Definition state_object_world (l : list string) (cursor : Z) (v : string) : StateObject.world :=
  let w := so_painted {| StateObject.todos := l; StateObject.editIndex := cursor;
                         StateObject.doc := demo_page |} in
  StateObject.set_doc (typed v (StateObject.doc w)) w.

Definition hooks_world (l : list string) (cursor : Z) (v : string) : Hooks.world :=
  let w := hk_painted {| Hooks.todos_value := l; Hooks.editIndex_value := cursor;
                         Hooks.doc := demo_page |} in
  Hooks.set_doc (typed v (Hooks.doc w)) w.

(** ** Vocabulary of the further properties *)


(** The class names of an element. *)
Definition classes_of (n : node) : list string :=
  match n with
  | Text _ => []
  | Element _ p _ => classList p
  end.

(** A token [classList.add] accepts: not empty, no ASCII white space. *)
Definition good_token (t : string) : bool :=
  negb (String.eqb t "") && negb (has_whitespace t).

(** The character [c] occurs in [s]. *)
Fixpoint occurs (c : ascii) (s : string) : bool :=
  match s with
  | EmptyString => false
  | String a s' => Ascii.eqb a c || occurs c s'
  end.

(** One declaration of a style object, as [extractStyle] writes it. *)
Definition declaration (entry : string * string) : string :=
  fst entry +:+ ": " +:+ snd entry.

(** The nodes of a tree that satisfy [p], in document order. *)
Fixpoint select (p : node -> bool) (n : node) : list node :=
  (if p n then [n] else []) ++
  match n with
  | Text _ => []
  | Element _ _ children => concat (map (select p) children)
  end.

(** [node.textContent] *)
Fixpoint textContent (n : node) : string :=
  match n with
  | Text data => data
  | Element _ _ children => fold_right String.append "" (map textContent children)
  end.

(** [element.getAttribute(name)] *)
Definition getAttribute (name : string) (n : node) : option string :=
  match n with
  | Text _ => None
  | Element _ p _ => assoc_get name (attributes p)
  end.

(** The trees the later render loops attach for given todos (and edit
    index). *)
Definition globals_tree (l : list string) : node :=
  attached (Globals.container (globals_view l)) (Globals.children (globals_view l)).

Definition state_object_tree (l : list string) (cursor : Z) : node :=
  attached (StateObject.container (state_object_view l cursor))
    (StateObject.children (state_object_view l cursor)).

Definition hooks_tree (l : list string) (cursor : Z) : node :=
  attached (Hooks.container (hooks_view l cursor)) (Hooks.children (hooks_view l cursor)).

(** The page shows the widget for the values the containers hold. *)
Definition hk_shown (w : Hooks.world) : Prop :=
  root (Hooks.doc w) = Some [hooks_tree (Hooks.todos_value w) (Hooks.editIndex_value w)].

(** A row shows the text [a] under the ids of position [k]. *)
Definition row_shows (r : node) (a : string) (k : nat) : Prop :=
  map textContent (select (has_class "text") r) = [a]
  /\ map id_of (select (has_class "text") r) = ["todo-" +:+ Js.of_index k]
  /\ map id_of (select is_delete_control r) = ["delete-todo-" +:+ Js.of_index k].

Definition row_edits (r : node) (k : nat) : Prop :=
  map id_of (select is_edit_control r) = ["edit-todo-" +:+ Js.of_index k].

(** A click target that is neither the add/update button nor a control
    of an index below [n]. *)
Definition elsewhere (target_id : string) (n : nat) : Prop :=
  target_id <> "add-todo-button"
  /\ forall j, (j < n)%nat ->
       target_id <> "delete-todo-" +:+ Js.of_index j
       /\ target_id <> "edit-todo-" +:+ Js.of_index j.

Module TodosArrayRun.
Import TodosArray.

(** States in which the listener of the first two iterations can be
    called, for the [boot] and the listener of either. *)
Inductive reachable (boot : M world unit) (on_click : string -> M world unit)
    : world -> Prop :=
| reach_boot w0 w : boot w0 = Return tt w -> reachable boot on_click w
| reach_type w v :
    reachable boot on_click w -> reachable boot on_click (set_doc (typed v (doc w)) w)
| reach_click w target_id w' :
    reachable boot on_click w -> final (on_click target_id w) = Some w' ->
    reachable boot on_click w'.

End TodosArrayRun.

(** A text with no white space at either end. *)
Definition trimmed (t : string) : Prop := Js.trim t = t.

(** A container of any type made with no callback, [useState(initialVal)],
    fed plain values and arrow functions that compute without effects:
    the world is the stored value and the warnings printed. *)
Module Plain.
Import StateContainer.

Definition world (T : Type) : Type := T * list string.

Definition warn {T} (text : string) : M (world T) unit :=
  modify (fun w => (fst w, snd w ++ [text])).

Inductive step (T : Type) :=
| Put (v : T)
| Apply (f : T -> T).

Arguments Put {T} v.
Arguments Apply {T} f.

Definition argument {T} (s : step T) : update (world T) T :=
  match s with
  | Put v => Value v
  | Apply f => Updater (fun prev => ret (f prev))
  end.

Definition setState {T} (s : step T) : M (world T) unit :=
  StateContainer.setState fst (fun v w => (v, snd w)) typeof_update None warn (argument s).

(** The value a step leaves, given the value before. *)
Definition run {T} (current : T) (s : step T) : T :=
  match s with
  | Put v => v
  | Apply f => f current
  end.

End Plain.

Arguments Js.of_index : simpl never.
Arguments Js.trim : simpl never.

(** * Properties *)

(** ** Strings and arrays *)

Lemma of_index_inj (i j : nat) : Js.of_index i = Js.of_index j -> i = j.
Proof. unfold Js.of_index. apply pretty_nat_inj. Qed.

Lemma append_inj_r (p a b : string) : p +:+ a = p +:+ b -> a = b.
Proof. induction p as [|c p IH]; simpl; [tauto | intros [= H]; auto]. Qed.

Lemma delete_id_eqb (i j : nat) :
  String.eqb ("delete-todo-" +:+ Js.of_index i) ("delete-todo-" +:+ Js.of_index j)
  = (i =? j)%nat.
Proof.
  destruct (Nat.eqb_spec i j) as [->|Hne].
  - apply String.eqb_refl.
  - apply String.eqb_neq. intros H. apply append_inj_r, of_index_inj in H. contradiction.
Qed.

Lemma edit_id_eqb (i j : nat) :
  String.eqb ("edit-todo-" +:+ Js.of_index i) ("edit-todo-" +:+ Js.of_index j)
  = (i =? j)%nat.
Proof.
  destruct (Nat.eqb_spec i j) as [->|Hne].
  - apply String.eqb_refl.
  - apply String.eqb_neq. intros H. apply append_inj_r, of_index_inj in H. contradiction.
Qed.

Lemma delete_id_not_edit (i j : nat) :
  String.eqb ("delete-todo-" +:+ Js.of_index i) ("edit-todo-" +:+ Js.of_index j) = false.
Proof. reflexivity. Qed.

Lemma edit_id_not_delete (i j : nat) :
  String.eqb ("edit-todo-" +:+ Js.of_index i) ("delete-todo-" +:+ Js.of_index j) = false.
Proof. reflexivity. Qed.

Lemma delete_id_not_add (i : nat) :
  String.eqb ("delete-todo-" +:+ Js.of_index i) "add-todo-button" = false.
Proof. reflexivity. Qed.

Lemma edit_id_not_add (i : nat) :
  String.eqb ("edit-todo-" +:+ Js.of_index i) "add-todo-button" = false.
Proof. reflexivity. Qed.

Lemma add_id_hits_nothing (i : nat) : hits "add-todo-button" i = false.
Proof. reflexivity. Qed.

Lemma delete_id_hits (i j : nat) :
  hits ("delete-todo-" +:+ Js.of_index i) j = (i =? j)%nat.
Proof. unfold hits. rewrite delete_id_eqb, delete_id_not_edit. apply orb_false_r. Qed.

(** A target id is matched at one index at most, and by one of the two
    patterns. *)
Lemma hits_unique (target_id : string) (i j : nat) :
  hits target_id i = true -> hits target_id j = true -> i = j.
Proof.
  unfold hits. intros Hi Hj.
  apply orb_true_iff in Hi. apply orb_true_iff in Hj.
  destruct Hi as [Hi|Hi]; apply String.eqb_eq in Hi; subst target_id;
    destruct Hj as [Hj|Hj].
  - rewrite delete_id_eqb in Hj. apply Nat.eqb_eq in Hj. exact Hj.
  - rewrite delete_id_not_edit in Hj. discriminate.
  - rewrite edit_id_not_delete in Hj. discriminate.
  - rewrite edit_id_eqb in Hj. apply Nat.eqb_eq in Hj. exact Hj.
Qed.

Lemma trim_truthy (s : string) : Js.truthy s = false <-> s = "".
Proof. destruct s; simpl; split; congruence. Qed.

Lemma splice1_delete {A} (index : nat) (l : list A) : Js.splice1 index l = delete index l.
Proof. unfold Js.splice1. symmetry. apply delete_take_drop. Qed.

Lemma filter_index_from_past {A} (l : list A) (k index : nat) :
  (index < k)%nat -> Js.filter_index_from k index l = l.
Proof.
  revert k. induction l as [|x l IH]; intros k Hk; simpl; [reflexivity|].
  destruct (Nat.eqb_spec k index) as [E|_]; [lia|]. simpl. f_equal. apply IH. lia.
Qed.

Lemma filter_index_from_delete {A} (l : list A) (k index : nat) :
  Js.filter_index_from k (k + index) l = delete index l.
Proof.
  revert k index. induction l as [|x l IH]; intros k index; simpl; [reflexivity|].
  destruct index as [|index].
  - replace (k + 0)%nat with k by lia. rewrite Nat.eqb_refl. simpl.
    apply filter_index_from_past. lia.
  - destruct (Nat.eqb_spec k (k + S index)) as [E|_]; [lia|]. simpl. f_equal.
    replace (k + S index)%nat with (S k + index)%nat by lia. apply IH.
Qed.

(** Filtering out one position is the removal of that position. *)
Lemma filter_index_ne_delete {A} (index : nat) (l : list A) :
  Js.filter_index_ne index l = delete index l.
Proof. apply (filter_index_from_delete l 0 index). Qed.

(** ** Loops *)

Lemma forEach_from_idle {W} (len : W -> nat) (cb : nat -> M W unit) (n k : nat) (w : W) :
  (forall j w', (k <= j < k + n)%nat -> cb j w' = Return tt w') ->
  forEach_from len cb k n w = Return tt w.
Proof.
  revert k. induction n as [|n IH]; intros k Hidle; simpl; [reflexivity|].
  unfold bind, gets, when. destruct (k <? len w)%nat.
  - rewrite Hidle by lia. apply IH. intros j w' Hj. apply Hidle. lia.
  - unfold ret. apply IH. intros j w' Hj. apply Hidle. lia.
Qed.

(** When a single index can make the callback act, the loop is that one
    call, provided the index is in range and still present. *)
Lemma forEach_from_one {W} (len : W -> nat) (cb : nat -> M W unit) (i n k : nat) (w : W) :
  (k <= i < k + n)%nat -> (i < len w)%nat ->
  (forall j w', j <> i -> cb j w' = Return tt w') ->
  forEach_from len cb k n w = cb i w.
Proof.
  revert k. induction n as [|n IH]; intros k Hi Hlen Hidle; [lia|].
  simpl. unfold bind at 1 2. unfold gets.
  destruct (Nat.eq_dec k i) as [->|Hne].
  - apply Nat.ltb_lt in Hlen. rewrite Hlen. simpl.
    destruct (cb i w) as [[] w'|e w'|]; try reflexivity.
    apply forEach_from_idle. intros j w'' Hj. apply Hidle. lia.
  - assert (Hk : when (k <? len w)%nat (cb k) w = Return tt w).
    { destruct (k <? len w)%nat; simpl; [apply Hidle; exact Hne | reflexivity]. }
    rewrite Hk. apply IH; [lia | exact Hlen | exact Hidle].
Qed.

(** ** The page *)


Lemma map_from_pure {W A B} (f : A -> nat -> M W B) (g : A -> nat -> B) :
  (forall a i w, f a i w = Return (g a i) w) ->
  forall l k w, map_from f k l w = Return (imap (fun i a => g a (k + i)%nat) l) w.
Proof.
  intros Hf l. induction l as [|a l IH]; intros k w; simpl; [reflexivity|].
  unfold bind. rewrite Hf, IH. unfold ret. f_equal. f_equal.
  - f_equal. lia.
  - apply imap_ext. intros i x _. simpl. f_equal. lia.
Qed.

Lemma row_returns {W} (todo : string) (index : nat) (w : W) :
  TodosArray.row todo index w = Return (row_node todo index) w.
Proof. reflexivity. Qed.

Lemma state_object_row_returns {W} (todo : string) (index : nat) (w : W) :
  StateObject.row todo index w = Return (state_object_row_node todo index) w.
Proof. reflexivity. Qed.

Lemma hooks_row_returns {W} (todo : string) (index : nat) (w : W) :
  Hooks.row todo index w = Return (hooks_row_node todo index) w.
Proof. reflexivity. Qed.

Ltac run_builder :=
  unfold bind, createElement, gets, Hooks.getTodos, Hooks.getEditIndex, StateContainer.getState; simpl.

Lemma legacy_todoComponent_returns (w : TodosArray.world) :
  Legacy.todoComponent w = Return (legacy_view (TodosArray.todos w)) w.
Proof.
  destruct w as [l d].
  unfold legacy_view, Legacy.todoComponent. run_builder.
  rewrite !(map_from_pure _ _ row_returns). reflexivity.
Qed.

Lemma globals_todoComponent_returns (w : TodosArray.world) :
  Globals.todoComponent w = Return (globals_view (TodosArray.todos w)) w.
Proof.
  destruct w as [l d].
  unfold globals_view, Globals.todoComponent. run_builder.
  rewrite !(map_from_pure _ _ row_returns).
  destruct l; reflexivity.
Qed.

Lemma state_object_todoComponent_returns (w : StateObject.world) :
  StateObject.todoComponent w
  = Return (state_object_view (StateObject.todos w) (StateObject.editIndex w)) w.
Proof.
  destruct w as [l cursor d].
  unfold state_object_view, StateObject.todoComponent. run_builder.
  rewrite !(map_from_pure _ _ state_object_row_returns).
  destruct l, (cursor =? -1)%Z; reflexivity.
Qed.

Lemma hooks_todoComponent_returns (w : Hooks.world) :
  Hooks.todoComponent w
  = Return (hooks_view (Hooks.todos_value w) (Hooks.editIndex_value w)) w.
Proof.
  destruct w as [l cursor d].
  unfold hooks_view, Hooks.todoComponent. run_builder.
  rewrite !(map_from_pure _ _ hooks_row_returns).
  destruct l, (cursor =? -1)%Z; reflexivity.
Qed.


Lemma append_to_nil (n : node) : append_to n [] = n.
Proof. destruct n as [|t p cs]; simpl; [reflexivity | rewrite app_nil_r; reflexivity]. Qed.

Lemma append_to_app (n : node) (xs ys : list node) :
  append_to (append_to n xs) ys = append_to n (xs ++ ys).
Proof. destruct n as [|t p cs]; simpl; [reflexivity | rewrite app_assoc; reflexivity]. Qed.

Lemma appendChild_at_here (c n : node) : appendChild_at [] c n = append_to n [c].
Proof. destruct n; reflexivity. Qed.

Lemma appendChild_at_fourth (item : node) (t : string) (p : properties) (a b c ul : node) :
  appendChild_at [3%nat] item (Element t p [a; b; c; ul])
  = Element t p [a; b; c; append_to ul [item]].
Proof. destruct ul; reflexivity. Qed.

Lemma set_root_root (d : document) : set_root (root d) d = d.
Proof. destruct d; reflexivity. Qed.

Section Attach.
Context {W : Type} (get : W -> document) (set : document -> W -> W).
Hypothesis get_set : forall d w, get (set d w) = d.
Hypothesis set_set : forall d d' w, set d (set d' w) = set d w.
Hypothesis set_get : forall w, set (get w) w = w.

Lemma attach_step (path : list nat) (c : node) (w : W) (container : node) (rest : list node) :
  root (get w) = Some (container :: rest) ->
  zoom get set (attached_appendChild 0 path c) w
  = Return tt (set (set_root (Some (appendChild_at path c container :: rest)) (get w)) w).
Proof.
  intros Hroot. unfold zoom, attached_appendChild, modify. rewrite Hroot. reflexivity.
Qed.

(** The loop of the later render functions: the elements among the
    children end up under the container, in order. *)
Lemma for_elements_attaches (children : list node) :
  forall (w : W) (container : node) (rest : list node),
    root (get w) = Some (container :: rest) ->
    for_elements (fun child => zoom get set (attached_appendChild 0 [] child)) children w
    = Return tt
        (set (set_root (Some (append_to container
                                (filter (fun c => is_element c = true) children) :: rest))
                (get w)) w).
Proof.
  induction children as [|c children IH]; intros w container rest Hroot; simpl.
  - unfold ret. rewrite append_to_nil, <- Hroot, set_root_root, set_get. reflexivity.
  - unfold bind, when. destruct (is_element c) eqn:Hc.
    + rewrite (attach_step _ _ _ _ _ Hroot), appendChild_at_here.
      rewrite (IH _ (append_to container [c]) rest)
        by (rewrite get_set; reflexivity).
      rewrite get_set, set_set, append_to_app.
      rewrite filter_cons_True by exact Hc. reflexivity.
    + unfold ret. rewrite (IH w container rest Hroot).
      rewrite filter_cons_False by (rewrite Hc; discriminate). reflexivity.
Qed.

(** The loop of the first render function: the items end up under the
    fourth child of the container. *)
Lemma iter_attaches (items : list node) :
  forall (w : W) (t : string) (p : properties) (a b c ul : node) (rest : list node),
    root (get w) = Some (Element t p [a; b; c; ul] :: rest) ->
    iter (fun item => zoom get set (attached_appendChild 0 [3%nat] item)) items w
    = Return tt
        (set (set_root (Some (Element t p [a; b; c; append_to ul items] :: rest))
                (get w)) w).
Proof.
  induction items as [|item items IH]; intros w t p a b c ul rest Hroot; simpl.
  - unfold ret. rewrite append_to_nil, <- Hroot, set_root_root, set_get. reflexivity.
  - unfold bind. rewrite (attach_step _ _ _ _ _ Hroot).
    rewrite appendChild_at_fourth.
    rewrite (IH _ t p a b c (append_to ul [item]) rest)
      by (rewrite get_set; reflexivity).
    rewrite get_set, set_set, append_to_app. reflexivity.
Qed.
End Attach.

(** A freshly painted page shows an empty text field. *)
Lemma repaint_has_input (tree : node) (logged : list message) (d : document) :
  is_Some (find_id "todo-input" tree) -> has_input (repaint tree logged d) = true.
Proof. intros [n Hn]. unfold has_input, repaint. simpl. rewrite Hn. reflexivity. Qed.

Lemma repaint_input_field (tree : node) (logged : list message) (d : document) :
  is_Some (find_id "todo-input" tree) -> input_field (repaint tree logged d) = Some "".
Proof.
  intros [n Hn]. unfold input_field, querySelector, gets, repaint. simpl. rewrite Hn.
  unfold value_of. simpl. rewrite lookup_insert_eq. reflexivity.
Qed.


(** ** The render loops *)

Lemma todos_array_lens :
  (forall d w, TodosArray.doc (TodosArray.set_doc d w) = d)
  /\ (forall d d' w, TodosArray.set_doc d (TodosArray.set_doc d' w) = TodosArray.set_doc d w)
  /\ (forall w, TodosArray.set_doc (TodosArray.doc w) w = w).
Proof. repeat split; try reflexivity. intros []; reflexivity. Qed.

Lemma globals_render_returns (w : TodosArray.world) (old : list node) :
  root (TodosArray.doc w) = Some old ->
  let c := globals_view (TodosArray.todos w) in
  Globals.render w
  = Return tt (TodosArray.set_doc
                 (repaint (attached (Globals.container c) (Globals.children c))
                    [Debug (Globals.container c :: Globals.children c)] (TodosArray.doc w)) w).
Proof.
  intros Hroot c. destruct todos_array_lens as (Hgs & Hss & Hsg).
  unfold Globals.render, TodosArray.in_doc.
  unfold bind at 1. unfold zoom at 1, gets. rewrite Hroot.
  unfold bind at 1. unfold zoom at 1, clear_root, modify.
  unfold bind at 1. rewrite globals_todoComponent_returns.
  unfold bind at 1. unfold zoom at 1, console_debug, modify.
  unfold bind at 1. unfold zoom at 1, root_appendChild.
  cbn [TodosArray.doc TodosArray.set_doc TodosArray.todos root set_root log generation values console app].
  erewrite (for_elements_attaches _ _ Hgs Hss Hsg) by reflexivity.
  reflexivity.
Qed.

Lemma state_object_lens :
  (forall d w, StateObject.doc (StateObject.set_doc d w) = d)
  /\ (forall d d' w, StateObject.set_doc d (StateObject.set_doc d' w) = StateObject.set_doc d w)
  /\ (forall w, StateObject.set_doc (StateObject.doc w) w = w).
Proof. repeat split; try reflexivity. intros []; reflexivity. Qed.

Lemma state_object_render_returns (w : StateObject.world) (old : list node) :
  root (StateObject.doc w) = Some old ->
  let c := state_object_view (StateObject.todos w) (StateObject.editIndex w) in
  StateObject.render w
  = Return tt (StateObject.set_doc
                 (repaint (attached (StateObject.container c) (StateObject.children c))
                    [Debug (StateObject.container c :: StateObject.children c)]
                    (StateObject.doc w)) w).
Proof.
  intros Hroot c. destruct state_object_lens as (Hgs & Hss & Hsg).
  unfold StateObject.render, StateObject.in_doc.
  unfold bind at 1. unfold zoom at 1, gets. rewrite Hroot.
  unfold bind at 1. unfold zoom at 1, clear_root, modify.
  unfold bind at 1. rewrite state_object_todoComponent_returns.
  unfold bind at 1. unfold zoom at 1, console_debug, modify.
  unfold bind at 1. unfold zoom at 1, root_appendChild.
  cbn [StateObject.doc StateObject.set_doc StateObject.todos StateObject.editIndex
       root set_root log generation values console app].
  erewrite (for_elements_attaches _ _ Hgs Hss Hsg) by reflexivity.
  reflexivity.
Qed.

Lemma hooks_lens :
  (forall d w, Hooks.doc (Hooks.set_doc d w) = d)
  /\ (forall d d' w, Hooks.set_doc d (Hooks.set_doc d' w) = Hooks.set_doc d w)
  /\ (forall w, Hooks.set_doc (Hooks.doc w) w = w).
Proof. repeat split; try reflexivity. intros []; reflexivity. Qed.

Lemma hooks_render_returns (w : Hooks.world) (old : list node) :
  root (Hooks.doc w) = Some old ->
  let c := hooks_view (Hooks.todos_value w) (Hooks.editIndex_value w) in
  Hooks.render w
  = Return tt (Hooks.set_doc
                 (repaint (attached (Hooks.container c) (Hooks.children c))
                    [Debug (Hooks.container c :: Hooks.children c)] (Hooks.doc w)) w).
Proof.
  intros Hroot c. destruct hooks_lens as (Hgs & Hss & Hsg).
  unfold Hooks.render, Hooks.in_doc.
  unfold bind at 1. unfold zoom at 1, gets. rewrite Hroot.
  unfold bind at 1. unfold zoom at 1, clear_root, modify.
  unfold bind at 1. rewrite hooks_todoComponent_returns.
  unfold bind at 1. unfold zoom at 1, console_debug, modify.
  unfold bind at 1. unfold zoom at 1, root_appendChild.
  cbn [Hooks.doc Hooks.set_doc Hooks.todos_value Hooks.editIndex_value
       root set_root log generation values console app].
  erewrite (for_elements_attaches _ _ Hgs Hss Hsg) by reflexivity.
  reflexivity.
Qed.

Lemma legacy_view_shape (l : list string) :
  exists t p a b c ul,
    Legacy.todoContainer (legacy_view l) = Element t p []
    /\ Legacy.title (legacy_view l) = a /\ Legacy.input (legacy_view l) = b
    /\ Legacy.addButton (legacy_view l) = c /\ Legacy.todoList (legacy_view l) = ul.
Proof.
  unfold legacy_view, Legacy.todoComponent. run_builder.
  rewrite !(map_from_pure _ _ row_returns). simpl. repeat eexists.
Qed.

Lemma legacy_render_returns (w : TodosArray.world) (old : list node) :
  root (TodosArray.doc w) = Some old ->
  Legacy.render w
  = Return tt (TodosArray.set_doc
                 (repaint (legacy_tree (TodosArray.todos w)) [] (TodosArray.doc w)) w).
Proof.
  intros Hroot. destruct todos_array_lens as (Hgs & Hss & Hsg).
  unfold Legacy.render, TodosArray.in_doc.
  unfold bind at 1. unfold zoom at 1, gets. rewrite Hroot.
  unfold bind at 1. cbn [bool_decide decide_rel when].
  replace (bool_decide (is_Some (Some old))) with true
    by (symmetry; apply bool_decide_eq_true; eauto).
  cbn [when]. unfold zoom at 1, clear_root, modify.
  unfold bind at 1. rewrite legacy_todoComponent_returns.
  cbn [TodosArray.doc TodosArray.set_doc TodosArray.todos].
  unfold legacy_tree.
  destruct (legacy_view_shape (TodosArray.todos w)) as (t & p & a & b & c & ul & Hc & Ha & Hb & Hcc & Hul).
  rewrite Hc, Ha, Hb, Hcc, Hul.
  unfold bind at 1. unfold zoom at 1, root_appendChild.
  cbn [TodosArray.doc TodosArray.set_doc root set_root app generation values console].
  unfold bind at 1. erewrite attach_step by reflexivity.
  unfold bind at 1. erewrite attach_step by (rewrite Hgs; reflexivity).
  unfold bind at 1. erewrite attach_step by (rewrite Hgs; reflexivity).
  unfold bind at 1. erewrite attach_step by (rewrite Hgs; reflexivity).
  rewrite !Hss, !Hgs. cbn [appendChild_at app set_root root generation values console].
  destruct (0 <? length (Legacy.items (legacy_view (TodosArray.todos w))))%nat eqn:Hlen;
    cbn [when].
  - erewrite (iter_attaches _ _ Hgs Hss Hsg) by (rewrite Hgs; reflexivity).
    rewrite Hss, Hgs. unfold repaint. cbn [append_to app set_root TodosArray.set_doc
      TodosArray.doc TodosArray.todos root generation values console].
    rewrite app_nil_r. reflexivity.
  - apply Nat.ltb_ge in Hlen.
    destruct (Legacy.items (legacy_view (TodosArray.todos w))); [|simpl in Hlen; lia].
    rewrite append_to_nil. unfold ret, repaint. cbn [append_to app set_root TodosArray.set_doc
      TodosArray.doc TodosArray.todos root generation values console].
    rewrite app_nil_r. reflexivity.
Qed.


Lemma render_absent_legacy (w : TodosArray.world) :
  root (TodosArray.doc w) = None ->
  Legacy.render w
  = Throw (TypeError "Cannot read properties of null (reading 'appendChild')") w.
Proof.
  intros Hroot. destruct todos_array_lens as (Hgs & Hss & Hsg).
  unfold Legacy.render, TodosArray.in_doc.
  unfold bind at 1. unfold zoom at 1, gets. rewrite Hroot.
  unfold bind at 1.
  replace (bool_decide (is_Some (@None (list node)))) with false
    by (symmetry; apply bool_decide_eq_false; intros [? [=]]).
  cbn [when ret]. unfold bind at 1. rewrite legacy_todoComponent_returns.
  unfold bind at 1. unfold zoom at 1, root_appendChild. rewrite !Hsg, Hroot, Hsg. reflexivity.
Qed.

Lemma render_absent_globals (w : TodosArray.world) :
  root (TodosArray.doc w) = None ->
  Globals.render w = Throw (Error "Root element not found in the DOM") w.
Proof.
  intros Hroot. destruct todos_array_lens as (Hgs & Hss & Hsg).
  unfold Globals.render, TodosArray.in_doc.
  unfold bind at 1. unfold zoom at 1, gets. rewrite Hroot, Hsg. reflexivity.
Qed.

Lemma render_absent_state_object (w : StateObject.world) :
  root (StateObject.doc w) = None ->
  StateObject.render w = Throw (Error "Root element not found in the DOM") w.
Proof.
  intros Hroot. destruct state_object_lens as (Hgs & Hss & Hsg).
  unfold StateObject.render, StateObject.in_doc.
  unfold bind at 1. unfold zoom at 1, gets. rewrite Hroot, Hsg. reflexivity.
Qed.

Lemma render_absent_hooks (w : Hooks.world) :
  root (Hooks.doc w) = None ->
  Hooks.render w = Throw (Error "Root element not found in the DOM") w.
Proof.
  intros Hroot. destruct hooks_lens as (Hgs & Hss & Hsg).
  unfold Hooks.render, Hooks.in_doc.
  unfold bind at 1. unfold zoom at 1, gets. rewrite Hroot, Hsg. reflexivity.
Qed.

Ltac closed_facts :=
  repeat match goal with
         | |- _ /\ _ => split
         | |- exists _, _ => eexists
         | |- is_Some _ => eexists; reflexivity
         | |- _ = _ => reflexivity
         end.

Lemma globals_view_shaped (l : list string) :
  shaped l (imap (fun i a => row_node a (0 + i)) l)
    (Globals.container (globals_view l)) (Globals.children (globals_view l)).
Proof.
  unfold shaped, globals_view, Globals.todoComponent. run_builder.
  rewrite !(map_from_pure _ _ row_returns).
  destruct l; do 2 eexists; exists 3%nat; do 3 eexists; closed_facts.
Qed.

Lemma state_object_view_shaped (l : list string) (cursor : Z) :
  shaped l (imap (fun i a => state_object_row_node a (0 + i)) l)
    (StateObject.container (state_object_view l cursor))
    (StateObject.children (state_object_view l cursor)).
Proof.
  unfold shaped, state_object_view, StateObject.todoComponent. run_builder.
  rewrite !(map_from_pure _ _ state_object_row_returns).
  destruct l, (cursor =? -1)%Z; do 2 eexists; exists 3%nat; do 3 eexists; closed_facts.
Qed.

Lemma hooks_view_shaped (l : list string) (cursor : Z) :
  shaped l (imap (fun i a => hooks_row_node a (0 + i)) l)
    (Hooks.container (hooks_view l cursor)) (Hooks.children (hooks_view l cursor)).
Proof.
  unfold shaped, hooks_view, Hooks.todoComponent. run_builder.
  rewrite !(map_from_pure _ _ hooks_row_returns).
  destruct l, (cursor =? -1)%Z; do 2 eexists; exists 2%nat; do 3 eexists; closed_facts.
Qed.

(** ** Handles and the text field *)

Lemma querySelector_input (d : document) :
  has_input d = true -> querySelector "todo-input" d = Return (Some (live d)) d.
Proof.
  unfold has_input, querySelector, gets, live. destruct (root d) as [content|]; [|discriminate].
  destruct (find_id_list "todo-input" content); [reflexivity | discriminate].
Qed.

Lemma input_field_live (d : document) :
  has_input d = true -> input_field d = Some (value_of (live d) d).
Proof. intros H. unfold input_field. rewrite (querySelector_input d H). reflexivity. Qed.

Lemma has_input_root (d : document) :
  has_input d = true -> exists content, root d = Some content.
Proof. unfold has_input. destruct (root d); [eauto | discriminate]. Qed.

Lemma has_input_write (h : handle) (v : string) (d : document) :
  has_input (write_value h v d) = has_input d.
Proof. reflexivity. Qed.

Lemma value_of_write (h : handle) (v : string) (d : document) :
  value_of h (write_value h v d) = v.
Proof.
  unfold value_of, write_value. simpl. rewrite lookup_insert_eq. simpl.
  rewrite lookup_insert_eq. reflexivity.
Qed.


(** ** What a shaped view shows *)

Lemma find_id_element (id t : string) (p : properties) (cs : list node) :
  String.eqb (id_of (Element t p [])) id = false ->
  find_id id (Element t p cs) = find_id_list id cs.
Proof.
  intros H. simpl in *. rewrite H. induction cs as [|c cs IH]; simpl; [reflexivity|].
  destruct (find_id id c); [reflexivity | exact IH].
Qed.

Lemma find_id_element_self (id t : string) (p : properties) (cs : list node) :
  String.eqb (id_of (Element t p [])) id = true ->
  find_id id (Element t p cs) = Some (Element t p cs).
Proof. intros H. simpl in *. rewrite H. reflexivity. Qed.

Lemma find_id_list_app (id : string) (xs ys : list node) :
  find_id_list id (xs ++ ys)
  = match find_id_list id xs with Some r => Some r | None => find_id_list id ys end.
Proof.
  induction xs as [|x xs IH]; simpl; [reflexivity|].
  destruct (find_id id x); [reflexivity | exact IH].
Qed.

Lemma find_id_list_single (id : string) (x : node) :
  find_id_list id [x] = find_id id x.
Proof. simpl. destruct (find_id id x); reflexivity. Qed.

Lemma find_id_list_cons (id : string) (x : node) (xs : list node) :
  find_id_list id (x :: xs)
  = match find_id id x with Some r => Some r | None => find_id_list id xs end.
Proof. reflexivity. Qed.

Lemma count_element (P : node -> bool) (t : string) (p : properties) (cs : list node) :
  count P (Element t p cs) = ((if P (Element t p cs) then 1 else 0) + count_in P cs)%nat.
Proof. reflexivity. Qed.

Lemma count_in_app (P : node -> bool) (xs ys : list node) :
  count_in P (xs ++ ys) = (count_in P xs + count_in P ys)%nat.
Proof.
  unfold count_in. induction xs as [|x xs IH]; simpl; [reflexivity|]. rewrite IH. lia.
Qed.

Lemma count_in_cons (P : node -> bool) (x : node) (xs : list node) :
  count_in P (x :: xs) = (count P x + count_in P xs)%nat.
Proof. reflexivity. Qed.

Lemma placeholder_needs_class (t : string) (p : properties) (cs : list node) :
  has_class "empty-message" (Element t p []) = false ->
  is_placeholder_row (Element t p cs) = false.
Proof.
  intros H. unfold is_placeholder_row. destruct cs as [|[s|? ? ?] [|? ?]]; try reflexivity.
  change (has_class "empty-message" (Element t p [Text s]))
    with (has_class "empty-message" (Element t p [])).
  rewrite H. apply andb_false_r.
Qed.

Lemma plain_spec (n : node) :
  plain n = true ->
  is_element n = true /\ has_class "empty-message" n = false
  /\ is_delete_control n = false /\ is_edit_control n = false
  /\ count is_placeholder_row n = 0%nat /\ count is_delete_control n = 0%nat
  /\ count is_edit_control n = 0%nat.
Proof.
  unfold plain. rewrite !andb_true_iff, !negb_true_iff, !Nat.eqb_eq. tauto.
Qed.

Lemma plain_all (P : node -> bool) (xs : list node) :
  (forall n, plain n = true -> count P n = 0%nat) ->
  forallb plain xs = true -> count_in P xs = 0%nat.
Proof.
  intros HP. induction xs as [|x xs IH]; simpl; [reflexivity|].
  rewrite andb_true_iff. intros [Hx Hxs]. rewrite count_in_cons, (HP x Hx), (IH Hxs).
  reflexivity.
Qed.

Lemma plain_elements (xs : list node) :
  forallb plain xs = true -> filter (fun c => is_element c = true) xs = xs.
Proof.
  induction xs as [|x xs IH]; simpl; [reflexivity|].
  rewrite andb_true_iff. intros [Hx Hxs]. apply plain_spec in Hx as (Hx & _).
  rewrite filter_cons_True by exact Hx. rewrite (IH Hxs). reflexivity.
Qed.

(** A shaped component, attached, is the container around the children:
    the plain ones before, the list section, the plain ones after. *)
Lemma shaped_attached (l : list string) (rows : list node) (container : node)
    (children : list node) :
  shaped l rows container children ->
  exists t p pre t' p' section post,
    attached container children = Element t p (pre ++ Element t' p' section :: post)
    /\ match l with
       | [] => exists ph, section = [ph] /\ is_placeholder_row ph = true
                          /\ count is_delete_control ph = 0%nat
                          /\ count is_edit_control ph = 0%nat
       | _ => section = rows
       end
    /\ plain (Element t p []) = true /\ plain (Element t' p' []) = true
    /\ forallb plain pre = true /\ forallb plain post = true
    /\ String.eqb (id_of (Element t p [])) "todo-input" = false
    /\ String.eqb (id_of (Element t p [])) "todo-list" = false
    /\ is_Some (find_id_list "todo-input" pre)
    /\ find_id_list "todo-list" pre = None
    /\ String.eqb (id_of (Element t' p' [])) "todo-list" = true.
Proof.
  intros (t & p & k & t' & p' & section & -> & Hk & Hsec & Hc & Hul & Hpre & Hpost & rest).
  exists t, p, (take k children), t', p', section, (drop (S k) children).
  split; [|tauto].
  unfold attached. simpl.
  rewrite <- (take_drop_middle children k _ Hk) at 1.
  rewrite filter_app, filter_cons_True by reflexivity.
  rewrite (plain_elements _ Hpre), (plain_elements _ Hpost). reflexivity.
Qed.

Lemma shaped_has_input (l : list string) (rows : list node) (container : node)
    (children : list node) :
  shaped l rows container children ->
  is_Some (find_id "todo-input" (attached container children)).
Proof.
  intros H. apply shaped_attached in H
    as (t & p & pre & t' & p' & section & post & -> & _ & _ & _ & _ & _ & Hid & _ & [r Hr] & _).
  rewrite (find_id_element _ _ _ _ Hid), find_id_list_app, Hr. eauto.
Qed.

Lemma control_ignores_children (t : string) (p : properties) (cs : list node) :
  is_delete_control (Element t p cs) = is_delete_control (Element t p [])
  /\ is_edit_control (Element t p cs) = is_edit_control (Element t p []).
Proof. split; reflexivity. Qed.

(** The counts of a shaped view, in terms of the counts of its list
    section. *)
Lemma shaped_counts (l : list string) (rows : list node) (container : node)
    (children : list node) :
  shaped l rows container children ->
  exists section,
    list_section [attached container children] = section
    /\ match l with
       | [] => exists ph, section = [ph] /\ is_placeholder_row ph = true
                          /\ count is_delete_control ph = 0%nat
                          /\ count is_edit_control ph = 0%nat
       | _ => section = rows
       end
    /\ count is_placeholder_row (attached container children)
       = count_in is_placeholder_row section
    /\ count is_delete_control (attached container children)
       = count_in is_delete_control section
    /\ count is_edit_control (attached container children)
       = count_in is_edit_control section.
Proof.
  intros H. apply shaped_attached in H
    as (t & p & pre & t' & p' & section & post & -> & Hsec & Hc & Hul & Hpre & Hpost
        & Hid & Hidl & _ & Hnol & Hlist).
  exists section. split; [|split; [exact Hsec|]].
  - unfold list_section. rewrite find_id_list_single.
    rewrite (find_id_element _ _ _ _ Hidl), find_id_list_app, Hnol, find_id_list_cons.
    rewrite (find_id_element_self _ _ _ _ Hlist). reflexivity.
  - apply plain_spec in Hc as (_ & Hcc & Hcd & Hce & _).
    apply plain_spec in Hul as (_ & Huc & Hud & Hue & _).
    rewrite !count_element, !count_in_app, !count_in_cons, !count_element.
    rewrite (placeholder_needs_class _ _ _ Hcc), (placeholder_needs_class _ _ _ Huc).
    rewrite (proj1 (control_ignores_children t p _)), (proj2 (control_ignores_children t p _)).
    rewrite (proj1 (control_ignores_children t' p' _)), (proj2 (control_ignores_children t' p' _)).
    rewrite Hcd, Hce, Hud, Hue.
    rewrite !(plain_all _ pre), !(plain_all _ post);
      try assumption; try (intros n Hn; apply plain_spec in Hn; tauto).
    repeat split; lia.
Qed.

(** Rows are not placeholder rows; each carries one delete control. *)
Lemma rows_count (P : node -> bool) (row : string -> nat -> node) (c : nat) (l : list string) :
  (forall a i, count P (row a i) = c) ->
  forall k, count_in P (imap (fun i a => row a (k + i)%nat) l) = (c * length l)%nat.
Proof.
  intros Hrow. induction l as [|a l IH]; intros k; simpl;
    [rewrite Nat.mul_0_r; reflexivity|].
  rewrite count_in_cons, Hrow.
  rewrite (imap_ext _ (fun i a => row a (S k + i)%nat)) by (intros; simpl; f_equal; lia).
  rewrite IH, Nat.mul_succ_r. lia.
Qed.


(** ** The router over the state object *)

Lemma so_render (w : StateObject.world) :
  has_input (StateObject.doc w) = true -> StateObject.render w = Return tt (so_painted w).
Proof.
  intros H. destruct (has_input_root _ H) as [old Hroot].
  apply (state_object_render_returns w old Hroot).
Qed.

Lemma so_painted_facts (w : StateObject.world) :
  StateObject.todos (so_painted w) = StateObject.todos w
  /\ StateObject.editIndex (so_painted w) = StateObject.editIndex w
  /\ has_input (StateObject.doc (so_painted w)) = true
  /\ input_field (StateObject.doc (so_painted w)) = Some "".
Proof.
  unfold so_painted. cbn [StateObject.todos StateObject.editIndex StateObject.doc StateObject.set_doc].
  repeat split.
  - apply repaint_has_input, (shaped_has_input _ _ _ _ (state_object_view_shaped _ _)).
  - apply repaint_input_field, (shaped_has_input _ _ _ _ (state_object_view_shaped _ _)).
Qed.

Ltac so_facts :=
  match goal with
  | |- context [so_painted ?x] =>
      let Ht := fresh "Ht" in let Hc := fresh "Hc" in
      let Hh := fresh "Hh" in let Hf := fresh "Hf" in
      destruct (so_painted_facts x) as (Ht & Hc & Hh & Hf);
      rewrite ?Ht, ?Hc, ?Hh, ?Hf
  end.

Lemma so_query (w : StateObject.world) :
  has_input (StateObject.doc w) = true ->
  StateObject.in_doc (querySelector "todo-input") w
  = Return (Some (live (StateObject.doc w))) w.
Proof.
  intros H. unfold StateObject.in_doc, zoom. rewrite (querySelector_input _ H).
  destruct w; reflexivity.
Qed.

Lemma so_visit_idle (target_id : string) (input : option handle) (j : nat)
    (w : StateObject.world) :
  hits target_id j = false -> StateObject.visit target_id input j w = Return tt w.
Proof.
  unfold hits. intros H. apply orb_false_iff in H as [Hd He].
  unfold StateObject.visit, bind. rewrite Hd, He. reflexivity.
Qed.

Lemma so_visit_delete (w : StateObject.world) (i : nat) :
  has_input (StateObject.doc w) = true ->
  exists w',
    StateObject.visit ("delete-todo-" +:+ Js.of_index i) (Some (live (StateObject.doc w))) i w
    = Return tt w'
    /\ StateObject.todos w' = delete i (StateObject.todos w)
    /\ StateObject.editIndex w'
       = (if (StateObject.editIndex w =? Z.of_nat i)%Z then -1
          else if (Z.of_nat i <? StateObject.editIndex w)%Z then StateObject.editIndex w - 1
          else StateObject.editIndex w)%Z
    /\ has_input (StateObject.doc w') = true
    /\ input_field (StateObject.doc w') = Some "".
Proof.
  intros Hin. unfold StateObject.visit.
  unfold bind at 1. rewrite delete_id_eqb, Nat.eqb_refl, delete_id_not_edit. cbn [when].
  unfold bind at 1. unfold modify at 1.
  unfold bind at 1. unfold gets at 1.
  unfold bind at 1.
  cbn [StateObject.editIndex StateObject.set_todos StateObject.todos StateObject.doc].
  rewrite splice1_delete.
  destruct (StateObject.editIndex w =? Z.of_nat i)%Z eqn:Heq.
  - unfold bind at 1. unfold modify at 1.
    unfold StateObject.in_doc, zoom, set_value, modify.
    cbn [StateObject.editIndex StateObject.set_todos StateObject.set_editIndex
         StateObject.todos StateObject.doc StateObject.set_doc].
    rewrite so_render by (cbn; rewrite has_input_write; exact Hin).
    cbn [ret]. eexists. split; [reflexivity|]. so_facts. cbn. tauto.
  - destruct (Z.of_nat i <? StateObject.editIndex w)%Z eqn:Hlt.
    + unfold modify at 1.
      rewrite so_render by exact Hin.
      cbn [ret]. eexists. split; [reflexivity|]. so_facts. cbn. tauto.
    + unfold ret at 1. rewrite so_render by exact Hin.
      cbn [ret]. eexists. split; [reflexivity|]. so_facts. cbn. tauto.
Qed.

Lemma so_visit_edit (w : StateObject.world) (i : nat) :
  has_input (StateObject.doc w) = true ->
  exists w',
    StateObject.visit ("edit-todo-" +:+ Js.of_index i) (Some (live (StateObject.doc w))) i w
    = Return tt w'
    /\ StateObject.todos w' = StateObject.todos w
    /\ StateObject.editIndex w' = Z.of_nat i
    /\ has_input (StateObject.doc w') = true
    /\ input_field (StateObject.doc w') = Some "".
Proof.
  intros Hin. unfold StateObject.visit.
  unfold bind at 1. rewrite edit_id_not_delete, edit_id_eqb, Nat.eqb_refl. cbn [when ret].
  unfold bind at 1. unfold modify at 1.
  unfold bind at 1. unfold gets at 1.
  unfold bind at 1. unfold StateObject.in_doc, zoom, set_value, modify.
  rewrite so_render by (cbn; rewrite has_input_write; exact Hin).
  eexists. split; [reflexivity|]. so_facts. cbn. tauto.
Qed.

Lemma so_loop_idle (target_id : string) (input : option handle) (w : StateObject.world) :
  (forall j, (j < length (StateObject.todos w))%nat -> hits target_id j = false) ->
  forEach (fun w => length (StateObject.todos w)) (StateObject.visit target_id input) w
  = Return tt w.
Proof.
  intros Hidle. unfold forEach, bind, gets. apply forEach_from_idle.
  intros j w' Hj. apply so_visit_idle, Hidle. lia.
Qed.

Lemma so_loop_one (target_id : string) (input : option handle) (i : nat)
    (w : StateObject.world) :
  (i < length (StateObject.todos w))%nat -> hits target_id i = true ->
  forEach (fun w => length (StateObject.todos w)) (StateObject.visit target_id input) w
  = StateObject.visit target_id input i w.
Proof.
  intros Hi Hhit. unfold forEach, bind, gets. apply forEach_from_one; [lia | exact Hi |].
  intros j w' Hj. apply so_visit_idle. destruct (hits target_id j) eqn:Hj'; [|reflexivity].
  exfalso. apply Hj. apply (hits_unique target_id); assumption.
Qed.

Lemma so_click_delete (w : StateObject.world) (i : nat) :
  has_input (StateObject.doc w) = true -> (i < length (StateObject.todos w))%nat ->
  exists w',
    StateObject.on_click ("delete-todo-" +:+ Js.of_index i) w = Return tt w'
    /\ StateObject.todos w' = delete i (StateObject.todos w)
    /\ StateObject.editIndex w'
       = (if (StateObject.editIndex w =? Z.of_nat i)%Z then -1
          else if (Z.of_nat i <? StateObject.editIndex w)%Z then StateObject.editIndex w - 1
          else StateObject.editIndex w)%Z
    /\ has_input (StateObject.doc w') = true
    /\ input_field (StateObject.doc w') = Some "".
Proof.
  intros Hin Hi. unfold StateObject.on_click.
  unfold bind at 1. rewrite (so_query w Hin).
  unfold bind at 1. rewrite delete_id_not_add. cbn [when ret].
  rewrite (so_loop_one _ _ i) by (try exact Hi; rewrite delete_id_hits; apply Nat.eqb_refl).
  apply so_visit_delete, Hin.
Qed.

Lemma so_click_edit (w : StateObject.world) (i : nat) :
  has_input (StateObject.doc w) = true -> (i < length (StateObject.todos w))%nat ->
  exists w',
    StateObject.on_click ("edit-todo-" +:+ Js.of_index i) w = Return tt w'
    /\ StateObject.todos w' = StateObject.todos w
    /\ StateObject.editIndex w' = Z.of_nat i
    /\ has_input (StateObject.doc w') = true
    /\ input_field (StateObject.doc w') = Some "".
Proof.
  intros Hin Hi. unfold StateObject.on_click.
  unfold bind at 1. rewrite (so_query w Hin).
  unfold bind at 1. rewrite edit_id_not_add. cbn [when ret].
  rewrite (so_loop_one _ _ i)
    by (try exact Hi; unfold hits; rewrite edit_id_eqb, Nat.eqb_refl; apply orb_true_r).
  apply so_visit_edit, Hin.
Qed.

Lemma so_click_other (w : StateObject.world) (target_id : string) :
  has_input (StateObject.doc w) = true ->
  String.eqb target_id "add-todo-button" = false ->
  (forall j, (j < length (StateObject.todos w))%nat -> hits target_id j = false) ->
  StateObject.on_click target_id w = Return tt w.
Proof.
  intros Hin Hadd Hidle. unfold StateObject.on_click.
  unfold bind at 1. rewrite (so_query w Hin).
  unfold bind at 1. rewrite Hadd. cbn [when ret].
  apply so_loop_idle, Hidle.
Qed.

Lemma store_valid {A} (i : Z) (v : A) (l : list A) :
  (0 <= i < Z.of_nat (length l))%Z -> Js.store i v l = Some (<[Z.to_nat i := v]> l).
Proof.
  intros Hi. unfold Js.store.
  destruct (Z.ltb_spec i 0) as [E|_]; [lia|].
  destruct (Z.ltb_spec i (Z.of_nat (length l))) as [_|E]; [reflexivity | lia].
Qed.

Lemma set_doc_doc (w : StateObject.world) : StateObject.set_doc (StateObject.doc w) w = w.
Proof. destruct w; reflexivity. Qed.

Lemma so_click_add (w : StateObject.world) :
  has_input (StateObject.doc w) = true ->
  cursor_ok (StateObject.editIndex w) (StateObject.todos w) ->
  let text := Js.trim (value_of (live (StateObject.doc w)) (StateObject.doc w)) in
  exists w',
    StateObject.on_click "add-todo-button" w = Return tt w'
    /\ has_input (StateObject.doc w') = true
    /\ input_field (StateObject.doc w') = Some ""
    /\ (StateObject.todos w', StateObject.editIndex w')
       = (if Js.truthy text then
            if (StateObject.editIndex w =? -1)%Z
            then (StateObject.todos w ++ [text], StateObject.editIndex w)
            else (<[Z.to_nat (StateObject.editIndex w) := text]> (StateObject.todos w), (-1)%Z)
          else (StateObject.todos w, StateObject.editIndex w)).
Proof.
  intros Hin Hcur text.
  assert (Hloop : forall input w1,
            forEach (fun w => length (StateObject.todos w))
              (StateObject.visit "add-todo-button" input) w1 = Return tt w1).
  { intros input w1. apply so_loop_idle. intros j _. apply add_id_hits_nothing. }
  unfold StateObject.on_click, bind. rewrite (so_query w Hin).
  cbn [String.eqb Ascii.eqb Bool.eqb when].
  unfold StateObject.in_doc, zoom, get_value, set_value, gets, modify, ret.
  rewrite set_doc_doc. fold text.
  destruct (Js.truthy text) eqn:Htext; cbn [when].
  - destruct (StateObject.editIndex w =? -1)%Z eqn:Hsent; cbn [negb].
    + cbn [StateObject.doc StateObject.set_todos].
      rewrite so_render by (cbn; rewrite has_input_write; exact Hin).
      rewrite Hloop. eexists. split; [reflexivity|]. so_facts. cbn. tauto.
    + destruct Hcur as [Hc|Hc]; [rewrite Hc in Hsent; discriminate|].
      rewrite store_valid by exact Hc.
      cbn [StateObject.doc StateObject.set_todos StateObject.set_editIndex].
      rewrite so_render by (cbn; rewrite has_input_write; exact Hin).
      rewrite Hloop. eexists. split; [reflexivity|]. so_facts. cbn. tauto.
  - cbn [ret StateObject.doc].
    rewrite so_render by (cbn; rewrite has_input_write; exact Hin).
    rewrite Hloop. eexists. split; [reflexivity|]. so_facts. cbn. tauto.
Qed.


(** ** The router over the two state containers *)

Lemma hk_render (w : Hooks.world) :
  has_input (Hooks.doc w) = true -> Hooks.render w = Return tt (hk_painted w).
Proof.
  intros H. destruct (has_input_root _ H) as [old Hroot].
  apply (hooks_render_returns w old Hroot).
Qed.

Lemma hk_painted_facts (w : Hooks.world) :
  Hooks.todos_value (hk_painted w) = Hooks.todos_value w
  /\ Hooks.editIndex_value (hk_painted w) = Hooks.editIndex_value w
  /\ has_input (Hooks.doc (hk_painted w)) = true
  /\ input_field (Hooks.doc (hk_painted w)) = Some ""
  /\ generation (Hooks.doc (hk_painted w)) = S (generation (Hooks.doc w)).
Proof.
  unfold hk_painted.
  cbn [Hooks.todos_value Hooks.editIndex_value Hooks.doc Hooks.set_doc].
  repeat split.
  - apply repaint_has_input, (shaped_has_input _ _ _ _ (hooks_view_shaped _ _)).
  - apply repaint_input_field, (shaped_has_input _ _ _ _ (hooks_view_shaped _ _)).
Qed.

Ltac hk_facts :=
  repeat match goal with
  | |- context [hk_painted ?x] =>
      let Ht := fresh "Ht" in let Hc := fresh "Hc" in
      let Hh := fresh "Hh" in let Hf := fresh "Hf" in let Hg := fresh "Hg" in
      let p := fresh "painted" in
      destruct (hk_painted_facts x) as (Ht & Hc & Hh & Hf & Hg);
      generalize dependent (hk_painted x); intros p; intros
  end.

Ltac hk_rw :=
  repeat match goal with
  | H : Hooks.todos_value ?x = _ |- context [Hooks.todos_value ?x] => rewrite H
  | H : Hooks.editIndex_value ?x = _ |- context [Hooks.editIndex_value ?x] => rewrite H
  | H : has_input (Hooks.doc ?x) = _ |- context [has_input (Hooks.doc ?x)] => rewrite H
  | H : input_field (Hooks.doc ?x) = _ |- context [input_field (Hooks.doc ?x)] => rewrite H
  | H : generation (Hooks.doc ?x) = _ |- context [generation (Hooks.doc ?x)] => rewrite H
  | _ => progress cbn [Hooks.todos_value Hooks.editIndex_value Hooks.doc
                       Hooks.set_todos_value Hooks.set_editIndex_value Hooks.set_doc]
  end.

Lemma hk_query (w : Hooks.world) :
  has_input (Hooks.doc w) = true ->
  Hooks.in_doc (querySelector "todo-input") w = Return (Some (live (Hooks.doc w))) w.
Proof.
  intros H. unfold Hooks.in_doc, zoom. rewrite (querySelector_input _ H).
  destruct w; reflexivity.
Qed.

Lemma hk_set_doc_doc (w : Hooks.world) : Hooks.set_doc (Hooks.doc w) w = w.
Proof. destruct w; reflexivity. Qed.

(** The setters of the widget: the new value is stored, then the page
    is painted from it. *)
Lemma hk_setTodos_updater (f : list string -> M Hooks.world (list string))
    (l : list string) (w : Hooks.world) :
  has_input (Hooks.doc w) = true ->
  f (Hooks.todos_value w) w = Return l w ->
  Hooks.setTodos (StateContainer.Updater f) w
  = Return tt (hk_painted (Hooks.set_todos_value l w)).
Proof.
  intros Hin Hf. unfold Hooks.setTodos, StateContainer.setState, bind, gets, modify.
  cbn [StateContainer.typeof_update]. rewrite Hf. apply hk_render. exact Hin.
Qed.

Lemma hk_setEditIndex_updater (f : Z -> M Hooks.world Z) (i : Z) (w : Hooks.world) :
  has_input (Hooks.doc w) = true ->
  f (Hooks.editIndex_value w) w = Return i w ->
  Hooks.setEditIndex (StateContainer.Updater f) w
  = Return tt (hk_painted (Hooks.set_editIndex_value i w)).
Proof.
  intros Hin Hf. unfold Hooks.setEditIndex, StateContainer.setState, bind, gets, modify.
  cbn [StateContainer.typeof_update]. rewrite Hf. apply hk_render. exact Hin.
Qed.

Lemma hk_setEditIndex_value (i : Z) (w : Hooks.world) :
  has_input (Hooks.doc w) = true ->
  Hooks.setEditIndex (StateContainer.Value i) w
  = Return tt (hk_painted (Hooks.set_editIndex_value i w)).
Proof.
  intros Hin. unfold Hooks.setEditIndex, StateContainer.setState, bind, gets, modify.
  cbn [StateContainer.typeof_update]. apply hk_render. exact Hin.
Qed.

(** Writing through a handle of an earlier generation leaves the field
    of the page as it is. *)
Lemma input_field_stale (h : handle) (v : string) (d : document) :
  of_generation h <> generation d ->
  input_field (write_value h v d) = input_field d.
Proof.
  intros Hne. unfold input_field, querySelector, gets. cbn [root write_value generation].
  destruct (root d) as [content|]; [|reflexivity].
  destruct (find_id_list "todo-input" content); [|reflexivity].
  unfold value_of, write_value. cbn [values of_generation with_id].
  rewrite lookup_insert_ne by exact Hne. reflexivity.
Qed.

Lemma input_field_written (v : string) (d : document) :
  has_input d = true -> input_field (write_value (live d) v d) = Some v.
Proof.
  intros Hin. rewrite input_field_live by exact Hin.
  change (live (write_value (live d) v d)) with (live d).
  rewrite value_of_write. reflexivity.
Qed.

Lemma hk_visit_idle (target_id : string) (input : option handle) (j : nat) (w : Hooks.world) :
  hits target_id j = false -> Hooks.visit target_id input j w = Return tt w.
Proof.
  unfold hits. intros H. apply orb_false_iff in H as [Hd He].
  unfold Hooks.visit, bind. rewrite Hd, He. reflexivity.
Qed.

Lemma hk_stale_write (h : handle) (v : string) (w : Hooks.world) :
  of_generation h <> generation (Hooks.doc w) ->
  exists w',
    Hooks.in_doc (set_value (Some h) v) w = Return tt w'
    /\ Hooks.todos_value w' = Hooks.todos_value w
    /\ Hooks.editIndex_value w' = Hooks.editIndex_value w
    /\ has_input (Hooks.doc w') = has_input (Hooks.doc w)
    /\ input_field (Hooks.doc w') = input_field (Hooks.doc w).
Proof.
  intros Hne. unfold Hooks.in_doc, zoom, set_value, modify. eexists. split; [reflexivity|].
  cbn [Hooks.todos_value Hooks.editIndex_value Hooks.doc Hooks.set_doc].
  rewrite input_field_stale by exact Hne. rewrite has_input_write. tauto.
Qed.

Lemma hk_visit_delete (w : Hooks.world) (i : nat) :
  has_input (Hooks.doc w) = true ->
  exists w',
    Hooks.visit ("delete-todo-" +:+ Js.of_index i) (Some (live (Hooks.doc w))) i w
    = Return tt w'
    /\ Hooks.todos_value w' = delete i (Hooks.todos_value w)
    /\ Hooks.editIndex_value w'
       = (if (Hooks.editIndex_value w =? Z.of_nat i)%Z then -1
          else if (Z.of_nat i <? Hooks.editIndex_value w)%Z then Hooks.editIndex_value w - 1
          else Hooks.editIndex_value w)%Z
    /\ has_input (Hooks.doc w') = true
    /\ input_field (Hooks.doc w') = Some "".
Proof.
  intros Hin. unfold Hooks.visit, bind.
  rewrite delete_id_eqb, Nat.eqb_refl, delete_id_not_edit. cbn [when].
  rewrite (hk_setTodos_updater _ (delete i (Hooks.todos_value w)) w Hin)
    by (unfold ret; rewrite filter_index_ne_delete; reflexivity).
  hk_facts. unfold Hooks.getEditIndex, StateContainer.getState, gets.
  rewrite Hc. cbn [Hooks.editIndex_value Hooks.set_todos_value].
  destruct (Hooks.editIndex_value w =? Z.of_nat i)%Z eqn:Heq.
  - rewrite hk_setEditIndex_value by exact Hh. hk_facts.
    match goal with
    | |- context [Hooks.in_doc (set_value (Some ?h) ?v) ?x] =>
        destruct (hk_stale_write h v x) as (w' & -> & Ht' & Hc' & Hh' & Hf')
    end.
    { cbn [live of_generation]. hk_rw. lia. }
    cbn [ret]. exists w'. split; [reflexivity|]. hk_rw. tauto.
  - rewrite Hc. cbn [Hooks.editIndex_value Hooks.set_todos_value].
    destruct (Z.of_nat i <? Hooks.editIndex_value w)%Z eqn:Hlt.
    + rewrite (hk_setEditIndex_updater _ (Hooks.editIndex_value w - 1)%Z)
        by (try exact Hh; unfold ret; rewrite Hc; reflexivity).
      hk_facts. cbn [ret]. eexists. split; [reflexivity|]. hk_rw. tauto.
    + cbn [ret]. eexists. split; [reflexivity|]. hk_rw. tauto.
Qed.

Lemma hk_visit_edit (w : Hooks.world) (i : nat) :
  has_input (Hooks.doc w) = true ->
  exists w',
    Hooks.visit ("edit-todo-" +:+ Js.of_index i) (Some (live (Hooks.doc w))) i w
    = Return tt w'
    /\ Hooks.todos_value w' = Hooks.todos_value w
    /\ Hooks.editIndex_value w' = Z.of_nat i
    /\ has_input (Hooks.doc w') = true
    /\ input_field (Hooks.doc w') = Some "".
Proof.
  intros Hin. unfold Hooks.visit, bind.
  rewrite edit_id_not_delete, edit_id_eqb, Nat.eqb_refl. cbn [when ret].
  rewrite hk_setEditIndex_value by exact Hin. hk_facts.
  unfold Hooks.getTodos, StateContainer.getState, gets.
  match goal with
  | |- context [Hooks.in_doc (set_value (Some ?h) ?v) ?x] =>
      destruct (hk_stale_write h v x) as (w' & -> & Ht' & Hc' & Hh' & Hf')
  end.
  { cbn [live of_generation]. hk_rw. lia. }
  exists w'. split; [reflexivity|]. hk_rw. tauto.
Qed.

Lemma hk_loop_idle (target_id : string) (input : option handle) (n : nat) (w : Hooks.world) :
  (forall j, (j < n)%nat -> hits target_id j = false) ->
  forEach (fun _ => n) (Hooks.visit target_id input) w = Return tt w.
Proof.
  intros Hidle. unfold forEach, bind, gets. apply forEach_from_idle.
  intros j w' Hj. apply hk_visit_idle, Hidle. lia.
Qed.

Lemma hk_loop_one (target_id : string) (input : option handle) (i n : nat) (w : Hooks.world) :
  (i < n)%nat -> hits target_id i = true ->
  forEach (fun _ => n) (Hooks.visit target_id input) w = Hooks.visit target_id input i w.
Proof.
  intros Hi Hhit. unfold forEach, bind, gets. apply forEach_from_one; [lia | exact Hi |].
  intros j w' Hj. apply hk_visit_idle. destruct (hits target_id j) eqn:Hj'; [|reflexivity].
  exfalso. apply Hj. apply (hits_unique target_id); assumption.
Qed.

Lemma hk_click_delete (w : Hooks.world) (i : nat) :
  has_input (Hooks.doc w) = true -> (i < length (Hooks.todos_value w))%nat ->
  exists w',
    Hooks.on_click ("delete-todo-" +:+ Js.of_index i) w = Return tt w'
    /\ Hooks.todos_value w' = delete i (Hooks.todos_value w)
    /\ Hooks.editIndex_value w'
       = (if (Hooks.editIndex_value w =? Z.of_nat i)%Z then -1
          else if (Z.of_nat i <? Hooks.editIndex_value w)%Z then Hooks.editIndex_value w - 1
          else Hooks.editIndex_value w)%Z
    /\ has_input (Hooks.doc w') = true
    /\ input_field (Hooks.doc w') = Some "".
Proof.
  intros Hin Hi. unfold Hooks.on_click.
  unfold bind at 1. rewrite (hk_query w Hin).
  unfold bind at 1. rewrite delete_id_not_add. cbn [when ret].
  unfold bind at 1. unfold Hooks.getTodos, StateContainer.getState, gets.
  rewrite (hk_loop_one _ _ i) by (try exact Hi; rewrite delete_id_hits; apply Nat.eqb_refl).
  apply hk_visit_delete, Hin.
Qed.

Lemma hk_click_edit (w : Hooks.world) (i : nat) :
  has_input (Hooks.doc w) = true -> (i < length (Hooks.todos_value w))%nat ->
  exists w',
    Hooks.on_click ("edit-todo-" +:+ Js.of_index i) w = Return tt w'
    /\ Hooks.todos_value w' = Hooks.todos_value w
    /\ Hooks.editIndex_value w' = Z.of_nat i
    /\ has_input (Hooks.doc w') = true
    /\ input_field (Hooks.doc w') = Some "".
Proof.
  intros Hin Hi. unfold Hooks.on_click.
  unfold bind at 1. rewrite (hk_query w Hin).
  unfold bind at 1. rewrite edit_id_not_add. cbn [when ret].
  unfold bind at 1. unfold Hooks.getTodos, StateContainer.getState, gets.
  rewrite (hk_loop_one _ _ i)
    by (try exact Hi; unfold hits; rewrite edit_id_eqb, Nat.eqb_refl; apply orb_true_r).
  apply hk_visit_edit, Hin.
Qed.

Lemma hk_click_other (w : Hooks.world) (target_id : string) :
  has_input (Hooks.doc w) = true ->
  String.eqb target_id "add-todo-button" = false ->
  (forall j, (j < length (Hooks.todos_value w))%nat -> hits target_id j = false) ->
  Hooks.on_click target_id w = Return tt w.
Proof.
  intros Hin Hadd Hidle. unfold Hooks.on_click.
  unfold bind at 1. rewrite (hk_query w Hin).
  unfold bind at 1. rewrite Hadd. cbn [when ret].
  unfold bind at 1. unfold Hooks.getTodos, StateContainer.getState, gets.
  apply hk_loop_idle, Hidle.
Qed.

Lemma hk_click_add (w : Hooks.world) :
  has_input (Hooks.doc w) = true ->
  cursor_ok (Hooks.editIndex_value w) (Hooks.todos_value w) ->
  let text := Js.trim (value_of (live (Hooks.doc w)) (Hooks.doc w)) in
  exists w',
    Hooks.on_click "add-todo-button" w = Return tt w'
    /\ has_input (Hooks.doc w') = true
    /\ input_field (Hooks.doc w') = Some ""
    /\ (Hooks.todos_value w', Hooks.editIndex_value w')
       = (if Js.truthy text then
            if (Hooks.editIndex_value w =? -1)%Z
            then (Hooks.todos_value w ++ [text], Hooks.editIndex_value w)
            else (<[Z.to_nat (Hooks.editIndex_value w) := text]> (Hooks.todos_value w), (-1)%Z)
          else (Hooks.todos_value w, Hooks.editIndex_value w)).
Proof.
  intros Hin Hcur text.
  assert (Hloop : forall input n w1,
            forEach (fun _ => n) (Hooks.visit "add-todo-button" input) w1 = Return tt w1).
  { intros input n w1. apply hk_loop_idle. intros j _. apply add_id_hits_nothing. }
  unfold Hooks.on_click, bind. rewrite (hk_query w Hin).
  cbn [String.eqb Ascii.eqb Bool.eqb when].
  unfold Hooks.getTodos, Hooks.getEditIndex, StateContainer.getState.
  unfold Hooks.in_doc at 1. unfold zoom, get_value, gets.
  rewrite hk_set_doc_doc. fold text.
  destruct (Js.truthy text) eqn:Htext; cbn [when].
  - destruct (Hooks.editIndex_value w =? -1)%Z eqn:Hsent; cbn [negb].
    + rewrite (hk_setTodos_updater _ (Hooks.todos_value w ++ [text]) w Hin) by reflexivity.
      hk_facts.
      match goal with
      | |- context [Hooks.in_doc (set_value (Some ?h) ?v) ?x] =>
          destruct (hk_stale_write h v x) as (w' & -> & Ht' & Hc' & Hh' & Hf')
      end.
      { cbn [live of_generation]. hk_rw. lia. }
      rewrite Hloop. exists w'. split; [reflexivity|]. hk_rw. tauto.
    + destruct Hcur as [Hc|Hc]; [rewrite Hc in Hsent; discriminate|].
      rewrite (hk_setTodos_updater _
                 (<[Z.to_nat (Hooks.editIndex_value w) := text]> (Hooks.todos_value w)) w Hin)
        by (unfold bind, Hooks.getEditIndex, StateContainer.getState, gets;
            rewrite store_valid by exact Hc; reflexivity).
      hk_facts. rewrite hk_setEditIndex_value by exact Hh. hk_facts.
      match goal with
      | |- context [Hooks.in_doc (set_value (Some ?h) ?v) ?x] =>
          destruct (hk_stale_write h v x) as (w' & -> & Ht' & Hc' & Hh' & Hf')
      end.
      { cbn [live of_generation]. hk_rw. lia. }
      rewrite Hloop. exists w'. split; [reflexivity|]. hk_rw. tauto.
  - cbn [ret]. unfold Hooks.in_doc, zoom, set_value, modify.
    rewrite Hloop. eexists. split; [reflexivity|].
    cbn [Hooks.todos_value Hooks.editIndex_value Hooks.doc Hooks.set_doc].
    rewrite has_input_write, input_field_written by exact Hin. tauto.
Qed.


(** ** The router over the bare array *)

Lemma legacy_tree_shape (l : list string) :
  exists t p a b c t' p',
    legacy_tree l = Element t p [a; b; c; Element t' p' (imap (fun i x => row_node x (0 + i)) l)]
    /\ String.eqb (id_of (Element t p [])) "todo-input" = false
    /\ find_id "todo-input" a = None
    /\ is_Some (find_id "todo-input" b).
Proof.
  unfold legacy_tree, legacy_view, Legacy.todoComponent. run_builder.
  rewrite !(map_from_pure _ _ row_returns). do 7 eexists. closed_facts.
Qed.

Lemma legacy_tree_has_input (l : list string) :
  is_Some (find_id "todo-input" (legacy_tree l)).
Proof.
  destruct (legacy_tree_shape l) as (t & p & a & b & c & t' & p' & -> & Hid & Ha & [r Hb]).
  rewrite (find_id_element _ _ _ _ Hid), !find_id_list_cons, Ha, Hb. eauto.
Qed.

Lemma legacy_paints : paints Legacy.render.
Proof.
  intros w Hin. destruct (has_input_root _ Hin) as [old Hroot].
  rewrite (legacy_render_returns w old Hroot). eexists. split; [reflexivity|].
  cbn [TodosArray.todos TodosArray.doc TodosArray.set_doc]. split; [reflexivity|]. split.
  - apply repaint_has_input, legacy_tree_has_input.
  - apply repaint_input_field, legacy_tree_has_input.
Qed.

Lemma globals_paints : paints Globals.render.
Proof.
  intros w Hin. destruct (has_input_root _ Hin) as [old Hroot].
  rewrite (globals_render_returns w old Hroot). eexists. split; [reflexivity|].
  cbn [TodosArray.todos TodosArray.doc TodosArray.set_doc]. split; [reflexivity|]. split.
  - apply repaint_has_input, (shaped_has_input _ _ _ _ (globals_view_shaped _)).
  - apply repaint_input_field, (shaped_has_input _ _ _ _ (globals_view_shaped _)).
Qed.

Section TodosArrayRouter.
Variable render : M TodosArray.world unit.
Hypothesis render_paints : paints render.

Lemma ta_visit_idle (target_id : string) (j : nat) (w : TodosArray.world) :
  String.eqb target_id ("delete-todo-" +:+ Js.of_index j) = false ->
  TodosArray.visit render target_id j w = Return tt w.
Proof. intros H. unfold TodosArray.visit. rewrite H. reflexivity. Qed.

Lemma ta_click_add (w : TodosArray.world) :
  has_input (TodosArray.doc w) = true ->
  exists w',
    TodosArray.on_click render "add-todo-button" w = Return tt w'
    /\ TodosArray.todos w'
       = TodosArray.todos w
         ++ [Js.trim (value_of (live (TodosArray.doc w)) (TodosArray.doc w))]
    /\ has_input (TodosArray.doc w') = true
    /\ input_field (TodosArray.doc w') = Some "".
Proof.
  intros Hin. unfold TodosArray.on_click, bind.
  cbn [String.eqb Ascii.eqb Bool.eqb when].
  unfold TodosArray.in_doc, zoom. rewrite (querySelector_input _ Hin).
  unfold set_value. unfold gets, ret, modify.
  cbn [TodosArray.doc TodosArray.set_doc TodosArray.set_todos TodosArray.todos].
  match goal with
  | |- context [render ?x] =>
      destruct (render_paints x) as (w' & -> & Ht & Hh & Hf);
        [cbn; rewrite has_input_write; exact Hin|]
  end.
  unfold forEach, bind, gets.
  rewrite forEach_from_idle by (intros; apply ta_visit_idle; reflexivity).
  exists w'. split; [reflexivity|]. rewrite Ht, Hh, Hf. cbn. tauto.
Qed.

Lemma ta_click_delete (w : TodosArray.world) (i : nat) :
  has_input (TodosArray.doc w) = true -> (i < length (TodosArray.todos w))%nat ->
  exists w',
    TodosArray.on_click render ("delete-todo-" +:+ Js.of_index i) w = Return tt w'
    /\ TodosArray.todos w' = delete i (TodosArray.todos w)
    /\ has_input (TodosArray.doc w') = true
    /\ input_field (TodosArray.doc w') = Some "".
Proof.
  intros Hin Hi. unfold TodosArray.on_click.
  unfold bind at 1. rewrite delete_id_not_add. cbn [when ret].
  unfold forEach, bind, gets.
  rewrite (forEach_from_one _ _ i); [|lia|exact Hi|].
  2:{ intros j w' Hj. apply ta_visit_idle. rewrite delete_id_eqb.
      apply Nat.eqb_neq. congruence. }
  unfold TodosArray.visit. rewrite delete_id_eqb, Nat.eqb_refl. cbn [when].
  unfold bind, modify. rewrite splice1_delete.
  match goal with
  | |- context [render ?x] =>
      destruct (render_paints x) as (w' & -> & Ht & Hh & Hf); [exact Hin|]
  end.
  exists w'. split; [reflexivity|]. rewrite Ht, Hh, Hf. cbn. tauto.
Qed.
End TodosArrayRouter.

Lemma input_field_has_input (d : document) (v : string) :
  input_field d = Some v -> has_input d = true.
Proof.
  unfold input_field, has_input, querySelector, gets.
  destruct (root d) as [content|]; [|discriminate].
  destruct (find_id_list "todo-input" content); [reflexivity | discriminate].
Qed.

(** ** Which control a click names *)

Lemma hits_search (target_id : string) (n : nat) :
  (forall j, (j < n)%nat -> hits target_id j = false)
  \/ exists i, (i < n)%nat /\ hits target_id i = true.
Proof.
  induction n as [|n [Hnone|(i & Hi & Hhit)]].
  - left. intros j Hj. lia.
  - destruct (hits target_id n) eqn:Hn.
    + right. exists n. split; [lia | exact Hn].
    + left. intros j Hj. destruct (Nat.eq_dec j n) as [->|Hne]; [exact Hn|].
      apply Hnone. lia.
  - right. exists i. split; [lia | exact Hhit].
Qed.

Lemma hits_names (target_id : string) (i : nat) :
  hits target_id i = true ->
  target_id = "delete-todo-" +:+ Js.of_index i \/ target_id = "edit-todo-" +:+ Js.of_index i.
Proof.
  unfold hits. intros H. apply orb_true_iff in H as [H|H]; apply String.eqb_eq in H; auto.
Qed.

(** ** Boot *)

Lemma so_boot_returns (w0 : StateObject.world) (old : list node) :
  root (StateObject.doc w0) = Some old ->
  exists w,
    StateObject.boot w0 = Return tt w
    /\ StateObject.todos w = [] /\ StateObject.editIndex w = (-1)%Z
    /\ has_input (StateObject.doc w) = true.
Proof.
  intros Hroot. unfold StateObject.boot, bind, modify.
  rewrite (state_object_render_returns _ old) by exact Hroot.
  destruct (so_painted_facts
              (StateObject.set_editIndex (-1) (StateObject.set_todos [] w0)))
    as (Ht & Hc & Hh & Hf).
  exists (so_painted (StateObject.set_editIndex (-1) (StateObject.set_todos [] w0))).
  split; [reflexivity|]. rewrite Ht, Hc.
  split; [reflexivity|]. split; [reflexivity | exact Hh].
Qed.

Lemma hk_boot_returns (w0 : Hooks.world) (old : list node) :
  root (Hooks.doc w0) = Some old ->
  exists w,
    Hooks.boot w0 = Return tt w
    /\ Hooks.todos_value w = [] /\ Hooks.editIndex_value w = (-1)%Z
    /\ has_input (Hooks.doc w) = true.
Proof.
  intros Hroot. unfold Hooks.boot, StateContainer.useState, bind, modify, ret.
  rewrite (hooks_render_returns _ old) by exact Hroot.
  destruct (hk_painted_facts
              (Hooks.set_editIndex_value (-1) (Hooks.set_todos_value [] w0)))
    as (Ht & Hc & Hh & Hf & Hg).
  exists (hk_painted (Hooks.set_editIndex_value (-1) (Hooks.set_todos_value [] w0))).
  split; [reflexivity|]. rewrite Ht, Hc.
  split; [reflexivity|]. split; [reflexivity | exact Hh].
Qed.

Lemma so_boot (w0 w : StateObject.world) :
  StateObject.boot w0 = Return tt w -> StateObjectRun.invariant w.
Proof.
  unfold StateObject.boot, bind, modify. intros H.
  destruct (root (StateObject.doc w0)) as [old|] eqn:Hroot.
  - rewrite (state_object_render_returns _ old) in H by exact Hroot.
    destruct (so_painted_facts
                (StateObject.set_editIndex (-1) (StateObject.set_todos [] w0)))
      as (Ht & Hc & Hh & Hf).
    assert (w = so_painted (StateObject.set_editIndex (-1) (StateObject.set_todos [] w0)))
      as -> by (unfold so_painted; congruence).
    split; [exact Hh | left; rewrite Hc; reflexivity].
  - rewrite render_absent_state_object in H by exact Hroot. discriminate.
Qed.

Lemma hk_boot (w0 w : Hooks.world) :
  Hooks.boot w0 = Return tt w -> HooksRun.invariant w.
Proof.
  unfold Hooks.boot, StateContainer.useState, bind, modify, ret. intros H.
  destruct (root (Hooks.doc w0)) as [old|] eqn:Hroot.
  - rewrite (hooks_render_returns _ old) in H by exact Hroot.
    destruct (hk_painted_facts
                (Hooks.set_editIndex_value (-1) (Hooks.set_todos_value [] w0)))
      as (Ht & Hc & Hh & Hf & Hg).
    assert (w = hk_painted (Hooks.set_editIndex_value (-1) (Hooks.set_todos_value [] w0)))
      as -> by (unfold hk_painted; congruence).
    split; [exact Hh | left; rewrite Hc; reflexivity].
  - rewrite render_absent_hooks in H by exact Hroot. discriminate.
Qed.

(** ** Every click keeps the cursor on the list *)

Lemma cursor_ok_delete (cursor : Z) (i : nat) (l : list string) :
  (i < length l)%nat -> cursor_ok cursor l ->
  cursor_ok (if (cursor =? Z.of_nat i)%Z then -1
             else if (Z.of_nat i <? cursor)%Z then cursor - 1 else cursor)%Z
    (delete i l).
Proof.
  intros Hi Hc. unfold cursor_ok in *.
  rewrite length_delete by (apply lookup_lt_is_Some; exact Hi).
  destruct (Z.eqb_spec cursor (Z.of_nat i)); [left; reflexivity|].
  destruct (Z.ltb_spec (Z.of_nat i) cursor); lia.
Qed.

Lemma so_step (w : StateObject.world) (target_id : string) :
  StateObjectRun.invariant w ->
  exists w', StateObject.on_click target_id w = Return tt w' /\ StateObjectRun.invariant w'.
Proof.
  intros [Hin Hcur].
  destruct (String.eqb target_id "add-todo-button") eqn:Hadd.
  - apply String.eqb_eq in Hadd. subst target_id.
    destruct (so_click_add w Hin Hcur) as (w' & Hrun & Hin' & _ & Hst).
    exists w'. split; [exact Hrun|]. split; [exact Hin'|].
    destruct (Js.truthy _); [destruct (StateObject.editIndex w =? -1)%Z eqn:Hs|];
      injection Hst as -> ->.
    + apply Z.eqb_eq in Hs. left. exact Hs.
    + left. reflexivity.
    + exact Hcur.
  - destruct (hits_search target_id (length (StateObject.todos w))) as [Hnone|(i & Hi & Hhit)].
    + exists w. split; [apply so_click_other; assumption | split; assumption].
    + destruct (hits_names _ _ Hhit) as [-> | ->].
      * destruct (so_click_delete w i Hin Hi) as (w' & Hrun & Ht & Hc & Hin' & _).
        exists w'. split; [exact Hrun|]. split; [exact Hin'|].
        rewrite Ht, Hc. apply cursor_ok_delete; assumption.
      * destruct (so_click_edit w i Hin Hi) as (w' & Hrun & Ht & Hc & Hin' & _).
        exists w'. split; [exact Hrun|]. split; [exact Hin'|].
        rewrite Ht, Hc. right. lia.
Qed.

Lemma hk_step (w : Hooks.world) (target_id : string) :
  HooksRun.invariant w ->
  exists w', Hooks.on_click target_id w = Return tt w' /\ HooksRun.invariant w'.
Proof.
  intros [Hin Hcur].
  destruct (String.eqb target_id "add-todo-button") eqn:Hadd.
  - apply String.eqb_eq in Hadd. subst target_id.
    destruct (hk_click_add w Hin Hcur) as (w' & Hrun & Hin' & _ & Hst).
    exists w'. split; [exact Hrun|]. split; [exact Hin'|].
    destruct (Js.truthy _); [destruct (Hooks.editIndex_value w =? -1)%Z eqn:Hs|];
      injection Hst as -> ->.
    + apply Z.eqb_eq in Hs. left. exact Hs.
    + left. reflexivity.
    + exact Hcur.
  - destruct (hits_search target_id (length (Hooks.todos_value w))) as [Hnone|(i & Hi & Hhit)].
    + exists w. split; [apply hk_click_other; assumption | split; assumption].
    + destruct (hits_names _ _ Hhit) as [-> | ->].
      * destruct (hk_click_delete w i Hin Hi) as (w' & Hrun & Ht & Hc & Hin' & _).
        exists w'. split; [exact Hrun|]. split; [exact Hin'|].
        rewrite Ht, Hc. apply cursor_ok_delete; assumption.
      * destruct (hk_click_edit w i Hin Hi) as (w' & Hrun & Ht & Hc & Hin' & _).
        exists w'. split; [exact Hrun|]. split; [exact Hin'|].
        rewrite Ht, Hc. right. lia.
Qed.

Lemma so_reachable_invariant (w : StateObject.world) :
  StateObjectRun.reachable w -> StateObjectRun.invariant w.
Proof.
  induction 1 as [w0 w Hboot | w v _ IH | w target_id w' _ IH Hclick].
  - apply (so_boot w0 w Hboot).
  - destruct w; exact IH.
  - destruct (so_step w target_id IH) as (w'' & Hrun & Hinv).
    rewrite Hrun in Hclick. injection Hclick as <-. exact Hinv.
Qed.

Lemma hk_reachable_invariant (w : Hooks.world) :
  HooksRun.reachable w -> HooksRun.invariant w.
Proof.
  induction 1 as [w0 w Hboot | w v _ IH | w target_id w' _ IH Hclick].
  - apply (hk_boot w0 w Hboot).
  - destruct w; exact IH.
  - destruct (hk_step w target_id IH) as (w'' & Hrun & Hinv).
    rewrite Hrun in Hclick. injection Hclick as <-. exact Hinv.
Qed.

(** * The claims *)

(** C2.  Deleting the item at index [i] while the edit cursor is [j]: if
    [j = i] the cursor becomes [-1] and the text field is empty; if
    [j > i] the cursor becomes [j - 1]; if [j < i] the cursor stays [j].
    Both iterations with an edit cursor: the state object and the state
    containers. *)
Theorem delete_moves_the_cursor :
  (forall (w : StateObject.world) (i : nat),
      has_input (StateObject.doc w) = true -> (i < length (StateObject.todos w))%nat ->
      exists w',
        StateObject.on_click ("delete-todo-" +:+ Js.of_index i) w = Return tt w'
        /\ (StateObject.editIndex w = Z.of_nat i ->
            StateObject.editIndex w' = (-1)%Z /\ input_field (StateObject.doc w') = Some "")
        /\ ((Z.of_nat i < StateObject.editIndex w)%Z ->
            StateObject.editIndex w' = (StateObject.editIndex w - 1)%Z)
        /\ ((StateObject.editIndex w < Z.of_nat i)%Z ->
            StateObject.editIndex w' = StateObject.editIndex w))
  /\ (forall (w : Hooks.world) (i : nat),
      has_input (Hooks.doc w) = true -> (i < length (Hooks.todos_value w))%nat ->
      exists w',
        Hooks.on_click ("delete-todo-" +:+ Js.of_index i) w = Return tt w'
        /\ (Hooks.editIndex_value w = Z.of_nat i ->
            Hooks.editIndex_value w' = (-1)%Z /\ input_field (Hooks.doc w') = Some "")
        /\ ((Z.of_nat i < Hooks.editIndex_value w)%Z ->
            Hooks.editIndex_value w' = (Hooks.editIndex_value w - 1)%Z)
        /\ ((Hooks.editIndex_value w < Z.of_nat i)%Z ->
            Hooks.editIndex_value w' = Hooks.editIndex_value w)).
Proof.
  split.
  - intros w i Hin Hi.
    destruct (so_click_delete w i Hin Hi) as (w' & Hrun & _ & Hc & _ & Hf).
    exists w'. split; [exact Hrun|]. rewrite Hc. repeat split.
    + apply Z.eqb_eq in H. rewrite H. reflexivity.
    + exact Hf.
    + destruct (Z.eqb_spec (StateObject.editIndex w) (Z.of_nat i)); [lia|].
      destruct (Z.ltb_spec (Z.of_nat i) (StateObject.editIndex w)); [reflexivity | lia].
    + destruct (Z.eqb_spec (StateObject.editIndex w) (Z.of_nat i)); [lia|].
      destruct (Z.ltb_spec (Z.of_nat i) (StateObject.editIndex w)); [lia | reflexivity].
  - intros w i Hin Hi.
    destruct (hk_click_delete w i Hin Hi) as (w' & Hrun & _ & Hc & _ & Hf).
    exists w'. split; [exact Hrun|]. rewrite Hc. repeat split.
    + apply Z.eqb_eq in H. rewrite H. reflexivity.
    + exact Hf.
    + destruct (Z.eqb_spec (Hooks.editIndex_value w) (Z.of_nat i)); [lia|].
      destruct (Z.ltb_spec (Z.of_nat i) (Hooks.editIndex_value w)); [reflexivity | lia].
    + destruct (Z.eqb_spec (Hooks.editIndex_value w) (Z.of_nat i)); [lia|].
      destruct (Z.ltb_spec (Z.of_nat i) (Hooks.editIndex_value w)); [lia | reflexivity].
Qed.

Lemma delete_moves_the_cursor_witness :
  (exists w',
      StateObject.on_click ("delete-todo-" +:+ Js.of_index 1)
        (state_object_world ["a"; "b"; "c"] 1 "b") = Return tt w'
      /\ StateObject.editIndex w' = (-1)%Z /\ input_field (StateObject.doc w') = Some "")
  /\ (exists w',
      Hooks.on_click ("delete-todo-" +:+ Js.of_index 0)
        (hooks_world ["a"; "b"; "c"] 2 "") = Return tt w'
      /\ Hooks.editIndex_value w' = 1%Z).
Proof.
  split.
  - destruct (proj1 delete_moves_the_cursor (state_object_world ["a"; "b"; "c"] 1 "b") 1%nat)
      as (w' & Hrun & Hsame & _); [reflexivity | simpl; lia |].
    exists w'. split; [exact Hrun | apply Hsame; reflexivity].
  - destruct (proj2 delete_moves_the_cursor (hooks_world ["a"; "b"; "c"] 2 "") 0%nat)
      as (w' & Hrun & _ & Hafter & _); [reflexivity | simpl; lia |].
    exists w'. split; [exact Hrun | apply Hafter; simpl; lia].
Defined.

(** C3.  A click on the add/update control with non-empty trimmed text
    [t] while the edit cursor is [i]: the item at [i] gets the text [t],
    the cursor is reset to [-1], the list keeps its length and every other
    item keeps its text.  Both iterations with an edit cursor. *)
Theorem update_overwrites_the_edited_item :
  (forall (w : StateObject.world) (i : nat) (v t : string),
      input_field (StateObject.doc w) = Some v -> Js.trim v = t -> t <> "" ->
      StateObject.editIndex w = Z.of_nat i -> (i < length (StateObject.todos w))%nat ->
      exists w',
        StateObject.on_click "add-todo-button" w = Return tt w'
        /\ StateObject.todos w' !! i = Some t
        /\ StateObject.editIndex w' = (-1)%Z
        /\ length (StateObject.todos w') = length (StateObject.todos w)
        /\ (forall k, k <> i -> StateObject.todos w' !! k = StateObject.todos w !! k))
  /\ (forall (w : Hooks.world) (i : nat) (v t : string),
      input_field (Hooks.doc w) = Some v -> Js.trim v = t -> t <> "" ->
      Hooks.editIndex_value w = Z.of_nat i -> (i < length (Hooks.todos_value w))%nat ->
      exists w',
        Hooks.on_click "add-todo-button" w = Return tt w'
        /\ Hooks.todos_value w' !! i = Some t
        /\ Hooks.editIndex_value w' = (-1)%Z
        /\ length (Hooks.todos_value w') = length (Hooks.todos_value w)
        /\ (forall k, k <> i -> Hooks.todos_value w' !! k = Hooks.todos_value w !! k)).
Proof.
  split.
  - intros w i v t Hfield Htrim Ht Hcur Hi.
    assert (Hin : has_input (StateObject.doc w) = true) by (eapply input_field_has_input; eauto).
    rewrite (input_field_live _ Hin) in Hfield. injection Hfield as Hv.
    destruct (so_click_add w Hin) as (w' & Hrun & _ & _ & Hst).
    { right. lia. }
    rewrite Hv, Htrim, Hcur in Hst.
    destruct (Js.truthy t) eqn:Htruthy; [|apply trim_truthy in Htruthy; contradiction].
    destruct (Z.eqb_spec (Z.of_nat i) (-1)); [lia|].
    rewrite Nat2Z.id in Hst. injection Hst as Htodos Hc.
    exists w'. split; [exact Hrun|]. rewrite Htodos, Hc.
    split; [apply list_lookup_insert_eq; exact Hi|]. split; [reflexivity|].
    split; [apply length_insert|]. intros k Hk. apply list_lookup_insert_ne. congruence.
  - intros w i v t Hfield Htrim Ht Hcur Hi.
    assert (Hin : has_input (Hooks.doc w) = true) by (eapply input_field_has_input; eauto).
    rewrite (input_field_live _ Hin) in Hfield. injection Hfield as Hv.
    destruct (hk_click_add w Hin) as (w' & Hrun & _ & _ & Hst).
    { right. lia. }
    rewrite Hv, Htrim, Hcur in Hst.
    destruct (Js.truthy t) eqn:Htruthy; [|apply trim_truthy in Htruthy; contradiction].
    destruct (Z.eqb_spec (Z.of_nat i) (-1)); [lia|].
    rewrite Nat2Z.id in Hst. injection Hst as Htodos Hc.
    exists w'. split; [exact Hrun|]. rewrite Htodos, Hc.
    split; [apply list_lookup_insert_eq; exact Hi|]. split; [reflexivity|].
    split; [apply length_insert|]. intros k Hk. apply list_lookup_insert_ne. congruence.
Qed.

Lemma update_overwrites_the_edited_item_witness :
  (exists w',
      StateObject.on_click "add-todo-button"
        (state_object_world ["Buy milk"; "Walk dog"] 0 " Buy bread ") = Return tt w'
      /\ StateObject.todos w' !! 0%nat = Some "Buy bread"
      /\ StateObject.editIndex w' = (-1)%Z)
  /\ (exists w',
      Hooks.on_click "add-todo-button"
        (hooks_world ["Buy milk"; "Walk dog"] 1 "Walk cat") = Return tt w'
      /\ Hooks.todos_value w' !! 1%nat = Some "Walk cat"
      /\ Hooks.todos_value w' !! 0%nat = Some "Buy milk").
Proof.
  split.
  - destruct (proj1 update_overwrites_the_edited_item
                (state_object_world ["Buy milk"; "Walk dog"] 0 " Buy bread ") 0%nat
                " Buy bread " "Buy bread")
      as (w' & Hrun & Hitem & Hcur & _);
      [reflexivity | reflexivity | discriminate | reflexivity | simpl; lia |].
    exists w'. split; [exact Hrun | split; [exact Hitem | exact Hcur]].
  - destruct (proj2 update_overwrites_the_edited_item
                (hooks_world ["Buy milk"; "Walk dog"] 1 "Walk cat") 1%nat
                "Walk cat" "Walk cat")
      as (w' & Hrun & Hitem & _ & _ & Hrest);
      [reflexivity | reflexivity | discriminate | reflexivity | simpl; lia |].
    exists w'. split; [exact Hrun | split; [exact Hitem|]].
    rewrite (Hrest 0%nat) by discriminate. reflexivity.
Defined.

(** C4.  A click on the delete control at a valid index [i] removes one
    item, the one that was at [i]: the list is one shorter, the items
    before [i] are where they were and each later item has moved one
    place to the left, although the handler changes the list inside the
    loop over its indices.  All four iterations with a router. *)
Theorem delete_removes_exactly_that_item :
  (forall (w : TodosArray.world) (i : nat),
      has_input (TodosArray.doc w) = true -> (i < length (TodosArray.todos w))%nat ->
      exists w',
        Legacy.on_click ("delete-todo-" +:+ Js.of_index i) w = Return tt w'
        /\ S (length (TodosArray.todos w')) = length (TodosArray.todos w)
        /\ (forall k, (k < i)%nat -> TodosArray.todos w' !! k = TodosArray.todos w !! k)
        /\ (forall k, (i <= k)%nat -> TodosArray.todos w' !! k = TodosArray.todos w !! S k))
  /\ (forall (w : TodosArray.world) (i : nat),
      has_input (TodosArray.doc w) = true -> (i < length (TodosArray.todos w))%nat ->
      exists w',
        Globals.on_click ("delete-todo-" +:+ Js.of_index i) w = Return tt w'
        /\ S (length (TodosArray.todos w')) = length (TodosArray.todos w)
        /\ (forall k, (k < i)%nat -> TodosArray.todos w' !! k = TodosArray.todos w !! k)
        /\ (forall k, (i <= k)%nat -> TodosArray.todos w' !! k = TodosArray.todos w !! S k))
  /\ (forall (w : StateObject.world) (i : nat),
      has_input (StateObject.doc w) = true -> (i < length (StateObject.todos w))%nat ->
      exists w',
        StateObject.on_click ("delete-todo-" +:+ Js.of_index i) w = Return tt w'
        /\ S (length (StateObject.todos w')) = length (StateObject.todos w)
        /\ (forall k, (k < i)%nat -> StateObject.todos w' !! k = StateObject.todos w !! k)
        /\ (forall k, (i <= k)%nat -> StateObject.todos w' !! k = StateObject.todos w !! S k))
  /\ (forall (w : Hooks.world) (i : nat),
      has_input (Hooks.doc w) = true -> (i < length (Hooks.todos_value w))%nat ->
      exists w',
        Hooks.on_click ("delete-todo-" +:+ Js.of_index i) w = Return tt w'
        /\ S (length (Hooks.todos_value w')) = length (Hooks.todos_value w)
        /\ (forall k, (k < i)%nat -> Hooks.todos_value w' !! k = Hooks.todos_value w !! k)
        /\ (forall k, (i <= k)%nat ->
            Hooks.todos_value w' !! k = Hooks.todos_value w !! S k)).
Proof.
  assert (Hdel : forall (l : list string) (i : nat), (i < length l)%nat ->
            S (length (delete i l)) = length l
            /\ (forall k, (k < i)%nat -> delete i l !! k = l !! k)
            /\ (forall k, (i <= k)%nat -> delete i l !! k = l !! S k)).
  { intros l i Hi. split.
    - rewrite length_delete by (apply lookup_lt_is_Some; exact Hi). lia.
    - split; intros k Hk; [apply list_lookup_delete_lt | apply list_lookup_delete_ge];
        exact Hk. }
  repeat split.
  - intros w i Hin Hi.
    destruct (ta_click_delete _ legacy_paints w i Hin Hi) as (w' & Hrun & Ht & _).
    exists w'. split; [exact Hrun | rewrite Ht; apply Hdel; exact Hi].
  - intros w i Hin Hi.
    destruct (ta_click_delete _ globals_paints w i Hin Hi) as (w' & Hrun & Ht & _).
    exists w'. split; [exact Hrun | rewrite Ht; apply Hdel; exact Hi].
  - intros w i Hin Hi.
    destruct (so_click_delete w i Hin Hi) as (w' & Hrun & Ht & _).
    exists w'. split; [exact Hrun | rewrite Ht; apply Hdel; exact Hi].
  - intros w i Hin Hi.
    destruct (hk_click_delete w i Hin Hi) as (w' & Hrun & Ht & _).
    exists w'. split; [exact Hrun | rewrite Ht; apply Hdel; exact Hi].
Qed.

Lemma delete_removes_exactly_that_item_witness :
  (exists w',
      Globals.on_click ("delete-todo-" +:+ Js.of_index 1)
        (globals_world ["a"; "b"; "c"] "") = Return tt w'
      /\ TodosArray.todos w' !! 0%nat = Some "a" /\ TodosArray.todos w' !! 1%nat = Some "c")
  /\ (exists w',
      Hooks.on_click ("delete-todo-" +:+ Js.of_index 0)
        (hooks_world ["a"; "b"; "c"] (-1) "") = Return tt w'
      /\ Hooks.todos_value w' !! 0%nat = Some "b" /\ length (Hooks.todos_value w') = 2%nat).
Proof.
  split.
  - destruct (proj1 (proj2 delete_removes_exactly_that_item)
                (globals_world ["a"; "b"; "c"] "") 1%nat)
      as (w' & Hrun & _ & Hbefore & Hafter); [reflexivity | simpl; lia |].
    exists w'. split; [exact Hrun|].
    rewrite (Hbefore 0%nat) by lia. rewrite (Hafter 1%nat) by lia. split; reflexivity.
  - destruct (proj2 (proj2 (proj2 delete_removes_exactly_that_item))
                (hooks_world ["a"; "b"; "c"] (-1) "") 0%nat)
      as (w' & Hrun & Hlen & _ & Hafter); [reflexivity | simpl; lia |].
    exists w'. split; [exact Hrun|].
    rewrite (Hafter 0%nat) by lia. split; [reflexivity|]. simpl in Hlen. lia.
Defined.

Lemma cursor_follows_item (l : list string) (cursor : Z) (i : nat) :
  (i < length l)%nat -> (0 <= cursor < Z.of_nat (length l))%Z -> cursor <> Z.of_nat i ->
  delete i l !! Z.to_nat (if (cursor =? Z.of_nat i)%Z then -1
                          else if (Z.of_nat i <? cursor)%Z then cursor - 1 else cursor)%Z
  = l !! Z.to_nat cursor.
Proof.
  intros Hi Hc Hne.
  destruct (Z.eqb_spec cursor (Z.of_nat i)); [contradiction|].
  destruct (Z.ltb_spec (Z.of_nat i) cursor).
  - rewrite list_lookup_delete_ge by lia. f_equal. lia.
  - apply list_lookup_delete_lt. lia.
Qed.

(** C5.  The edit cursor is [-1] or an index of the current list, and
    every click keeps it so: whatever the target of the click, the
    handler returns and the state it leaves satisfies the invariant, hence
    so does every state reached from boot through typing and clicks; a
    delete elsewhere leaves the cursor on the item it was on; and boot
    on a page with a mount point does return, with no todos and the
    cursor at [-1].  Both iterations with an edit cursor. *)
Theorem cursor_stays_on_the_list :
  ((forall (w : StateObject.world) (target_id : string),
       StateObjectRun.invariant w ->
       exists w', StateObject.on_click target_id w = Return tt w'
                  /\ StateObjectRun.invariant w')
   /\ (forall w : StateObject.world,
       StateObjectRun.reachable w -> cursor_ok (StateObject.editIndex w) (StateObject.todos w))
   /\ (forall (w : StateObject.world) (i : nat),
       StateObjectRun.invariant w -> (i < length (StateObject.todos w))%nat ->
       StateObject.editIndex w <> (-1)%Z -> StateObject.editIndex w <> Z.of_nat i ->
       exists w', StateObject.on_click ("delete-todo-" +:+ Js.of_index i) w = Return tt w'
                  /\ StateObject.todos w' !! Z.to_nat (StateObject.editIndex w')
                     = StateObject.todos w !! Z.to_nat (StateObject.editIndex w))
   /\ (forall w0 : StateObject.world,
       is_Some (root (StateObject.doc w0)) ->
       exists w, StateObject.boot w0 = Return tt w /\ StateObjectRun.reachable w
                 /\ StateObject.todos w = [] /\ StateObject.editIndex w = (-1)%Z))
  /\ ((forall (w : Hooks.world) (target_id : string),
       HooksRun.invariant w ->
       exists w', Hooks.on_click target_id w = Return tt w' /\ HooksRun.invariant w')
   /\ (forall w : Hooks.world,
       HooksRun.reachable w -> cursor_ok (Hooks.editIndex_value w) (Hooks.todos_value w))
   /\ (forall (w : Hooks.world) (i : nat),
       HooksRun.invariant w -> (i < length (Hooks.todos_value w))%nat ->
       Hooks.editIndex_value w <> (-1)%Z -> Hooks.editIndex_value w <> Z.of_nat i ->
       exists w', Hooks.on_click ("delete-todo-" +:+ Js.of_index i) w = Return tt w'
                  /\ Hooks.todos_value w' !! Z.to_nat (Hooks.editIndex_value w')
                     = Hooks.todos_value w !! Z.to_nat (Hooks.editIndex_value w))
   /\ (forall w0 : Hooks.world,
       is_Some (root (Hooks.doc w0)) ->
       exists w, Hooks.boot w0 = Return tt w /\ HooksRun.reachable w
                 /\ Hooks.todos_value w = [] /\ Hooks.editIndex_value w = (-1)%Z)).
Proof.
  split; (split; [|split; [|split]]).
  - apply so_step.
  - intros w Hreach. apply (so_reachable_invariant w Hreach).
  - intros w i [Hin [Hc|Hc]] Hi Hsent Hne; [contradiction|].
    destruct (so_click_delete w i Hin Hi) as (w' & Hrun & Ht & Hcur & _).
    exists w'. split; [exact Hrun|]. rewrite Ht, Hcur.
    apply cursor_follows_item; assumption.
  - intros w0 [old Hroot].
    destruct (so_boot_returns w0 old Hroot) as (w & Hrun & Ht & Hc & _).
    exists w. split; [exact Hrun|].
    split; [exact (StateObjectRun.reach_boot w0 w Hrun) | split; assumption].
  - apply hk_step.
  - intros w Hreach. apply (hk_reachable_invariant w Hreach).
  - intros w i [Hin [Hc|Hc]] Hi Hsent Hne; [contradiction|].
    destruct (hk_click_delete w i Hin Hi) as (w' & Hrun & Ht & Hcur & _).
    exists w'. split; [exact Hrun|]. rewrite Ht, Hcur.
    apply cursor_follows_item; assumption.
  - intros w0 [old Hroot].
    destruct (hk_boot_returns w0 old Hroot) as (w & Hrun & Ht & Hc & _).
    exists w. split; [exact Hrun|].
    split; [exact (HooksRun.reach_boot w0 w Hrun) | split; assumption].
Qed.

Lemma cursor_stays_on_the_list_witness :
  (exists w',
      StateObject.on_click ("delete-todo-" +:+ Js.of_index 0)
        (state_object_world ["a"; "b"; "c"] 2 "") = Return tt w'
      /\ StateObjectRun.invariant w')
  /\ (exists w',
      Hooks.on_click ("delete-todo-" +:+ Js.of_index 0)
        (hooks_world ["a"; "b"; "c"] 2 "") = Return tt w'
      /\ Hooks.todos_value w' !! Z.to_nat (Hooks.editIndex_value w') = Some "c")
  /\ (exists w,
      StateObject.boot {| StateObject.todos := ["stale"]; StateObject.editIndex := 7;
                          StateObject.doc := demo_page |} = Return tt w
      /\ StateObject.todos w = [] /\ StateObject.editIndex w = (-1)%Z).
Proof.
  split; [|split].
  - apply (proj1 (proj1 cursor_stays_on_the_list)).
    split; [reflexivity | right; simpl; lia].
  - destruct (proj1 (proj2 (proj2 (proj2 cursor_stays_on_the_list)))
                (hooks_world ["a"; "b"; "c"] 2 "") 0%nat)
      as (w' & Hrun & Hitem);
      [split; [reflexivity | right; simpl; lia] | simpl; lia | discriminate | discriminate |].
    exists w'. split; [exact Hrun | rewrite Hitem; reflexivity].
  - destruct (proj2 (proj2 (proj2 (proj1 cursor_stays_on_the_list)))
                {| StateObject.todos := ["stale"]; StateObject.editIndex := 7;
                   StateObject.doc := demo_page |})
      as (w & Hrun & _ & Ht & Hc); [exists []; reflexivity|].
    exists w. split; [exact Hrun | split; assumption].
Defined.

(** C9.  After a click on the add/update control the text field is
    empty, whether or not the trimmed text was empty and whether an item
    was added or updated: in [src/index.js] and the two documents of
    [unnamed/part_002] the field is cleared and the page repainted, in
    [unnamed/part_001] the field is cleared or replaced by a new one, in
    [window.addTodo] the field is reset last. *)
Theorem add_click_clears_the_field :
  (forall w : TodosArray.world,
      has_input (TodosArray.doc w) = true ->
      exists w', Legacy.on_click "add-todo-button" w = Return tt w'
                 /\ input_field (TodosArray.doc w') = Some "")
  /\ (forall w : TodosArray.world,
      has_input (TodosArray.doc w) = true ->
      exists w', Globals.on_click "add-todo-button" w = Return tt w'
                 /\ input_field (TodosArray.doc w') = Some "")
  /\ (forall w : StateObject.world,
      has_input (StateObject.doc w) = true ->
      cursor_ok (StateObject.editIndex w) (StateObject.todos w) ->
      exists w', StateObject.on_click "add-todo-button" w = Return tt w'
                 /\ input_field (StateObject.doc w') = Some "")
  /\ (forall w : Hooks.world,
      has_input (Hooks.doc w) = true ->
      cursor_ok (Hooks.editIndex_value w) (Hooks.todos_value w) ->
      exists w', Hooks.on_click "add-todo-button" w = Return tt w'
                 /\ input_field (Hooks.doc w') = Some "")
  /\ (forall (p : Inline.page) (v : string) (lis : list string),
      Inline.todoInput p = Some v -> Inline.todoList p = Some lis ->
      exists p', Inline.addTodo p = Return tt p' /\ Inline.todoInput p' = Some "").
Proof.
  repeat split.
  - intros w Hin. destruct (ta_click_add _ legacy_paints w Hin) as (w' & Hrun & _ & _ & Hf).
    exists w'. split; assumption.
  - intros w Hin. destruct (ta_click_add _ globals_paints w Hin) as (w' & Hrun & _ & _ & Hf).
    exists w'. split; assumption.
  - intros w Hin Hcur. destruct (so_click_add w Hin Hcur) as (w' & Hrun & _ & Hf & _).
    exists w'. split; assumption.
  - intros w Hin Hcur. destruct (hk_click_add w Hin Hcur) as (w' & Hrun & _ & Hf & _).
    exists w'. split; assumption.
  - intros p v lis Hv Hl. unfold Inline.addTodo, bind, gets. rewrite Hv.
    destruct (String.eqb (Js.trim v) ""); cbn [when ret Inline.alert modify];
      cbn [Inline.todoList]; rewrite Hl; eexists; split; reflexivity.
Qed.

Lemma add_click_clears_the_field_witness :
  (exists w', Legacy.on_click "add-todo-button" (legacy_world ["a"] "   ") = Return tt w'
              /\ input_field (TodosArray.doc w') = Some "")
  /\ (exists w', Hooks.on_click "add-todo-button" (hooks_world ["a"] (-1) "   ") = Return tt w'
                 /\ input_field (Hooks.doc w') = Some "")
  /\ (exists p', Inline.addTodo
                   {| Inline.todoInput := Some "tea"; Inline.todoList := Some [];
                      Inline.alerts := [] |} = Return tt p'
                 /\ Inline.todoInput p' = Some "").
Proof.
  split; [|split].
  - apply (proj1 add_click_clears_the_field). reflexivity.
  - apply (proj1 (proj2 (proj2 (proj2 add_click_clears_the_field)))).
    + reflexivity.
    + left. reflexivity.
  - apply (proj2 (proj2 (proj2 (proj2 add_click_clears_the_field))) _ "tea" []); reflexivity.
Defined.

(** C7.  A render with no mount point on the page raises an error and
    leaves the page as it was: [src/index.js] reaches [root.appendChild]
    with [root] null, the later iterations throw their own error before
    anything else.  With a mount point, the page ends up holding the tree
    of the freshly built component and nothing else, exactly as if the
    mount point had been empty to begin with. *)
Theorem render_needs_the_mount_point :
  ((forall w : TodosArray.world,
       root (TodosArray.doc w) = None ->
       Legacy.render w
       = Throw (TypeError "Cannot read properties of null (reading 'appendChild')") w)
   /\ (forall (w : TodosArray.world) (old : list node),
       root (TodosArray.doc w) = Some old ->
       exists c w',
         Legacy.todoComponent w = Return c w
         /\ Legacy.render w = Return tt w'
         /\ root (TodosArray.doc w')
            = Some [append_to (Legacy.todoContainer c)
                      [Legacy.title c; Legacy.input c; Legacy.addButton c;
                       append_to (Legacy.todoList c) (Legacy.items c)]]
         /\ Legacy.render (TodosArray.set_doc (set_root (Some []) (TodosArray.doc w)) w)
            = Return tt w'))
  /\ ((forall w : TodosArray.world,
       root (TodosArray.doc w) = None ->
       Globals.render w = Throw (Error "Root element not found in the DOM") w)
   /\ (forall (w : TodosArray.world) (old : list node),
       root (TodosArray.doc w) = Some old ->
       exists c w',
         Globals.todoComponent w = Return c w
         /\ Globals.render w = Return tt w'
         /\ root (TodosArray.doc w')
            = Some [attached (Globals.container c) (Globals.children c)]
         /\ Globals.render (TodosArray.set_doc (set_root (Some []) (TodosArray.doc w)) w)
            = Return tt w'))
  /\ ((forall w : StateObject.world,
       root (StateObject.doc w) = None ->
       StateObject.render w = Throw (Error "Root element not found in the DOM") w)
   /\ (forall (w : StateObject.world) (old : list node),
       root (StateObject.doc w) = Some old ->
       exists c w',
         StateObject.todoComponent w = Return c w
         /\ StateObject.render w = Return tt w'
         /\ root (StateObject.doc w')
            = Some [attached (StateObject.container c) (StateObject.children c)]
         /\ StateObject.render (StateObject.set_doc (set_root (Some []) (StateObject.doc w)) w)
            = Return tt w'))
  /\ ((forall w : Hooks.world,
       root (Hooks.doc w) = None ->
       Hooks.render w = Throw (Error "Root element not found in the DOM") w)
   /\ (forall (w : Hooks.world) (old : list node),
       root (Hooks.doc w) = Some old ->
       exists c w',
         Hooks.todoComponent w = Return c w
         /\ Hooks.render w = Return tt w'
         /\ root (Hooks.doc w') = Some [attached (Hooks.container c) (Hooks.children c)]
         /\ Hooks.render (Hooks.set_doc (set_root (Some []) (Hooks.doc w)) w)
            = Return tt w')).
Proof.
  split; [|split; [|split]]; (split; [|intros w old Hroot; do 2 eexists; split; [|split; [|split]]]).
  - apply render_absent_legacy.
  - apply legacy_todoComponent_returns.
  - apply (legacy_render_returns w old Hroot).
  - reflexivity.
  - rewrite (legacy_render_returns _ []) by reflexivity. destruct w; reflexivity.
  - apply render_absent_globals.
  - apply globals_todoComponent_returns.
  - apply (globals_render_returns w old Hroot).
  - reflexivity.
  - rewrite (globals_render_returns _ []) by reflexivity. destruct w; reflexivity.
  - apply render_absent_state_object.
  - apply state_object_todoComponent_returns.
  - apply (state_object_render_returns w old Hroot).
  - reflexivity.
  - rewrite (state_object_render_returns _ []) by reflexivity. destruct w; reflexivity.
  - apply render_absent_hooks.
  - apply hooks_todoComponent_returns.
  - apply (hooks_render_returns w old Hroot).
  - reflexivity.
  - rewrite (hooks_render_returns _ []) by reflexivity. destruct w; reflexivity.
Qed.

Lemma render_needs_the_mount_point_witness :
  Legacy.render {| TodosArray.todos := ["a"]; TodosArray.doc := empty_document |}
  = Throw (TypeError "Cannot read properties of null (reading 'appendChild')")
      {| TodosArray.todos := ["a"]; TodosArray.doc := empty_document |}
  /\ Hooks.render {| Hooks.todos_value := ["a"]; Hooks.editIndex_value := -1;
                     Hooks.doc := empty_document |}
     = Throw (Error "Root element not found in the DOM")
         {| Hooks.todos_value := ["a"]; Hooks.editIndex_value := -1;
            Hooks.doc := empty_document |}
  /\ (exists c w',
         StateObject.todoComponent (state_object_world ["a"] (-1) "stale") = Return c
           (state_object_world ["a"] (-1) "stale")
         /\ StateObject.render (state_object_world ["a"] (-1) "stale") = Return tt w'
         /\ root (StateObject.doc w')
            = Some [attached (StateObject.container c) (StateObject.children c)]).
Proof.
  split; [|split].
  - apply (proj1 (proj1 render_needs_the_mount_point)). reflexivity.
  - apply (proj1 (proj2 (proj2 (proj2 render_needs_the_mount_point)))). reflexivity.
  - destruct (proj2 (proj1 (proj2 (proj2 render_needs_the_mount_point)))
                (state_object_world ["a"] (-1) "stale") _ eq_refl)
      as (c & w' & Hc & Hrun & Hroot & _).
    exists c, w'. split; [exact Hc | split; [exact Hrun | exact Hroot]].
Defined.

(** C1 fails in [src/index.js] (and in the first document of
    [unnamed/part_002], which has the same listener): the script boots on
    a page with a mount point, the user types three spaces and clicks the
    add control; the list, empty until then, now holds one item, the
    empty string, and the page shows a row for it. *)
Theorem blank_text_is_appended_by_the_first_routers :
  Js.trim "   " = ""
  /\ (exists w1 w2 content,
        Legacy.boot {| TodosArray.todos := []; TodosArray.doc := demo_page |} = Return tt w1
        /\ TodosArray.todos w1 = []
        /\ Legacy.on_click "add-todo-button"
             (TodosArray.set_doc (typed "   " (TodosArray.doc w1)) w1) = Return tt w2
        /\ TodosArray.todos w2 = [""]
        /\ root (TodosArray.doc w2) = Some content
        /\ count_in is_delete_control content = 1%nat)
  /\ (exists w1 w2 content,
        Globals.boot {| TodosArray.todos := []; TodosArray.doc := demo_page |} = Return tt w1
        /\ TodosArray.todos w1 = []
        /\ Globals.on_click "add-todo-button"
             (TodosArray.set_doc (typed "   " (TodosArray.doc w1)) w1) = Return tt w2
        /\ TodosArray.todos w2 = [""]
        /\ root (TodosArray.doc w2) = Some content
        /\ count_in is_delete_control content = 1%nat).
Proof.
  split; [reflexivity|]. split.
  - do 3 eexists. split; [vm_compute; reflexivity|]. split; [reflexivity|].
    split; [vm_compute; reflexivity|]. split; [reflexivity|].
    split; reflexivity.
  - do 3 eexists. split; [vm_compute; reflexivity|]. split; [reflexivity|].
    split; [vm_compute; reflexivity|]. split; [reflexivity|].
    split; reflexivity.
Qed.

(** X1.  What C1 asks for holds in the two iterations with an edit
    cursor: a click on the add/update control with blank text in the
    field changes neither the list nor the cursor. *)
Lemma blank_text_is_rejected_by_the_later_routers :
  (forall (w : StateObject.world) (v : string),
      input_field (StateObject.doc w) = Some v -> Js.trim v = "" ->
      cursor_ok (StateObject.editIndex w) (StateObject.todos w) ->
      exists w',
        StateObject.on_click "add-todo-button" w = Return tt w'
        /\ StateObject.todos w' = StateObject.todos w
        /\ StateObject.editIndex w' = StateObject.editIndex w)
  /\ (forall (w : Hooks.world) (v : string),
      input_field (Hooks.doc w) = Some v -> Js.trim v = "" ->
      cursor_ok (Hooks.editIndex_value w) (Hooks.todos_value w) ->
      exists w',
        Hooks.on_click "add-todo-button" w = Return tt w'
        /\ Hooks.todos_value w' = Hooks.todos_value w
        /\ Hooks.editIndex_value w' = Hooks.editIndex_value w).
Proof.
  split.
  - intros w v Hfield Htrim Hcur.
    assert (Hin : has_input (StateObject.doc w) = true)
      by (eapply input_field_has_input; eauto).
    rewrite (input_field_live _ Hin) in Hfield. injection Hfield as Hv.
    destruct (so_click_add w Hin Hcur) as (w' & Hrun & _ & _ & Hst).
    rewrite Hv, Htrim in Hst. injection Hst as Ht Hc. exists w'. auto.
  - intros w v Hfield Htrim Hcur.
    assert (Hin : has_input (Hooks.doc w) = true) by (eapply input_field_has_input; eauto).
    rewrite (input_field_live _ Hin) in Hfield. injection Hfield as Hv.
    destruct (hk_click_add w Hin Hcur) as (w' & Hrun & _ & _ & Hst).
    rewrite Hv, Htrim in Hst. injection Hst as Ht Hc. exists w'. auto.
Qed.

Lemma blank_text_is_rejected_by_the_later_routers_witness :
  exists w',
    Hooks.on_click "add-todo-button" (hooks_world ["a"] (-1) "   ") = Return tt w'
    /\ Hooks.todos_value w' = ["a"].
Proof.
  destruct (proj2 blank_text_is_rejected_by_the_later_routers
              (hooks_world ["a"] (-1) "   ") "   ")
    as (w' & Hrun & Ht & _); [reflexivity | reflexivity | left; reflexivity |].
  exists w'. split; [exact Hrun | exact Ht].
Defined.

(** X4.  [window.addTodo] appends the trimmed text whatever it is, blank
    or not, after an alert when it is blank, and clears the field. *)
Lemma inline_add_appends_any_text (p : Inline.page) (v : string) (lis : list string) :
  Inline.todoInput p = Some v -> Inline.todoList p = Some lis ->
  Inline.addTodo p
  = Return tt {| Inline.todoInput := Some "";
                 Inline.todoList := Some (lis ++ [Js.trim v]);
                 Inline.alerts :=
                   Inline.alerts p
                   ++ (if String.eqb (Js.trim v) "" then ["Please enter a todo item."]
                       else []) |}.
Proof.
  intros Hinput Hlist. destruct p as [input list shown]. simpl in Hinput, Hlist. subst.
  unfold Inline.addTodo, Inline.alert, bind, gets, modify, when, ret.
  cbn [Inline.todoInput Inline.todoList Inline.alerts].
  destruct (String.eqb (Js.trim v) ""); cbn [Inline.todoInput Inline.todoList Inline.alerts].
  - reflexivity.
  - rewrite app_nil_r. reflexivity.
Qed.

Lemma inline_add_appends_any_text_witness :
  Inline.addTodo {| Inline.todoInput := Some "  "; Inline.todoList := Some ["tea"];
                    Inline.alerts := [] |}
  = Return tt {| Inline.todoInput := Some ""; Inline.todoList := Some ["tea"; ""];
                 Inline.alerts := ["Please enter a todo item."] |}.
Proof.
  apply (inline_add_appends_any_text
           {| Inline.todoInput := Some "  "; Inline.todoList := Some ["tea"];
              Inline.alerts := [] |} "  " ["tea"]); reflexivity.
Defined.

(** X3.  A click on the edit control of item [i] moves the cursor to [i],
    leaves the list as it is and repaints; the field on the page
    afterwards is empty.  With the state object the item's text is
    written into the field that [render] then replaces; with the state
    containers [setEditIndex] has repainted before the text is written,
    into the field that is no longer on the page. *)
Lemma edit_click_leaves_the_field_empty :
  (forall (w : StateObject.world) (i : nat),
      has_input (StateObject.doc w) = true -> (i < length (StateObject.todos w))%nat ->
      exists w',
        StateObject.on_click ("edit-todo-" +:+ Js.of_index i) w = Return tt w'
        /\ StateObject.todos w' = StateObject.todos w
        /\ StateObject.editIndex w' = Z.of_nat i
        /\ input_field (StateObject.doc w') = Some "")
  /\ (forall (w : Hooks.world) (i : nat),
      has_input (Hooks.doc w) = true -> (i < length (Hooks.todos_value w))%nat ->
      exists w',
        Hooks.on_click ("edit-todo-" +:+ Js.of_index i) w = Return tt w'
        /\ Hooks.todos_value w' = Hooks.todos_value w
        /\ Hooks.editIndex_value w' = Z.of_nat i
        /\ input_field (Hooks.doc w') = Some "").
Proof.
  split; intros w i Hin Hi.
  - destruct (so_click_edit w i Hin Hi) as (w' & Hrun & Ht & Hc & _ & Hfield).
    exists w'. auto.
  - destruct (hk_click_edit w i Hin Hi) as (w' & Hrun & Ht & Hc & _ & Hfield).
    exists w'. auto.
Qed.

Lemma edit_click_leaves_the_field_empty_witness :
  (exists w',
      StateObject.on_click ("edit-todo-" +:+ Js.of_index 0)
        (state_object_world ["Buy milk"; "Walk dog"] (-1) "") = Return tt w'
      /\ StateObject.editIndex w' = 0%Z
      /\ input_field (StateObject.doc w') = Some "")
  /\ (exists w',
      Hooks.on_click ("edit-todo-" +:+ Js.of_index 0)
        (hooks_world ["Buy milk"; "Walk dog"] (-1) "") = Return tt w'
      /\ Hooks.editIndex_value w' = 0%Z
      /\ input_field (Hooks.doc w') = Some "").
Proof.
  split.
  - destruct (proj1 edit_click_leaves_the_field_empty
                (state_object_world ["Buy milk"; "Walk dog"] (-1) "") 0%nat)
      as (w' & Hrun & _ & Hc & Hfield); [reflexivity | simpl; lia |].
    exists w'. split; [exact Hrun | split; [exact Hc | exact Hfield]].
  - destruct (proj2 edit_click_leaves_the_field_empty
                (hooks_world ["Buy milk"; "Walk dog"] (-1) "") 0%nat)
      as (w' & Hrun & _ & Hc & Hfield); [reflexivity | simpl; lia |].
    exists w'. split; [exact Hrun | split; [exact Hc | exact Hfield]].
Defined.

(** C8 fails in [src/index.js]: the script boots on a page with a mount
    point; the list is empty, the view built for it has no placeholder
    row, and the list section of the page is empty. *)
Theorem first_view_has_no_placeholder_row :
  exists w c content,
    Legacy.boot {| TodosArray.todos := []; TodosArray.doc := demo_page |} = Return tt w
    /\ TodosArray.todos w = []
    /\ Legacy.todoComponent w = Return c w
    /\ Legacy.items c = []
    /\ count is_placeholder_row (Legacy.todoList c) = 0%nat
    /\ root (TodosArray.doc w) = Some content
    /\ list_section content = []
    /\ count_in is_placeholder_row content = 0%nat.
Proof.
  do 3 eexists. split; [vm_compute; reflexivity|]. split; [reflexivity|].
  split; [vm_compute; reflexivity|].
  repeat split.
Qed.

Lemma row_counts :
  (forall a i, count is_placeholder_row (row_node a i) = 0%nat)
  /\ (forall a i, count is_delete_control (row_node a i) = 1%nat)
  /\ (forall a i, count is_placeholder_row (state_object_row_node a i) = 0%nat)
  /\ (forall a i, count is_delete_control (state_object_row_node a i) = 1%nat)
  /\ (forall a i, count is_edit_control (state_object_row_node a i) = 1%nat)
  /\ (forall a i, count is_placeholder_row (hooks_row_node a i) = 0%nat)
  /\ (forall a i, count is_delete_control (hooks_row_node a i) = 1%nat)
  /\ (forall a i, count is_edit_control (hooks_row_node a i) = 1%nat).
Proof. repeat split; intros a i; reflexivity. Qed.

(** What a shaped view shows of the list: for no todos one placeholder
    row and no control, otherwise no placeholder row and a delete control
    per row. *)
Lemma shaped_view_counts (l : list string) (row : string -> nat -> node)
    (container : node) (children : list node) :
  shaped l (imap (fun i a => row a (0 + i)%nat) l) container children ->
  (forall a i, count is_placeholder_row (row a i) = 0%nat) ->
  (forall a i, count is_delete_control (row a i) = 1%nat) ->
  let tree := attached container children in
  (l = [] ->
   (exists ph, list_section [tree] = [ph] /\ is_placeholder_row ph = true)
   /\ count is_placeholder_row tree = 1%nat
   /\ count is_delete_control tree = 0%nat
   /\ count is_edit_control tree = 0%nat)
  /\ (l <> [] ->
      count is_placeholder_row tree = 0%nat
      /\ count is_delete_control tree = length l).
Proof.
  intros Hshape Hph Hdel tree.
  destruct (shaped_counts _ _ _ _ Hshape) as (section & Hsec & Hl & Hcp & Hcd & Hce).
  fold tree in Hsec, Hcp, Hcd, Hce. split.
  - intros ->. destruct Hl as (ph & -> & Hrow & Hd & He).
    split; [exists ph; split; [exact Hsec | exact Hrow]|].
    rewrite Hcp, Hcd, Hce, !count_in_cons. unfold count_in. simpl sum_list.
    rewrite Hd, He.
    assert (count is_placeholder_row ph = 1%nat) as ->; [|lia].
    destruct ph as [s|t p [|[s|? ? ?] [|? ?]]]; try discriminate.
    unfold count. rewrite Hrow. reflexivity.
  - intros Hne.
    assert (Hrows : section = imap (fun i a => row a (0 + i)%nat) l)
      by (destruct l; [contradiction | exact Hl]).
    rewrite Hcp, Hcd, Hrows, (rows_count _ row 0 _ Hph), (rows_count _ row 1 _ Hdel). lia.
Qed.

(** X2.  What C8 asks for holds in the three later iterations: the tree
    they attach for the empty list has exactly one placeholder row, as
    the only row of the list section, and no delete or edit control; for
    a list with items it has no placeholder row and one delete control
    per item. *)
Lemma later_views_show_the_placeholder_row :
  (forall l : list string,
      let tree := attached (Globals.container (globals_view l))
                    (Globals.children (globals_view l)) in
      (l = [] ->
       (exists ph, list_section [tree] = [ph] /\ is_placeholder_row ph = true)
       /\ count is_placeholder_row tree = 1%nat
       /\ count is_delete_control tree = 0%nat /\ count is_edit_control tree = 0%nat)
      /\ (l <> [] -> count is_placeholder_row tree = 0%nat
                     /\ count is_delete_control tree = length l))
  /\ (forall (l : list string) (cursor : Z),
      let tree := attached (StateObject.container (state_object_view l cursor))
                    (StateObject.children (state_object_view l cursor)) in
      (l = [] ->
       (exists ph, list_section [tree] = [ph] /\ is_placeholder_row ph = true)
       /\ count is_placeholder_row tree = 1%nat
       /\ count is_delete_control tree = 0%nat /\ count is_edit_control tree = 0%nat)
      /\ (l <> [] -> count is_placeholder_row tree = 0%nat
                     /\ count is_delete_control tree = length l))
  /\ (forall (l : list string) (cursor : Z),
      let tree := attached (Hooks.container (hooks_view l cursor))
                    (Hooks.children (hooks_view l cursor)) in
      (l = [] ->
       (exists ph, list_section [tree] = [ph] /\ is_placeholder_row ph = true)
       /\ count is_placeholder_row tree = 1%nat
       /\ count is_delete_control tree = 0%nat /\ count is_edit_control tree = 0%nat)
      /\ (l <> [] -> count is_placeholder_row tree = 0%nat
                     /\ count is_delete_control tree = length l)).
Proof.
  destruct row_counts as (R1 & R2 & R3 & R4 & _ & R6 & R7 & _).
  split; [|split].
  - intros l. apply (shaped_view_counts l row_node _ _ (globals_view_shaped l) R1 R2).
  - intros l cursor.
    apply (shaped_view_counts l state_object_row_node _ _
             (state_object_view_shaped l cursor) R3 R4).
  - intros l cursor.
    apply (shaped_view_counts l hooks_row_node _ _ (hooks_view_shaped l cursor) R6 R7).
Qed.

Lemma later_views_show_the_placeholder_row_witness :
  count is_placeholder_row
    (attached (Hooks.container (hooks_view [] (-1))) (Hooks.children (hooks_view [] (-1))))
  = 1%nat
  /\ count is_placeholder_row
       (attached (Globals.container (globals_view ["a"; "b"]))
          (Globals.children (globals_view ["a"; "b"])))
     = 0%nat.
Proof.
  split.
  - apply (proj1 (proj2 (proj2 later_views_show_the_placeholder_row) [] (-1)%Z)).
    reflexivity.
  - apply (proj2 (proj1 later_views_show_the_placeholder_row ["a"; "b"])). discriminate.
Defined.

Lemma hooks_render_keeps_the_values :
  preserves Hooks.todos_value Hooks.render /\ preserves Hooks.editIndex_value Hooks.render.
Proof.
  split; intros w w' H; destruct (root (Hooks.doc w)) as [old|] eqn:Hroot.
  - rewrite (hooks_render_returns _ old Hroot) in H. injection H as <-. reflexivity.
  - rewrite (render_absent_hooks _ Hroot) in H. injection H as <-. reflexivity.
  - rewrite (hooks_render_returns _ old Hroot) in H. injection H as <-. reflexivity.
  - rewrite (render_absent_hooks _ Hroot) in H. injection H as <-. reflexivity.
Qed.

(** The getters and setters used below are the pairs [useState] returns. *)
Lemma widget_containers (w : Hooks.world) :
  StateContainer.useState Hooks.todos_value Hooks.set_todos_value
    StateContainer.typeof_update (Some Hooks.render)
    (fun text => Hooks.in_doc (console_warn text)) [] w
  = Return (Hooks.getTodos, Hooks.setTodos) (Hooks.set_todos_value [] w)
  /\ StateContainer.useState Hooks.editIndex_value Hooks.set_editIndex_value
       StateContainer.typeof_update (Some Hooks.render)
       (fun text => Hooks.in_doc (console_warn text)) (-1)%Z w
     = Return (Hooks.getEditIndex, Hooks.setEditIndex) (Hooks.set_editIndex_value (-1) w).
Proof. split; reflexivity. Qed.

Lemma untyped_container (initialVal : StateContainer.jsval) (w : Untyped.world) :
  StateContainer.useState fst (fun v w => (v, snd w))
    (StateContainer.typeof_dynamic StateContainer.is_function StateContainer.call)
    None Untyped.warn initialVal w
  = Return (Untyped.getState, Untyped.setState) (initialVal, snd w).
Proof. reflexivity. Qed.

(** C6 as stated fails where the callback writes the container.  The
    container made by [useState(0, () => { if (get() >= 5) set(0) })] is
    given 7: the setter stores 7, the callback sees it and stores 0, and
    the getter afterwards answers 0, however deep the calls may go. *)
Lemma callback_can_overwrite_the_value :
  (exists get set,
      Resetting.container 2 (0%Z, []) = Return (get, set) (0%Z, [])
      /\ set (StateContainer.Value 7%Z) (0%Z, []) = Return tt (0%Z, [])
      /\ get (0%Z, []) = Return 0%Z (0%Z, []))
  /\ (forall fuel get set w,
        (2 <= fuel)%nat ->
        Resetting.container fuel (0%Z, []) = Return (get, set) w ->
        exists w', set (StateContainer.Value 7%Z) w = Return tt w'
                   /\ get w' = Return 0%Z w').
Proof.
  split.
  - eexists _, _. repeat split.
  - intros fuel get set w Hfuel Hmake.
    unfold Resetting.container, StateContainer.useState, bind, modify, ret in Hmake.
    injection Hmake as <- <- <-.
    destruct fuel as [|[|fuel]]; [lia | lia |].
    exists (0%Z, []). split; reflexivity.
Qed.

(** C6, amended.  The pair [useState] returns: the getter answers the
    initial value; the setter stores its argument when that is not a
    function and the result of calling it on the current value when it
    is; what runs next, the callback given at construction or the
    warning, starts from a world in which the new value is already the
    stored one.  Once the setter is over the getter answers that value
    when the callback does not itself write the container. *)
Theorem setter_stores_then_notifies :
  forall (W A T : Type) (value : W -> T) (assign : T -> W -> W)
         (typeof_function : A -> (T -> M W T) + T)
         (renderFn : option (M W unit)) (console_warn : string -> M W unit),
    (forall v w, value (assign v w) = v) ->
    forall (initialVal : T) (w0 : W),
    exists get set,
      StateContainer.useState value assign typeof_function renderFn console_warn initialVal w0
      = Return (get, set) (assign initialVal w0)
      /\ get (assign initialVal w0) = Return initialVal (assign initialVal w0)
      /\ forall (newVal : A) (w : W),
           (forall v, typeof_function newVal = inr v ->
              set newVal w = notify renderFn console_warn (assign v w)
              /\ get (assign v w) = Return v (assign v w)
              /\ (preserves value (notify renderFn console_warn) ->
                  forall w', final (set newVal w) = Some w' -> get w' = Return v w'))
           /\ (forall f v w1, typeof_function newVal = inl f -> f (value w) w = Return v w1 ->
              set newVal w = notify renderFn console_warn (assign v w1)
              /\ get (assign v w1) = Return v (assign v w1)
              /\ (preserves value (notify renderFn console_warn) ->
                  forall w', final (set newVal w) = Some w' -> get w' = Return v w')).
Proof.
  intros W A T value assign typeof_function renderFn console_warn Hlens initialVal w0.
  exists (StateContainer.getState value),
         (StateContainer.setState value assign typeof_function renderFn console_warn).
  assert (Hget : forall v s,
             StateContainer.getState value (assign v s) = Return v (assign v s)).
  { intros v s. unfold StateContainer.getState, gets. rewrite Hlens. reflexivity. }
  assert (Hafter : preserves value (notify renderFn console_warn) ->
             forall v s w',
               final (notify renderFn console_warn (assign v s)) = Some w' ->
               StateContainer.getState value w' = Return v w').
  { intros Hframe v s w' H. apply Hframe in H. unfold StateContainer.getState, gets.
    rewrite H, Hlens. reflexivity. }
  split; [reflexivity|]. split; [apply Hget|]. intros newVal w. split.
  - intros v Htype.
    assert (Hset : StateContainer.setState value assign typeof_function renderFn console_warn
                     newVal w
                   = notify renderFn console_warn (assign v w)).
    { unfold StateContainer.setState, bind, modify, notify. rewrite Htype.
      destruct renderFn; reflexivity. }
    split; [exact Hset|]. split; [apply Hget|]. intros Hframe w'. rewrite Hset.
    apply Hafter, Hframe.
  - intros f v w1 Htype Hcall.
    assert (Hset : StateContainer.setState value assign typeof_function renderFn console_warn
                     newVal w
                   = notify renderFn console_warn (assign v w1)).
    { unfold StateContainer.setState, bind, modify, gets, notify. rewrite Htype, Hcall.
      destruct renderFn; reflexivity. }
    split; [exact Hset|]. split; [apply Hget|]. intros Hframe w'. rewrite Hset.
    apply Hafter, Hframe.
Qed.

Lemma setter_stores_then_notifies_witness :
  (exists get set,
      StateContainer.useState Hooks.todos_value Hooks.set_todos_value
        StateContainer.typeof_update (Some Hooks.render)
        (fun text => Hooks.in_doc (console_warn text)) ["Buy milk"] (hooks_world [] (-1) "")
      = Return (get, set) (Hooks.set_todos_value ["Buy milk"] (hooks_world [] (-1) ""))
      /\ forall w',
           final (set (StateContainer.Updater (fun prev => ret (prev ++ ["Walk dog"])))
                    (hooks_world ["Buy milk"] (-1) "")) = Some w' ->
           get w' = Return ["Buy milk"; "Walk dog"] w')
  /\ (exists get set,
         StateContainer.useState fst (fun v w => (v, snd w))
           (StateContainer.typeof_dynamic StateContainer.is_function StateContainer.call)
           None Untyped.warn (StateContainer.JNumber 0) (StateContainer.JUndefined, [])
         = Return (get, set) (StateContainer.JNumber 0, [])
         /\ set (StateContainer.JNumber 7) (StateContainer.JNumber 0, [])
            = Untyped.warn "No render function provided or it is not a function"
                (StateContainer.JNumber 7, [])).
Proof.
  split.
  - destruct (setter_stores_then_notifies Hooks.world _ _
                Hooks.todos_value Hooks.set_todos_value StateContainer.typeof_update
                (Some Hooks.render) (fun text => Hooks.in_doc (console_warn text))
                (fun v w => eq_refl) ["Buy milk"] (hooks_world [] (-1) ""))
      as (get & set & Hmake & _ & Hset).
    exists get, set. split; [exact Hmake|].
    apply (proj2 (proj2 (proj2 (Hset (StateContainer.Updater
                                        (fun prev => ret (prev ++ ["Walk dog"])))
                                  (hooks_world ["Buy milk"] (-1) ""))
                           _ ["Buy milk"; "Walk dog"] (hooks_world ["Buy milk"] (-1) "")
                           eq_refl eq_refl))).
    exact (proj1 hooks_render_keeps_the_values).
  - destruct (setter_stores_then_notifies Untyped.world _ _
                fst (fun v w => (v, snd w))
                (StateContainer.typeof_dynamic StateContainer.is_function StateContainer.call)
                None Untyped.warn (fun v w => eq_refl)
                (StateContainer.JNumber 0) (StateContainer.JUndefined, []))
      as (get & set & Hmake & _ & Hset).
    exists get, set. split; [exact Hmake|].
    exact (proj1 (proj1 (Hset (StateContainer.JNumber 7) (StateContainer.JNumber 0, []))
                    (StateContainer.JNumber 7) eq_refl)).
Defined.

(** C10 as stated fails: a container that starts from a number holds a
    function after one call of its setter, when the function passed
    returns a function. *)
Lemma setter_can_store_a_function :
  StateContainer.is_function (StateContainer.JNumber 0) = false
  /\ Untyped.setState
       (StateContainer.JFunction
          (StateContainer.Constant (StateContainer.JFunction StateContainer.Identity)))
       (StateContainer.JNumber 0, [])
     = Return tt (StateContainer.JFunction StateContainer.Identity,
                  ["No render function provided or it is not a function"])
  /\ Untyped.getState (StateContainer.JFunction StateContainer.Identity,
                       ["No render function provided or it is not a function"])
     = Return (StateContainer.JFunction StateContainer.Identity)
         (StateContainer.JFunction StateContainer.Identity,
          ["No render function provided or it is not a function"])
  /\ StateContainer.is_function (StateContainer.JFunction StateContainer.Identity) = true.
Proof. repeat split. Qed.

(** C10, amended.  The setter [useState] returns tells by the type of
    its argument.  A function is called on the current value and its
    result is what is stored before the callback or the warning runs; if
    the call throws, the setter throws the same and neither stores nor
    notifies.  Anything else is stored as it is, and so is the initial
    value, function or not.  When the callback does not itself write the
    container, the value held once the setter has returned is what the
    function passed returned, or the argument that was no function: it
    is a function only when a function passed to the setter returned
    it. *)
Theorem function_arguments_are_called :
  forall (W V : Type) (is_function : V -> bool) (call : V -> V -> M W V)
         (value : W -> V) (assign : V -> W -> W)
         (renderFn : option (M W unit)) (console_warn : string -> M W unit),
    (forall v w, value (assign v w) = v) ->
    forall (initialVal : V) (w0 : W),
    exists get set,
      StateContainer.useState value assign (StateContainer.typeof_dynamic is_function call)
        renderFn console_warn initialVal w0
      = Return (get, set) (assign initialVal w0)
      /\ get (assign initialVal w0) = Return initialVal (assign initialVal w0)
      /\ forall (newVal : V) (w : W),
           (is_function newVal = true ->
              (forall v w1, call newVal (value w) w = Return v w1 ->
                 set newVal w = notify renderFn console_warn (assign v w1)
                 /\ get (assign v w1) = Return v (assign v w1))
              /\ (forall e w1, call newVal (value w) w = Throw e w1 ->
                    set newVal w = Throw e w1))
           /\ (is_function newVal = false ->
                 set newVal w = notify renderFn console_warn (assign newVal w)
                 /\ get (assign newVal w) = Return newVal (assign newVal w))
           /\ (preserves value (notify renderFn console_warn) ->
               forall w', set newVal w = Return tt w' ->
                 (is_function newVal = true ->
                    exists w1, call newVal (value w) w = Return (value w') w1)
                 /\ (is_function newVal = false -> value w' = newVal)
                 /\ (is_function (value w') = true -> is_function newVal = true)).
Proof.
  intros W V is_function call value assign renderFn console_warn Hlens initialVal w0.
  exists (StateContainer.getState value),
         (StateContainer.setState value assign
            (StateContainer.typeof_dynamic is_function call) renderFn console_warn).
  assert (Hget : forall v s,
             StateContainer.getState value (assign v s) = Return v (assign v s)).
  { intros v s. unfold StateContainer.getState, gets. rewrite Hlens. reflexivity. }
  split; [reflexivity|]. split; [apply Hget|]. intros newVal w.
  unfold StateContainer.setState, StateContainer.typeof_dynamic, bind, gets, modify.
  fold (notify renderFn console_warn).
  destruct (is_function newVal) eqn:Hfun.
  - split; [intros _; split|split; [discriminate|]].
    + intros v w1 ->. split; [reflexivity | apply Hget].
    + intros e w1 ->. reflexivity.
    + intros Hframe w' Hrun.
      destruct (call newVal (value w) w) as [v w1|e w1|] eqn:Hcall; try discriminate.
      assert (value w' = v) as <-.
      { rewrite <- (Hlens v w1). apply Hframe. rewrite Hrun. reflexivity. }
      split; [intros _; exists w1; reflexivity|]. split; [discriminate | reflexivity].
  - split; [discriminate|]. split.
    + intros _. split; [reflexivity | apply Hget].
    + intros Hframe w' Hrun.
      assert (value w' = newVal) as Hval.
      { rewrite <- (Hlens newVal w). apply Hframe. rewrite Hrun. reflexivity. }
      split; [discriminate|]. split; [intros _; exact Hval|].
      rewrite Hval, Hfun. discriminate.
Qed.

Lemma function_arguments_are_called_witness :
  exists get set,
    StateContainer.useState fst (fun v w => (v, snd w))
      (StateContainer.typeof_dynamic StateContainer.is_function StateContainer.call)
      None Untyped.warn (StateContainer.JNumber 3) (StateContainer.JUndefined, [])
    = Return (get, set) (StateContainer.JNumber 3, [])
    /\ set (StateContainer.JFunction StateContainer.Identity) (StateContainer.JNumber 3, [])
       = Untyped.warn "No render function provided or it is not a function"
           (StateContainer.JNumber 3, [])
    /\ set (StateContainer.JFunction (StateContainer.Constant (StateContainer.JString "done")))
         (StateContainer.JNumber 3, [])
       = Untyped.warn "No render function provided or it is not a function"
           (StateContainer.JString "done", [])
    /\ set (StateContainer.JFunction StateContainer.Identity) (StateContainer.JUndefined, [])
       = Untyped.warn "No render function provided or it is not a function"
           (StateContainer.JUndefined, []).
Proof.
  destruct (function_arguments_are_called Untyped.world StateContainer.jsval
              StateContainer.is_function StateContainer.call
              fst (fun v w => (v, snd w)) None Untyped.warn (fun v w => eq_refl)
              (StateContainer.JNumber 3) (StateContainer.JUndefined, []))
    as (get & set & Hmake & _ & Hset).
  exists get, set. split; [exact Hmake|]. split; [|split].
  - exact (proj1 (proj1 (proj1 (Hset (StateContainer.JFunction StateContainer.Identity)
                                  (StateContainer.JNumber 3, [])) eq_refl)
                    (StateContainer.JNumber 3) (StateContainer.JNumber 3, []) eq_refl)).
  - exact (proj1 (proj1 (proj1 (Hset (StateContainer.JFunction
                                        (StateContainer.Constant
                                           (StateContainer.JString "done")))
                                  (StateContainer.JNumber 3, [])) eq_refl)
                    (StateContainer.JString "done") (StateContainer.JNumber 3, []) eq_refl)).
  - exact (proj1 (proj1 (proj1 (Hset (StateContainer.JFunction StateContainer.Identity)
                                  (StateContainer.JUndefined, [])) eq_refl)
                    StateContainer.JUndefined (StateContainer.JUndefined, []) eq_refl)).
Defined.

(** * Further properties *)

(** ** The element builder *)





Lemma check_plain {W} (name : string) (w : W) :
  plain_name name = true -> check_name name w = Return tt w.
Proof. intros H. unfold check_name. rewrite H. reflexivity. Qed.




Lemma validate_tokens_good (tokens : list string) :
  validate_tokens tokens = None <-> forallb good_token tokens = true.
Proof.
  induction tokens as [|t ts IH]; [tauto|].
  cbn [validate_tokens forallb]. unfold good_token at 1.
  destruct (String.eqb t ""); [cbn; split; discriminate|].
  destruct (has_whitespace t); [cbn; split; discriminate|].
  exact IH.
Qed.

Lemma validate_tokens_bad (tokens : list string) :
  forallb good_token tokens = false ->
  validate_tokens tokens = Some (DOMException "SyntaxError")
  \/ validate_tokens tokens = Some (DOMException "InvalidCharacterError").
Proof.
  induction tokens as [|t ts IH]; [discriminate|].
  cbn [validate_tokens forallb]. unfold good_token at 1.
  destruct (String.eqb t ""); [auto|].
  destruct (has_whitespace t); [auto|]. exact IH.
Qed.

Lemma add_token_In (c t : string) (cl : list string) :
  In c (add_token cl t) <-> In c cl \/ c = t.
Proof.
  unfold add_token. destruct (existsb (String.eqb t) cl) eqn:E.
  - split; [auto|]. intros [H| ->]; [exact H|].
    apply existsb_exists in E as (x & Hx & Heq). apply String.eqb_eq in Heq. subst. exact Hx.
  - rewrite in_app_iff. simpl. intuition.
Qed.

Lemma add_token_NoDup (t : string) (cl : list string) :
  NoDup cl -> NoDup (add_token cl t).
Proof.
  intros H. unfold add_token. destruct (existsb (String.eqb t) cl) eqn:E; [exact H|].
  apply NoDup_app. split; [exact H|]. split; [|apply NoDup_singleton].
  intros x Hx Hx'. apply list_elem_of_singleton in Hx'. subst x.
  assert (existsb (String.eqb t) cl = true); [|congruence].
  apply existsb_exists. exists t. split; [apply list_elem_of_In; exact Hx | apply String.eqb_refl].
Qed.

Lemma add_tokens_In (c : string) (tokens : list string) :
  forall cl, In c (fold_left add_token tokens cl) <-> In c cl \/ In c tokens.
Proof.
  induction tokens as [|t ts IH]; intros cl; cbn [fold_left].
  - simpl. tauto.
  - rewrite IH, add_token_In. simpl. intuition.
Qed.

Lemma add_tokens_NoDup (tokens : list string) :
  forall cl, NoDup cl -> NoDup (fold_left add_token tokens cl).
Proof.
  induction tokens as [|t ts IH]; intros cl H; cbn [fold_left]; [exact H|].
  apply IH, add_token_NoDup, H.
Qed.

Lemma has_class_In (c : string) (n : node) :
  has_class c n = true <-> In c (classes_of n).
Proof.
  destruct n as [s|t p cs]; cbn [has_class classes_of]; [split; [discriminate | intros []]|].
  rewrite existsb_exists. split.
  - intros (x & Hx & Heq). apply String.eqb_eq in Heq. subst. exact Hx.
  - intros H. exists c. split; [exact H | apply String.eqb_refl].
Qed.

(** X6.  A [class] attribute, on an element with a plain name, is split
    at single spaces and the pieces go to [classList.add].  When every
    piece is a good token the element carries exactly those classes,
    each once.  When one is not (the empty class string, a doubled,
    leading or trailing space, a tab inside a name) the call throws a
    [DOMException] and there is no element. *)
Theorem class_attribute_tokens {W} (tagName s : string) (w : W) :
  plain_name tagName = true ->
  (forallb good_token (Js.split " " s) = true ->
     exists el,
       createElement tagName [("class", AString s)] [] w = Return el w
       /\ (forall c, has_class c el = true <-> In c (Js.split " " s))
       /\ NoDup (classes_of el))
  /\ (forallb good_token (Js.split " " s) = false ->
     createElement tagName [("class", AString s)] [] w
       = Throw (DOMException "SyntaxError") w
     \/ createElement tagName [("class", AString s)] [] w
       = Throw (DOMException "InvalidCharacterError") w).
Proof.
  intros Hname. unfold createElement, document_createElement, bind.
  rewrite (check_plain _ _ Hname).
  cbn [ret apply_attributes apply_attribute String.eqb Ascii.eqb Bool.eqb].
  unfold bind, classList_add. split; intros H.
  - apply validate_tokens_good in H. rewrite H. cbn [ret append_children blank classList].
    eexists. split; [reflexivity|]. split.
    + intros c. rewrite has_class_In. cbn [classes_of classList].
      rewrite add_tokens_In. simpl. tauto.
    + cbn [classes_of classList]. apply add_tokens_NoDup, NoDup_nil. exact I.
  - destruct (validate_tokens_bad _ H) as [-> | ->]; [left | right]; reflexivity.
Qed.

Lemma class_attribute_tokens_witness :
  (exists el,
      createElement "li" [("class", AString "todo-item done todo-item")] [] tt = Return el tt
      /\ classes_of el = ["todo-item"; "done"])
  /\ createElement "li" [("class", AString "")] [] tt = Throw (DOMException "SyntaxError") tt
  /\ createElement "li" [("class", AString "a  b")] [] tt = Throw (DOMException "SyntaxError") tt.
Proof.
  split; [|split].
  - destruct (proj1 (class_attribute_tokens "li" "todo-item done todo-item" tt eq_refl) eq_refl)
      as (el & Hrun & _).
    exists el. split; [exact Hrun|]. vm_compute in Hrun. injection Hrun as <-. reflexivity.
  - destruct (proj2 (class_attribute_tokens "li" "" tt eq_refl) eq_refl) as [H|H];
      [exact H | discriminate H].
  - destruct (proj2 (class_attribute_tokens "li" "a  b" tt eq_refl) eq_refl) as [H|H];
      [exact H | discriminate H].
Defined.

Lemma split_append (sep : ascii) (a b : string) :
  occurs sep a = false ->
  Js.split sep (a +:+ String sep b) = a :: Js.split sep b.
Proof.
  induction a as [|c a IH]; simpl; intros H.
  - rewrite Ascii.eqb_refl. reflexivity.
  - apply orb_false_iff in H as [Hc Ha]. rewrite Hc, (IH Ha). reflexivity.
Qed.

Lemma split_whole (sep : ascii) (a : string) :
  occurs sep a = false -> Js.split sep a = [a].
Proof.
  induction a as [|c a IH]; cbn [occurs Js.split]; intros H; [reflexivity|].
  apply orb_false_iff in H as [Hc Ha]. rewrite Hc, (IH Ha). reflexivity.
Qed.

Lemma split_join (sep : ascii) (parts : list string) :
  parts <> [] -> forallb (fun p => negb (occurs sep p)) parts = true ->
  Js.split sep (Js.join (String sep EmptyString) parts) = parts.
Proof.
  induction parts as [|p rest IH]; [congruence|]. intros _ H.
  cbn [forallb] in H. apply andb_true_iff in H as [Hp Hrest]. apply negb_true_iff in Hp.
  destruct rest as [|q rest].
  - cbn [Js.join]. apply split_whole, Hp.
  - change (Js.join (String sep "") (p :: q :: rest))
      with (p +:+ String sep "" +:+ Js.join (String sep "") (q :: rest)).
    change (String sep "" +:+ Js.join (String sep "") (q :: rest))
      with (String sep (Js.join (String sep "") (q :: rest))).
    rewrite split_append by exact Hp. rewrite IH; [reflexivity | congruence | exact Hrest].
Qed.

Lemma occurs_append (c : ascii) (a b : string) :
  occurs c (a +:+ b) = occurs c a || occurs c b.
Proof.
  induction a as [|x a IH]; simpl; [reflexivity|].
  rewrite IH, orb_assoc. reflexivity.
Qed.

Lemma extractStyle_declarations (entries : list (string * string)) :
  extractStyle entries = Js.join ";" (map declaration entries).
Proof.
  unfold extractStyle. f_equal. apply map_ext. intros [k v]. reflexivity.
Qed.

(** X7.  [extractStyle] writes one declaration [key: value] per entry,
    with [;] between declarations and none at the end: the empty object
    gives the empty text, and when no key or value holds a [;], splitting
    the text at [;] gives back the declarations in order. *)
Theorem extractStyle_splits_back (entries : list (string * string)) :
  (entries = [] -> extractStyle entries = "")
  /\ (entries <> [] ->
      forallb (fun entry => negb (occurs ";" (fst entry)) && negb (occurs ";" (snd entry)))
        entries = true ->
      Js.split ";" (extractStyle entries) = map declaration entries).
Proof.
  split; [intros ->; reflexivity|]. intros Hne Hclean.
  rewrite extractStyle_declarations. apply split_join.
  - destruct entries; [congruence | discriminate].
  - rewrite forallb_forall in *. intros d Hd. apply in_map_iff in Hd as ([k v] & <- & Hin).
    specialize (Hclean _ Hin). cbn [fst snd] in Hclean.
    apply andb_true_iff in Hclean as [Hk Hv].
    apply negb_true_iff in Hk, Hv. apply negb_true_iff.
    unfold declaration. cbn [fst snd]. rewrite !occurs_append, Hk, Hv. reflexivity.
Qed.

Lemma extractStyle_splits_back_witness :
  Js.split ";" (extractStyle [("color", "red"); ("margin", "0 auto")])
  = ["color: red"; "margin: 0 auto"].
Proof.
  apply (proj2 (extractStyle_splits_back [("color", "red"); ("margin", "0 auto")]));
    [discriminate | reflexivity].
Defined.

(** ** What the views show *)

Lemma append_empty_r (s : string) : s +:+ "" = s.
Proof.
  induction s as [|c s IH]; [reflexivity|].
  change (String c (s +:+ "") = String c s). rewrite IH. reflexivity.
Qed.

Lemma row_select :
  (forall a i, map textContent (select (has_class "text") (row_node a i)) = [a]
               /\ map id_of (select (has_class "text") (row_node a i))
                  = ["todo-" +:+ Js.of_index i]
               /\ map id_of (select is_delete_control (row_node a i))
                  = ["delete-todo-" +:+ Js.of_index i]
               /\ select is_edit_control (row_node a i) = [])
  /\ (forall a i, map textContent (select (has_class "text") (state_object_row_node a i)) = [a]
               /\ map id_of (select (has_class "text") (state_object_row_node a i))
                  = ["todo-" +:+ Js.of_index i]
               /\ map id_of (select is_delete_control (state_object_row_node a i))
                  = ["delete-todo-" +:+ Js.of_index i]
               /\ map id_of (select is_edit_control (state_object_row_node a i))
                  = ["edit-todo-" +:+ Js.of_index i])
  /\ (forall a i, map textContent (select (has_class "text") (hooks_row_node a i)) = [a]
               /\ map id_of (select (has_class "text") (hooks_row_node a i))
                  = ["todo-" +:+ Js.of_index i]
               /\ map id_of (select is_delete_control (hooks_row_node a i))
                  = ["delete-todo-" +:+ Js.of_index i]
               /\ map id_of (select is_edit_control (hooks_row_node a i))
                  = ["edit-todo-" +:+ Js.of_index i]).
Proof.
  repeat split; simpl; rewrite ?append_empty_r; reflexivity.
Qed.

Ltac explicit_tree tree :=
  let x := fresh "tree" in
  let E := fresh "E" in
  remember tree as x eqn:E in |- *;
  unfold legacy_tree, globals_tree, state_object_tree, hooks_tree,
    legacy_view, globals_view, state_object_view, hooks_view,
    Legacy.todoComponent, Globals.todoComponent, StateObject.todoComponent,
    Hooks.todoComponent in E;
  unfold bind, createElement, gets, Hooks.getTodos, Hooks.getEditIndex,
    StateContainer.getState in E;
  simpl in E;
  rewrite ?(map_from_pure _ _ row_returns), ?(map_from_pure _ _ state_object_row_returns),
    ?(map_from_pure _ _ hooks_row_returns), ?length_imap in E.

Lemma legacy_list_section (l : list string) :
  list_section [legacy_tree l] = imap (fun i a => row_node a (0 + i)) l.
Proof. explicit_tree (legacy_tree l). subst. reflexivity. Qed.

Lemma shaped_list_section (l : list string) (rows : list node) (container : node)
    (children : list node) :
  shaped l rows container children ->
  match l with
  | [] => length (list_section [attached container children]) = 1%nat
  | _ => list_section [attached container children] = rows
  end.
Proof.
  intros Hshape. destruct (shaped_counts _ _ _ _ Hshape) as (section & Hsec & Hl & _).
  rewrite Hsec. destruct l; [|exact Hl]. destruct Hl as (ph & -> & _). reflexivity.
Qed.

Lemma rows_lookup (row : string -> nat -> node) (l : list string) (k : nat) (a : string) :
  l !! k = Some a -> imap (fun i x => row x (0 + i)%nat) l !! k = Some (row a k).
Proof. intros H. rewrite list_lookup_imap, H. reflexivity. Qed.

Lemma shaped_rows (l : list string) (row : string -> nat -> node) (container : node)
    (children : list node) :
  shaped l (imap (fun i x => row x (0 + i)%nat) l) container children ->
  length (list_section [attached container children]) = Nat.max 1 (length l)
  /\ forall k a, l !! k = Some a ->
       list_section [attached container children] !! k = Some (row a k).
Proof.
  intros Hshape. pose proof (shaped_list_section _ _ _ _ Hshape) as H.
  destruct l as [|x l]; [split; [exact H | intros k a Hk; discriminate Hk]|].
  rewrite H. split.
  - rewrite length_imap. simpl. lia.
  - intros k a Hk. apply rows_lookup, Hk.
Qed.

(** X8.  The list section of every view follows the list: it has one
    row per todo (in the later iterations the single placeholder row
    when there is none), and the row at position [k] shows the text of
    todo [k] in a span with id [todo-k], next to the one delete control
    with id [delete-todo-k] and, where items can be edited, the one edit
    control with id [edit-todo-k]. *)
Theorem rows_follow_the_list :
  (forall l : list string,
      length (list_section [legacy_tree l]) = length l
      /\ forall k a, l !! k = Some a ->
           exists r, list_section [legacy_tree l] !! k = Some r /\ row_shows r a k)
  /\ (forall l : list string,
      length (list_section [globals_tree l]) = Nat.max 1 (length l)
      /\ forall k a, l !! k = Some a ->
           exists r, list_section [globals_tree l] !! k = Some r /\ row_shows r a k)
  /\ (forall (l : list string) (cursor : Z),
      length (list_section [state_object_tree l cursor]) = Nat.max 1 (length l)
      /\ forall k a, l !! k = Some a ->
           exists r, list_section [state_object_tree l cursor] !! k = Some r
                     /\ row_shows r a k /\ row_edits r k)
  /\ (forall (l : list string) (cursor : Z),
      length (list_section [hooks_tree l cursor]) = Nat.max 1 (length l)
      /\ forall k a, l !! k = Some a ->
           exists r, list_section [hooks_tree l cursor] !! k = Some r
                     /\ row_shows r a k /\ row_edits r k).
Proof.
  destruct row_select as (R1 & R2 & R3).
  split; [|split; [|split]].
  - intros l. rewrite legacy_list_section. split; [apply length_imap|].
    intros k a Hk. exists (row_node a k). split; [apply rows_lookup, Hk|].
    destruct (R1 a k) as (H1 & H2 & H3 & _). repeat split; assumption.
  - intros l. destruct (shaped_rows l row_node _ _ (globals_view_shaped l)) as [Hlen Hrow].
    split; [exact Hlen|]. intros k a Hk. exists (row_node a k).
    split; [apply Hrow, Hk|]. destruct (R1 a k) as (H1 & H2 & H3 & _). repeat split; assumption.
  - intros l cursor.
    destruct (shaped_rows l state_object_row_node _ _ (state_object_view_shaped l cursor))
      as [Hlen Hrow].
    split; [exact Hlen|]. intros k a Hk. exists (state_object_row_node a k).
    split; [apply Hrow, Hk|]. destruct (R2 a k) as (H1 & H2 & H3 & H4).
    repeat split; assumption.
  - intros l cursor.
    destruct (shaped_rows l hooks_row_node _ _ (hooks_view_shaped l cursor)) as [Hlen Hrow].
    split; [exact Hlen|]. intros k a Hk. exists (hooks_row_node a k).
    split; [apply Hrow, Hk|]. destruct (R3 a k) as (H1 & H2 & H3 & H4).
    repeat split; assumption.
Qed.

Lemma rows_follow_the_list_witness :
  exists r,
    list_section [hooks_tree ["Buy milk"; "Walk dog"] (-1)] !! 1%nat = Some r
    /\ map textContent (select (has_class "text") r) = ["Walk dog"]
    /\ map id_of (select is_delete_control r) = ["delete-todo-1"].
Proof.
  destruct (proj2 (proj2 (proj2 (proj2 rows_follow_the_list))
                     ["Buy milk"; "Walk dog"] (-1)%Z) 1%nat "Walk dog" eq_refl)
    as (r & Hr & (Ht & _ & Hd) & _).
  exists r. split; [exact Hr | split; [exact Ht | exact Hd]].
Defined.

(** X9.  The placeholder of the field and the label of the button say
    whether an item is being edited: with the edit index at [-1] they are
    "Add a new todo..." and "Add Todo", with any other edit index "Edit
    your todo..." and "Update Todo"; the first two iterations, which have
    no edit index, always show the former. *)
Theorem view_follows_the_mode :
  (forall l : list string,
      (find_id "todo-input" (legacy_tree l) ≫= getAttribute "placeholder")
        = Some "Add a new todo..."
      /\ textContent <$> find_id "add-todo-button" (legacy_tree l) = Some "Add Todo")
  /\ (forall l : list string,
      (find_id "todo-input" (globals_tree l) ≫= getAttribute "placeholder")
        = Some "Add a new todo..."
      /\ textContent <$> find_id "add-todo-button" (globals_tree l) = Some "Add Todo")
  /\ (forall (l : list string) (cursor : Z),
      (find_id "todo-input" (state_object_tree l cursor) ≫= getAttribute "placeholder")
        = Some (if (cursor =? -1)%Z then "Add a new todo..." else "Edit your todo...")
      /\ textContent <$> find_id "add-todo-button" (state_object_tree l cursor)
         = Some (if (cursor =? -1)%Z then "Add Todo" else "Update Todo"))
  /\ (forall (l : list string) (cursor : Z),
      (find_id "todo-input" (hooks_tree l cursor) ≫= getAttribute "placeholder")
        = Some (if (cursor =? -1)%Z then "Add a new todo..." else "Edit your todo...")
      /\ textContent <$> find_id "add-todo-button" (hooks_tree l cursor)
         = Some (if (cursor =? -1)%Z then "Add Todo" else "Update Todo")).
Proof.
  split; [|split; [|split]].
  - intros l. explicit_tree (legacy_tree l). subst. split; reflexivity.
  - intros l. explicit_tree (globals_tree l). destruct l; subst; split; reflexivity.
  - intros l cursor. explicit_tree (state_object_tree l cursor).
    destruct l, (cursor =? -1)%Z; subst; split; reflexivity.
  - intros l cursor. explicit_tree (hooks_tree l cursor).
    destruct l, (cursor =? -1)%Z; subst; split; reflexivity.
Qed.

Lemma select_rows (P : node -> bool) (row : string -> nat -> node) (l : list string) :
  (forall a i, select P (row a i) = []) ->
  forall k, concat (map (select P) (imap (fun i a => row a (k + i)%nat) l)) = [].
Proof.
  intros Hrow. induction l as [|a l IH]; intros k; [reflexivity|].
  cbn [imap map concat]. rewrite Hrow. cbn [app].
  rewrite <- (IH (S k)). f_equal. f_equal. apply imap_ext. intros i x _. simpl. f_equal. lia.
Qed.

(** X10.  The view of [unnamed/part_001] has exactly one element of
    class [stats-value], and its text is the number of todos. *)
Theorem stats_count_the_list (l : list string) (cursor : Z) :
  map textContent (select (has_class "stats-value") (hooks_tree l cursor))
  = [Js.of_index (length l)].
Proof.
  assert (Hrows : forall k, concat (map (select (has_class "stats-value"))
                              (imap (fun i a => hooks_row_node a (k + i)%nat) l)) = []).
  { apply select_rows. reflexivity. }
  specialize (Hrows 0%nat). explicit_tree (hooks_tree l cursor).
  destruct l as [|a l]; [destruct (cursor =? -1)%Z; subst; reflexivity|].
  remember (imap (fun i x => hooks_row_node x (0 + i)%nat) (a :: l)) as rows eqn:Erows in *.
  clear Erows. destruct (cursor =? -1)%Z; subst; simpl; rewrite Hrows; simpl;
    rewrite append_empty_r; reflexivity.
Qed.

(** ** The routers, click by click, with what they leave on the page *)

Lemma so_painted_shows (x : StateObject.world) :
  root (StateObject.doc (so_painted x))
  = Some [state_object_tree (StateObject.todos (so_painted x))
            (StateObject.editIndex (so_painted x))].
Proof. reflexivity. Qed.

Lemma so_visit_trace (w : StateObject.world) (target_id : string) (i : nat) :
  has_input (StateObject.doc w) = true -> hits target_id i = true ->
  exists x,
    StateObject.visit target_id (Some (live (StateObject.doc w))) i w
    = Return tt (so_painted x)
    /\ generation (StateObject.doc x) = generation (StateObject.doc w).
Proof.
  intros Hin Hhit. destruct (hits_names _ _ Hhit) as [-> | ->]; unfold StateObject.visit.
  - unfold bind at 1. rewrite delete_id_eqb, Nat.eqb_refl, delete_id_not_edit. cbn [when].
    unfold bind at 1. unfold modify at 1.
    unfold bind at 1. unfold gets at 1.
    unfold bind at 1.
    cbn [StateObject.editIndex StateObject.set_todos StateObject.todos StateObject.doc].
    destruct (StateObject.editIndex w =? Z.of_nat i)%Z eqn:Heq.
    + unfold bind at 1. unfold modify at 1.
      unfold StateObject.in_doc, zoom, set_value, modify.
      cbn [StateObject.editIndex StateObject.set_todos StateObject.set_editIndex
           StateObject.todos StateObject.doc StateObject.set_doc].
      rewrite so_render by (cbn; rewrite has_input_write; exact Hin).
      cbn [ret]. eexists. split; reflexivity.
    + destruct (Z.of_nat i <? StateObject.editIndex w)%Z eqn:Hlt.
      * unfold modify at 1. rewrite so_render by exact Hin.
        cbn [ret]. eexists. split; reflexivity.
      * unfold ret at 1. rewrite so_render by exact Hin.
        cbn [ret]. eexists. split; reflexivity.
  - unfold bind at 1. rewrite edit_id_not_delete, edit_id_eqb, Nat.eqb_refl. cbn [when ret].
    unfold bind at 1. unfold modify at 1.
    unfold bind at 1. unfold gets at 1.
    unfold bind at 1. unfold StateObject.in_doc, zoom, set_value, modify.
    rewrite so_render by (cbn; rewrite has_input_write; exact Hin).
    eexists. split; reflexivity.
Qed.

Lemma so_add_trace (w : StateObject.world) :
  has_input (StateObject.doc w) = true ->
  cursor_ok (StateObject.editIndex w) (StateObject.todos w) ->
  exists x,
    StateObject.on_click "add-todo-button" w = Return tt (so_painted x)
    /\ generation (StateObject.doc x) = generation (StateObject.doc w).
Proof.
  intros Hin Hcur.
  assert (Hloop : forall input w1,
            forEach (fun w => length (StateObject.todos w))
              (StateObject.visit "add-todo-button" input) w1 = Return tt w1).
  { intros input w1. apply so_loop_idle. intros j _. apply add_id_hits_nothing. }
  unfold StateObject.on_click, bind. rewrite (so_query w Hin).
  cbn [String.eqb Ascii.eqb Bool.eqb when].
  unfold StateObject.in_doc, zoom, get_value, set_value, gets, modify, ret.
  rewrite set_doc_doc.
  destruct (Js.truthy _) eqn:Htext; cbn [when].
  - destruct (StateObject.editIndex w =? -1)%Z eqn:Hsent; cbn [negb].
    + cbn [StateObject.doc StateObject.set_todos].
      rewrite so_render by (cbn; rewrite has_input_write; exact Hin).
      rewrite Hloop. eexists. split; reflexivity.
    + destruct Hcur as [Hc|Hc]; [rewrite Hc in Hsent; discriminate|].
      rewrite store_valid by exact Hc.
      cbn [StateObject.doc StateObject.set_todos StateObject.set_editIndex].
      rewrite so_render by (cbn; rewrite has_input_write; exact Hin).
      rewrite Hloop. eexists. split; reflexivity.
  - cbn [ret StateObject.doc].
    rewrite so_render by (cbn; rewrite has_input_write; exact Hin).
    rewrite Hloop. eexists. split; reflexivity.
Qed.

Lemma so_hit_trace (w : StateObject.world) (target_id : string) (i : nat) :
  has_input (StateObject.doc w) = true ->
  (i < length (StateObject.todos w))%nat -> hits target_id i = true ->
  exists x,
    StateObject.on_click target_id w = Return tt (so_painted x)
    /\ generation (StateObject.doc x) = generation (StateObject.doc w).
Proof.
  intros Hin Hi Hhit.
  assert (Hadd : String.eqb target_id "add-todo-button" = false).
  { destruct (hits_names _ _ Hhit) as [-> | ->]; reflexivity. }
  unfold StateObject.on_click.
  unfold bind at 1. rewrite (so_query w Hin).
  unfold bind at 1. rewrite Hadd. cbn [when ret].
  rewrite (so_loop_one _ _ i) by assumption.
  apply so_visit_trace; assumption.
Qed.

Lemma so_click_trace (w : StateObject.world) (target_id : string) :
  StateObjectRun.invariant w ->
  StateObject.on_click target_id w = Return tt w
  \/ exists x, StateObject.on_click target_id w = Return tt (so_painted x).
Proof.
  intros [Hin Hcur].
  destruct (String.eqb target_id "add-todo-button") eqn:Hadd.
  - apply String.eqb_eq in Hadd. subst. right.
    destruct (so_add_trace w Hin Hcur) as (x & H & _). eauto.
  - destruct (hits_search target_id (length (StateObject.todos w))) as [Hnone|(i & Hi & Hhit)].
    + left. apply so_click_other; assumption.
    + right. destruct (so_hit_trace w target_id i Hin Hi Hhit) as (x & H & _). eauto.
Qed.

Lemma so_reachable_shows (w : StateObject.world) :
  StateObjectRun.reachable w ->
  root (StateObject.doc w)
  = Some [state_object_tree (StateObject.todos w) (StateObject.editIndex w)].
Proof.
  induction 1 as [w0 w Hboot | w v Hreach IH | w target_id w' Hreach IH Hclick].
  - unfold StateObject.boot, bind, modify in Hboot.
    destruct (root (StateObject.doc w0)) as [old|] eqn:Hroot.
    + rewrite (state_object_render_returns _ old) in Hboot by exact Hroot.
      match type of Hboot with Return tt ?x = _ => assert (w = x) as -> by congruence end.
      reflexivity.
    + rewrite render_absent_state_object in Hboot by exact Hroot. discriminate.
  - destruct w; exact IH.
  - destruct (so_click_trace w target_id (so_reachable_invariant w Hreach)) as [H | [x H]];
      rewrite H in Hclick; injection Hclick as <-; [exact IH | apply so_painted_shows].
Qed.

Lemma hk_painted_shows (x : Hooks.world) : hk_shown (hk_painted x).
Proof. reflexivity. Qed.

Lemma hk_write_shows (h : handle) (v : string) (x : Hooks.world) :
  hk_shown x -> hk_shown (Hooks.set_doc (write_value h v (Hooks.doc x)) x).
Proof. destruct x. exact (fun H => H). Qed.

Ltac hk_shown_facts :=
  repeat match goal with
  | |- context [hk_painted ?x] =>
      let Ht := fresh "Ht" in let Hc := fresh "Hc" in
      let Hh := fresh "Hh" in let Hf := fresh "Hf" in let Hg := fresh "Hg" in
      let Hs := fresh "Hs" in
      let p := fresh "painted" in
      destruct (hk_painted_facts x) as (Ht & Hc & Hh & Hf & Hg);
      pose proof (hk_painted_shows x) as Hs;
      generalize dependent (hk_painted x); intros p; intros
  end.

Ltac hk_count :=
  cbn [Hooks.doc Hooks.set_doc Hooks.set_todos_value Hooks.set_editIndex_value
       write_value generation] in *;
  repeat match goal with
         | H : generation (Hooks.doc ?x) = _ |- context [generation (Hooks.doc ?x)] =>
             rewrite H
         end;
  cbn [Hooks.doc Hooks.set_doc Hooks.set_todos_value Hooks.set_editIndex_value
       write_value generation];
  try reflexivity.

Lemma hk_delete_trace (w : Hooks.world) (i : nat) :
  has_input (Hooks.doc w) = true ->
  exists w',
    Hooks.visit ("delete-todo-" +:+ Js.of_index i) (Some (live (Hooks.doc w))) i w
    = Return tt w'
    /\ hk_shown w'
    /\ generation (Hooks.doc w')
       = ((if (Z.of_nat i <=? Hooks.editIndex_value w)%Z then 2 else 1)
          + generation (Hooks.doc w))%nat.
Proof.
  intros Hin. unfold Hooks.visit, bind.
  rewrite delete_id_eqb, Nat.eqb_refl, delete_id_not_edit. cbn [when].
  rewrite (hk_setTodos_updater _ (delete i (Hooks.todos_value w)) w Hin)
    by (unfold ret; rewrite filter_index_ne_delete; reflexivity).
  hk_shown_facts. unfold Hooks.getEditIndex, StateContainer.getState, gets.
  rewrite Hc. cbn [Hooks.editIndex_value Hooks.set_todos_value].
  destruct (Hooks.editIndex_value w =? Z.of_nat i)%Z eqn:Heq.
  - apply Z.eqb_eq in Heq.
    replace (Z.of_nat i <=? Hooks.editIndex_value w)%Z with true
      by (symmetry; apply Z.leb_le; lia).
    rewrite hk_setEditIndex_value by exact Hh. hk_shown_facts.
    unfold Hooks.in_doc, zoom, set_value, modify. cbn [ret].
    eexists. split; [reflexivity|]. split; [apply hk_write_shows; assumption|]. hk_count.
  - apply Z.eqb_neq in Heq.
    rewrite Hc. cbn [Hooks.editIndex_value Hooks.set_todos_value].
    destruct (Z.of_nat i <? Hooks.editIndex_value w)%Z eqn:Hlt.
    + apply Z.ltb_lt in Hlt.
      replace (Z.of_nat i <=? Hooks.editIndex_value w)%Z with true
        by (symmetry; apply Z.leb_le; lia).
      rewrite (hk_setEditIndex_updater _ (Hooks.editIndex_value w - 1)%Z)
        by (try exact Hh; unfold ret; rewrite Hc; reflexivity).
      hk_shown_facts. cbn [ret]. eexists. split; [reflexivity|].
      split; [assumption|]. hk_count.
    + apply Z.ltb_ge in Hlt.
      replace (Z.of_nat i <=? Hooks.editIndex_value w)%Z with false
        by (symmetry; apply Z.leb_gt; lia).
      cbn [ret]. eexists. split; [reflexivity|]. split; [assumption|]. hk_count.
Qed.

Lemma hk_edit_trace (w : Hooks.world) (i : nat) :
  has_input (Hooks.doc w) = true ->
  exists w',
    Hooks.visit ("edit-todo-" +:+ Js.of_index i) (Some (live (Hooks.doc w))) i w
    = Return tt w'
    /\ hk_shown w'
    /\ generation (Hooks.doc w') = S (generation (Hooks.doc w)).
Proof.
  intros Hin. unfold Hooks.visit, bind.
  rewrite edit_id_not_delete, edit_id_eqb, Nat.eqb_refl. cbn [when ret].
  rewrite hk_setEditIndex_value by exact Hin. hk_shown_facts.
  unfold Hooks.getTodos, StateContainer.getState, gets.
  unfold Hooks.in_doc, zoom, set_value, modify.
  eexists. split; [reflexivity|]. split; [apply hk_write_shows; assumption|]. hk_count.
Qed.

Lemma hk_add_trace (w : Hooks.world) :
  has_input (Hooks.doc w) = true ->
  cursor_ok (Hooks.editIndex_value w) (Hooks.todos_value w) ->
  exists w',
    Hooks.on_click "add-todo-button" w = Return tt w'
    /\ (hk_shown w -> hk_shown w')
    /\ generation (Hooks.doc w')
       = ((if Js.truthy (Js.trim (value_of (live (Hooks.doc w)) (Hooks.doc w)))
           then if (Hooks.editIndex_value w =? -1)%Z then 1 else 2
           else 0)
          + generation (Hooks.doc w))%nat.
Proof.
  intros Hin Hcur.
  assert (Hloop : forall input n w1,
            forEach (fun _ => n) (Hooks.visit "add-todo-button" input) w1 = Return tt w1).
  { intros input n w1. apply hk_loop_idle. intros j _. apply add_id_hits_nothing. }
  unfold Hooks.on_click, bind. rewrite (hk_query w Hin).
  cbn [String.eqb Ascii.eqb Bool.eqb when].
  unfold Hooks.getTodos, Hooks.getEditIndex, StateContainer.getState.
  unfold Hooks.in_doc at 1. unfold zoom, get_value, gets.
  rewrite hk_set_doc_doc.
  destruct (Js.truthy _) eqn:Htext; cbn [when].
  - destruct (Hooks.editIndex_value w =? -1)%Z eqn:Hsent; cbn [negb].
    + rewrite (hk_setTodos_updater _ (Hooks.todos_value w ++ [_]) w Hin) by reflexivity.
      hk_shown_facts. unfold Hooks.in_doc, zoom, set_value, modify.
      rewrite Hloop. eexists. split; [reflexivity|].
      split; [intros _; apply hk_write_shows; assumption|]. hk_count.
    + destruct Hcur as [Hc|Hc]; [rewrite Hc in Hsent; discriminate|].
      rewrite (hk_setTodos_updater _
                 (<[Z.to_nat (Hooks.editIndex_value w) := _]> (Hooks.todos_value w)) w Hin)
        by (unfold bind, Hooks.getEditIndex, StateContainer.getState, gets;
            rewrite store_valid by exact Hc; reflexivity).
      hk_shown_facts. rewrite hk_setEditIndex_value by exact Hh. hk_shown_facts.
      unfold Hooks.in_doc, zoom, set_value, modify.
      rewrite Hloop. eexists. split; [reflexivity|].
      split; [intros _; apply hk_write_shows; assumption|]. hk_count.
  - cbn [ret]. unfold Hooks.in_doc, zoom, set_value, modify.
    rewrite Hloop. eexists. split; [reflexivity|].
    split; [apply hk_write_shows|]. hk_count.
Qed.

Lemma hk_hit_loop (w : Hooks.world) (target_id : string) (i : nat) :
  has_input (Hooks.doc w) = true ->
  (i < length (Hooks.todos_value w))%nat -> hits target_id i = true ->
  Hooks.on_click target_id w
  = Hooks.visit target_id (Some (live (Hooks.doc w))) i w.
Proof.
  intros Hin Hi Hhit.
  assert (Hadd : String.eqb target_id "add-todo-button" = false).
  { destruct (hits_names _ _ Hhit) as [-> | ->]; reflexivity. }
  unfold Hooks.on_click.
  unfold bind at 1. rewrite (hk_query w Hin).
  unfold bind at 1. rewrite Hadd. cbn [when ret].
  unfold bind at 1. unfold Hooks.getTodos, StateContainer.getState, gets.
  apply hk_loop_one; assumption.
Qed.

Lemma hk_click_trace (w : Hooks.world) (target_id : string) :
  HooksRun.invariant w -> hk_shown w ->
  exists w', Hooks.on_click target_id w = Return tt w' /\ hk_shown w'.
Proof.
  intros [Hin Hcur] Hshown.
  destruct (String.eqb target_id "add-todo-button") eqn:Hadd.
  - apply String.eqb_eq in Hadd. subst.
    destruct (hk_add_trace w Hin Hcur) as (w' & H & Hs & _). eauto.
  - destruct (hits_search target_id (length (Hooks.todos_value w))) as [Hnone|(i & Hi & Hhit)].
    + exists w. split; [apply hk_click_other; assumption | exact Hshown].
    + rewrite (hk_hit_loop w target_id i Hin Hi Hhit).
      destruct (hits_names _ _ Hhit) as [-> | ->].
      * destruct (hk_delete_trace w i Hin) as (w' & H & Hs & _). eauto.
      * destruct (hk_edit_trace w i Hin) as (w' & H & Hs & _). eauto.
Qed.

Lemma hk_reachable_shows (w : Hooks.world) : HooksRun.reachable w -> hk_shown w.
Proof.
  induction 1 as [w0 w Hboot | w v Hreach IH | w target_id w' Hreach IH Hclick].
  - unfold Hooks.boot, StateContainer.useState, bind, modify, ret in Hboot.
    destruct (root (Hooks.doc w0)) as [old|] eqn:Hroot.
    + rewrite (hooks_render_returns _ old) in Hboot by exact Hroot.
      match type of Hboot with Return tt ?x = _ => assert (w = x) as -> by congruence end.
      reflexivity.
    + rewrite render_absent_hooks in Hboot by exact Hroot. discriminate.
  - destruct w; exact IH.
  - destruct (hk_click_trace w target_id (hk_reachable_invariant w Hreach) IH)
      as (w'' & Hrun & Hs).
    rewrite Hrun in Hclick. injection Hclick as <-. exact Hs.
Qed.

Lemma ta_other (render : M TodosArray.world unit) (w : TodosArray.world) (target_id : string) :
  String.eqb target_id "add-todo-button" = false ->
  (forall j, (j < length (TodosArray.todos w))%nat ->
     String.eqb target_id ("delete-todo-" +:+ Js.of_index j) = false) ->
  TodosArray.on_click render target_id w = Return tt w.
Proof.
  intros Hadd Hidle. unfold TodosArray.on_click.
  unfold bind at 1. rewrite Hadd. cbn [when ret].
  unfold forEach, bind, gets. apply forEach_from_idle.
  intros j w' Hj. unfold TodosArray.visit. rewrite Hidle by lia. reflexivity.
Qed.

Section TodosArrayTrace.
Variable render : M TodosArray.world unit.
Variable tree : list string -> node.
Variable logged : list string -> list message.
Hypothesis render_exact : forall w old,
  root (TodosArray.doc w) = Some old ->
  render w = Return tt (TodosArray.set_doc
                          (repaint (tree (TodosArray.todos w)) (logged (TodosArray.todos w))
                             (TodosArray.doc w)) w).
Hypothesis tree_has_input : forall l, is_Some (find_id "todo-input" (tree l)).

Lemma ta_render_exact (w : TodosArray.world) :
  has_input (TodosArray.doc w) = true ->
  exists w',
    render w = Return tt w'
    /\ TodosArray.todos w' = TodosArray.todos w
    /\ has_input (TodosArray.doc w') = true
    /\ root (TodosArray.doc w') = Some [tree (TodosArray.todos w')]
    /\ generation (TodosArray.doc w') = S (generation (TodosArray.doc w)).
Proof.
  intros Hin. destruct (has_input_root _ Hin) as [old Hroot].
  rewrite (render_exact w old Hroot). eexists. split; [reflexivity|].
  cbn [TodosArray.todos TodosArray.doc TodosArray.set_doc]. split; [reflexivity|].
  split; [apply repaint_has_input, tree_has_input | split; reflexivity].
Qed.

Lemma ta_add_trace (w : TodosArray.world) :
  has_input (TodosArray.doc w) = true ->
  exists w',
    TodosArray.on_click render "add-todo-button" w = Return tt w'
    /\ has_input (TodosArray.doc w') = true
    /\ root (TodosArray.doc w') = Some [tree (TodosArray.todos w')]
    /\ generation (TodosArray.doc w') = S (generation (TodosArray.doc w)).
Proof.
  intros Hin. unfold TodosArray.on_click, bind.
  cbn [String.eqb Ascii.eqb Bool.eqb when].
  unfold TodosArray.in_doc, zoom. rewrite (querySelector_input _ Hin).
  unfold set_value. unfold gets, ret, modify.
  cbn [TodosArray.doc TodosArray.set_doc TodosArray.set_todos TodosArray.todos].
  match goal with
  | |- context [render ?x] =>
      destruct (ta_render_exact x) as (w' & -> & Ht & Hh & Hs & Hg);
        [cbn; rewrite has_input_write; exact Hin|]
  end.
  unfold forEach, bind, gets.
  rewrite forEach_from_idle by (intros; unfold TodosArray.visit; reflexivity).
  exists w'. auto.
Qed.

Lemma ta_delete_trace (w : TodosArray.world) (i : nat) :
  has_input (TodosArray.doc w) = true -> (i < length (TodosArray.todos w))%nat ->
  exists w',
    TodosArray.on_click render ("delete-todo-" +:+ Js.of_index i) w = Return tt w'
    /\ has_input (TodosArray.doc w') = true
    /\ root (TodosArray.doc w') = Some [tree (TodosArray.todos w')]
    /\ generation (TodosArray.doc w') = S (generation (TodosArray.doc w)).
Proof.
  intros Hin Hi. unfold TodosArray.on_click.
  unfold bind at 1. rewrite delete_id_not_add. cbn [when ret].
  unfold forEach, bind, gets.
  rewrite (forEach_from_one _ _ i); [|lia|exact Hi|].
  2:{ intros j w' Hj. unfold TodosArray.visit. rewrite delete_id_eqb.
      replace (i =? j)%nat with false by (symmetry; apply Nat.eqb_neq; congruence).
      reflexivity. }
  unfold TodosArray.visit. rewrite delete_id_eqb, Nat.eqb_refl. cbn [when].
  unfold bind, modify.
  match goal with
  | |- context [render ?x] =>
      destruct (ta_render_exact x) as (w' & -> & Ht & Hh & Hs & Hg); [exact Hin|]
  end.
  exists w'. auto.
Qed.

Lemma ta_click_trace (w : TodosArray.world) (target_id : string) :
  has_input (TodosArray.doc w) = true ->
  root (TodosArray.doc w) = Some [tree (TodosArray.todos w)] ->
  exists w',
    TodosArray.on_click render target_id w = Return tt w'
    /\ has_input (TodosArray.doc w') = true
    /\ root (TodosArray.doc w') = Some [tree (TodosArray.todos w')].
Proof.
  intros Hin Hshown.
  destruct (String.eqb target_id "add-todo-button") eqn:Hadd.
  - apply String.eqb_eq in Hadd. subst.
    destruct (ta_add_trace w Hin) as (w' & H & Hh & Hs & _). eauto.
  - destruct (hits_search target_id (length (TodosArray.todos w)))
      as [Hnone|(i & Hi & Hhit)].
    + exists w. split; [|auto]. apply ta_other; [exact Hadd|].
      intros j Hj. specialize (Hnone j Hj). unfold hits in Hnone.
      apply orb_false_iff in Hnone. tauto.
    + destruct (hits_names _ _ Hhit) as [-> | ->].
      * destruct (ta_delete_trace w i Hin Hi) as (w' & H & Hh & Hs & _). eauto.
      * exists w. split; [|auto]. apply ta_other; [reflexivity|].
        intros j _. apply edit_id_not_delete.
Qed.

Lemma ta_reachable_shows (boot : M TodosArray.world unit) (w : TodosArray.world) :
  (forall w0 w1, boot w0 = Return tt w1 ->
     has_input (TodosArray.doc w1) = true
     /\ root (TodosArray.doc w1) = Some [tree (TodosArray.todos w1)]) ->
  TodosArrayRun.reachable boot (TodosArray.on_click render) w ->
  has_input (TodosArray.doc w) = true
  /\ root (TodosArray.doc w) = Some [tree (TodosArray.todos w)].
Proof.
  intros Hboot. induction 1 as [w0 w Hrun | w v Hreach IH | w target_id w' Hreach IH Hclick].
  - exact (Hboot w0 w Hrun).
  - destruct w; exact IH.
  - destruct IH as [Hin Hs].
    destruct (ta_click_trace w target_id Hin Hs) as (w'' & Hrun & Hin' & Hs').
    rewrite Hrun in Hclick. injection Hclick as <-. auto.
Qed.

End TodosArrayTrace.

Lemma globals_tree_has_input (l : list string) : is_Some (find_id "todo-input" (globals_tree l)).
Proof. apply (shaped_has_input _ _ _ _ (globals_view_shaped l)). Qed.

Lemma legacy_reachable_shows (w : TodosArray.world) :
  TodosArrayRun.reachable Legacy.boot Legacy.on_click w ->
  has_input (TodosArray.doc w) = true
  /\ root (TodosArray.doc w) = Some [legacy_tree (TodosArray.todos w)].
Proof.
  apply (ta_reachable_shows Legacy.render legacy_tree (fun _ => [])).
  - intros w1 old Hroot. apply (legacy_render_returns w1 old Hroot).
  - apply legacy_tree_has_input.
  - intros w0 w1. unfold Legacy.boot, bind, modify.
    destruct (root (TodosArray.doc w0)) as [old|] eqn:Hroot.
    + rewrite (legacy_render_returns _ old) by exact Hroot. intros H.
      match type of H with Return tt ?x = _ => assert (w1 = x) as -> by congruence end.
      split; [apply repaint_has_input, legacy_tree_has_input | reflexivity].
    + rewrite render_absent_legacy by exact Hroot. discriminate.
Qed.

Lemma globals_reachable_shows (w : TodosArray.world) :
  TodosArrayRun.reachable Globals.boot Globals.on_click w ->
  has_input (TodosArray.doc w) = true
  /\ root (TodosArray.doc w) = Some [globals_tree (TodosArray.todos w)].
Proof.
  apply (ta_reachable_shows Globals.render globals_tree
           (fun l => [Debug (Globals.container (globals_view l)
                             :: Globals.children (globals_view l))])).
  - intros w1 old Hroot. apply (globals_render_returns w1 old Hroot).
  - apply globals_tree_has_input.
  - intros w0 w1. unfold Globals.boot, bind, modify.
    destruct (root (TodosArray.doc w0)) as [old|] eqn:Hroot.
    + rewrite (globals_render_returns _ old) by exact Hroot. intros H.
      match type of H with Return tt ?x = _ => assert (w1 = x) as -> by congruence end.
      split; [apply repaint_has_input, globals_tree_has_input | reflexivity].
    + rewrite render_absent_globals by exact Hroot. discriminate.
Qed.

Lemma typed_so (w : StateObject.world) (v : string) :
  let w' := StateObject.set_doc (typed v (StateObject.doc w)) w in
  StateObject.todos w' = StateObject.todos w
  /\ StateObject.editIndex w' = StateObject.editIndex w
  /\ has_input (StateObject.doc w') = has_input (StateObject.doc w)
  /\ value_of (live (StateObject.doc w')) (StateObject.doc w') = v.
Proof. destruct w as [l c d]. repeat split. apply value_of_write. Qed.

Lemma typed_hk (w : Hooks.world) (v : string) :
  let w' := Hooks.set_doc (typed v (Hooks.doc w)) w in
  Hooks.todos_value w' = Hooks.todos_value w
  /\ Hooks.editIndex_value w' = Hooks.editIndex_value w
  /\ has_input (Hooks.doc w') = has_input (Hooks.doc w)
  /\ value_of (live (Hooks.doc w')) (Hooks.doc w') = v.
Proof. destruct w as [l c d]. repeat split. apply value_of_write. Qed.

Lemma hk_reachable_example :
  exists w,
    HooksRun.reachable w
    /\ Hooks.todos_value w = ["Buy milk"] /\ Hooks.editIndex_value w = (-1)%Z.
Proof.
  destruct (hk_boot_returns
              {| Hooks.todos_value := []; Hooks.editIndex_value := (-1)%Z;
                 Hooks.doc := demo_page |} [] eq_refl)
    as (w1 & Hboot & Ht1 & Hc1 & Hin1).
  destruct (typed_hk w1 "  Buy milk") as (Ht & Hc & Hin & Hv).
  destruct (hk_click_add _ (eq_trans Hin Hin1) (or_introl (eq_trans Hc Hc1)))
    as (w2 & Hrun & _ & _ & Hst).
  rewrite Hv, Hc, Hc1, Ht, Ht1 in Hst. injection Hst as Ht2 Hc2.
  exists w2. split; [|split; [exact Ht2 | exact Hc2]].
  eapply HooksRun.reach_click.
  - apply HooksRun.reach_type. exact (HooksRun.reach_boot _ w1 Hboot).
  - rewrite Hrun. reflexivity.
Qed.

(** ** The page and the state *)

(** X11.  In every state reached from boot through typing and clicks,
    the mount point holds exactly the tree of the view for the current
    todos (and edit index): no handler leaves the page behind the
    state. *)
Theorem page_shows_the_state :
  (forall w : TodosArray.world,
      TodosArrayRun.reachable Legacy.boot Legacy.on_click w ->
      root (TodosArray.doc w) = Some [legacy_tree (TodosArray.todos w)])
  /\ (forall w : TodosArray.world,
      TodosArrayRun.reachable Globals.boot Globals.on_click w ->
      root (TodosArray.doc w) = Some [globals_tree (TodosArray.todos w)])
  /\ (forall w : StateObject.world,
      StateObjectRun.reachable w ->
      root (StateObject.doc w)
      = Some [state_object_tree (StateObject.todos w) (StateObject.editIndex w)])
  /\ (forall w : Hooks.world,
      HooksRun.reachable w ->
      root (Hooks.doc w)
      = Some [hooks_tree (Hooks.todos_value w) (Hooks.editIndex_value w)]).
Proof.
  split; [|split; [|split]].
  - intros w H. apply (legacy_reachable_shows w H).
  - intros w H. apply (globals_reachable_shows w H).
  - apply so_reachable_shows.
  - apply hk_reachable_shows.
Qed.

Lemma page_shows_the_state_witness :
  exists w,
    HooksRun.reachable w
    /\ Hooks.todos_value w = ["Buy milk"]
    /\ root (Hooks.doc w) = Some [hooks_tree ["Buy milk"] (-1)].
Proof.
  destruct hk_reachable_example as (w & Hreach & Ht & Hc).
  exists w. split; [exact Hreach|]. split; [exact Ht|].
  rewrite (proj2 (proj2 (proj2 page_shows_the_state)) w Hreach), Ht, Hc. reflexivity.
Defined.

Lemma renders_leave_the_state :
  (forall w w', final (Legacy.render w) = Some w' -> TodosArray.todos w' = TodosArray.todos w)
  /\ (forall w w', final (Globals.render w) = Some w' ->
        TodosArray.todos w' = TodosArray.todos w)
  /\ (forall w w', final (StateObject.render w) = Some w' ->
        StateObject.todos w' = StateObject.todos w
        /\ StateObject.editIndex w' = StateObject.editIndex w)
  /\ (forall w w', final (Hooks.render w) = Some w' ->
        Hooks.todos_value w' = Hooks.todos_value w
        /\ Hooks.editIndex_value w' = Hooks.editIndex_value w).
Proof.
  split; [|split; [|split]]; intros w w' H.
  - destruct (root (TodosArray.doc w)) as [old|] eqn:Hroot.
    + rewrite (legacy_render_returns _ old Hroot) in H. injection H as <-. reflexivity.
    + rewrite (render_absent_legacy _ Hroot) in H. injection H as <-. reflexivity.
  - destruct (root (TodosArray.doc w)) as [old|] eqn:Hroot.
    + rewrite (globals_render_returns _ old Hroot) in H. injection H as <-. reflexivity.
    + rewrite (render_absent_globals _ Hroot) in H. injection H as <-. reflexivity.
  - destruct (root (StateObject.doc w)) as [old|] eqn:Hroot.
    + rewrite (state_object_render_returns _ old Hroot) in H. injection H as <-.
      split; reflexivity.
    + rewrite (render_absent_state_object _ Hroot) in H. injection H as <-.
      split; reflexivity.
  - destruct (root (Hooks.doc w)) as [old|] eqn:Hroot.
    + rewrite (hooks_render_returns _ old Hroot) in H. injection H as <-. split; reflexivity.
    + rewrite (render_absent_hooks _ Hroot) in H. injection H as <-. split; reflexivity.
Qed.

(** X12.  No render function writes the list or the edit index, whether
    it returns or throws; and rendering again right after a render that
    returned leaves the same content under the mount point. *)
Theorem render_keeps_the_state :
  ((forall w w', final (Legacy.render w) = Some w' -> TodosArray.todos w' = TodosArray.todos w)
   /\ (forall w w', final (Globals.render w) = Some w' ->
         TodosArray.todos w' = TodosArray.todos w)
   /\ (forall w w', final (StateObject.render w) = Some w' ->
         StateObject.todos w' = StateObject.todos w
         /\ StateObject.editIndex w' = StateObject.editIndex w)
   /\ (forall w w', final (Hooks.render w) = Some w' ->
         Hooks.todos_value w' = Hooks.todos_value w
         /\ Hooks.editIndex_value w' = Hooks.editIndex_value w))
  /\ ((forall w w1, Legacy.render w = Return tt w1 ->
         exists w2, Legacy.render w1 = Return tt w2
                    /\ root (TodosArray.doc w2) = root (TodosArray.doc w1))
      /\ (forall w w1, Globals.render w = Return tt w1 ->
         exists w2, Globals.render w1 = Return tt w2
                    /\ root (TodosArray.doc w2) = root (TodosArray.doc w1))
      /\ (forall w w1, StateObject.render w = Return tt w1 ->
         exists w2, StateObject.render w1 = Return tt w2
                    /\ root (StateObject.doc w2) = root (StateObject.doc w1))
      /\ (forall w w1, Hooks.render w = Return tt w1 ->
         exists w2, Hooks.render w1 = Return tt w2
                    /\ root (Hooks.doc w2) = root (Hooks.doc w1))).
Proof.
  split; [exact renders_leave_the_state|].
  split; [|split; [|split]]; intros w w1 H.
  - destruct (root (TodosArray.doc w)) as [old|] eqn:Hroot;
      [|rewrite (render_absent_legacy _ Hroot) in H; discriminate].
    rewrite (legacy_render_returns _ old Hroot) in H.
    match type of H with Return tt ?x = _ => assert (w1 = x) as -> by congruence end.
    eexists. split; [eapply legacy_render_returns; reflexivity | reflexivity].
  - destruct (root (TodosArray.doc w)) as [old|] eqn:Hroot;
      [|rewrite (render_absent_globals _ Hroot) in H; discriminate].
    rewrite (globals_render_returns _ old Hroot) in H.
    match type of H with Return tt ?x = _ => assert (w1 = x) as -> by congruence end.
    eexists. split; [eapply globals_render_returns; reflexivity | reflexivity].
  - destruct (root (StateObject.doc w)) as [old|] eqn:Hroot;
      [|rewrite (render_absent_state_object _ Hroot) in H; discriminate].
    rewrite (state_object_render_returns _ old Hroot) in H.
    match type of H with Return tt ?x = _ => assert (w1 = x) as -> by congruence end.
    eexists. split; [eapply state_object_render_returns; reflexivity | reflexivity].
  - destruct (root (Hooks.doc w)) as [old|] eqn:Hroot;
      [|rewrite (render_absent_hooks _ Hroot) in H; discriminate].
    rewrite (hooks_render_returns _ old Hroot) in H.
    match type of H with Return tt ?x = _ => assert (w1 = x) as -> by congruence end.
    eexists. split; [eapply hooks_render_returns; reflexivity | reflexivity].
Qed.

Lemma render_keeps_the_state_witness :
  exists w1 w2,
    StateObject.render {| StateObject.todos := ["a"]; StateObject.editIndex := (-1)%Z;
                          StateObject.doc := demo_page |} = Return tt w1
    /\ StateObject.render w1 = Return tt w2
    /\ root (StateObject.doc w2) = root (StateObject.doc w1)
    /\ StateObject.todos w2 = StateObject.todos w1.
Proof.
  pose (w0 := {| StateObject.todos := ["a"]; StateObject.editIndex := (-1)%Z;
                 StateObject.doc := demo_page |}).
  assert (H1 : StateObject.render w0 = Return tt
                 (StateObject.set_doc
                    (repaint (state_object_tree ["a"] (-1))
                       [Debug (StateObject.container (state_object_view ["a"] (-1))
                               :: StateObject.children (state_object_view ["a"] (-1)))]
                       demo_page) w0))
    by (apply (state_object_render_returns w0 []); reflexivity).
  destruct (proj1 (proj2 (proj2 (proj2 render_keeps_the_state))) w0 _ H1)
    as (w2 & H2 & Hroot).
  eexists. exists w2. split; [exact H1|]. split; [exact H2|]. split; [exact Hroot|].
  apply (proj1 (proj2 (proj2 (proj1 render_keeps_the_state))) _ w2).
  rewrite H2. reflexivity.
Defined.

(** X13.  How often a click clears and rebuilds the mount point.  In the
    first three iterations every handled click (add, delete, edit)
    repaints exactly once, a blank add included.  On the state
    containers every setter call repaints: a blank add does not repaint
    at all, an append once, an update twice, a delete twice when the edit
    index is at or after the deleted position and once otherwise, an edit
    once. *)
Theorem repaints_per_click :
  (forall w : TodosArray.world,
      has_input (TodosArray.doc w) = true ->
      (exists w', Legacy.on_click "add-todo-button" w = Return tt w'
                  /\ generation (TodosArray.doc w') = S (generation (TodosArray.doc w)))
      /\ (exists w', Globals.on_click "add-todo-button" w = Return tt w'
                     /\ generation (TodosArray.doc w') = S (generation (TodosArray.doc w)))
      /\ (forall i, (i < length (TodosArray.todos w))%nat ->
            (exists w', Legacy.on_click ("delete-todo-" +:+ Js.of_index i) w = Return tt w'
                        /\ generation (TodosArray.doc w') = S (generation (TodosArray.doc w)))
            /\ (exists w', Globals.on_click ("delete-todo-" +:+ Js.of_index i) w = Return tt w'
                           /\ generation (TodosArray.doc w')
                              = S (generation (TodosArray.doc w)))))
  /\ (forall w : StateObject.world,
      StateObjectRun.invariant w ->
      (exists w', StateObject.on_click "add-todo-button" w = Return tt w'
                  /\ generation (StateObject.doc w') = S (generation (StateObject.doc w)))
      /\ (forall i, (i < length (StateObject.todos w))%nat ->
            (exists w', StateObject.on_click ("delete-todo-" +:+ Js.of_index i) w = Return tt w'
                        /\ generation (StateObject.doc w')
                           = S (generation (StateObject.doc w)))
            /\ (exists w', StateObject.on_click ("edit-todo-" +:+ Js.of_index i) w
                           = Return tt w'
                           /\ generation (StateObject.doc w')
                              = S (generation (StateObject.doc w)))))
  /\ (forall w : Hooks.world,
      HooksRun.invariant w ->
      (exists w', Hooks.on_click "add-todo-button" w = Return tt w'
                  /\ generation (Hooks.doc w')
                     = ((if Js.truthy (Js.trim (value_of (live (Hooks.doc w)) (Hooks.doc w)))
                         then if (Hooks.editIndex_value w =? -1)%Z then 1 else 2
                         else 0)
                        + generation (Hooks.doc w))%nat)
      /\ (forall i, (i < length (Hooks.todos_value w))%nat ->
            (exists w', Hooks.on_click ("delete-todo-" +:+ Js.of_index i) w = Return tt w'
                        /\ generation (Hooks.doc w')
                           = ((if (Z.of_nat i <=? Hooks.editIndex_value w)%Z then 2 else 1)
                              + generation (Hooks.doc w))%nat)
            /\ (exists w', Hooks.on_click ("edit-todo-" +:+ Js.of_index i) w = Return tt w'
                           /\ generation (Hooks.doc w') = S (generation (Hooks.doc w))))).
Proof.
  pose (globals_logged := fun l : list string =>
          [Debug (Globals.container (globals_view l) :: Globals.children (globals_view l))]).
  split; [|split].
  - intros w Hin. split; [|split].
    + destruct (ta_add_trace Legacy.render legacy_tree (fun _ => []) legacy_render_returns
                  legacy_tree_has_input w Hin) as (w' & H & _ & _ & Hg). eauto.
    + destruct (ta_add_trace Globals.render globals_tree globals_logged
                  globals_render_returns globals_tree_has_input w Hin)
        as (w' & H & _ & _ & Hg). eauto.
    + intros i Hi. split.
      * destruct (ta_delete_trace Legacy.render legacy_tree (fun _ => [])
                    legacy_render_returns legacy_tree_has_input w i Hin Hi)
          as (w' & H & _ & _ & Hg). eauto.
      * destruct (ta_delete_trace Globals.render globals_tree globals_logged
                    globals_render_returns globals_tree_has_input w i Hin Hi)
          as (w' & H & _ & _ & Hg). eauto.
  - intros w [Hin Hcur].
    assert (Hpainted : forall x, generation (StateObject.doc (so_painted x))
                                 = S (generation (StateObject.doc x))) by reflexivity.
    split.
    + destruct (so_add_trace w Hin Hcur) as (x & H & Hg).
      eexists. split; [exact H|]. rewrite Hpainted, Hg. reflexivity.
    + intros i Hi. split.
      * destruct (so_hit_trace w ("delete-todo-" +:+ Js.of_index i) i Hin Hi) as (x & H & Hg).
        { rewrite delete_id_hits. apply Nat.eqb_refl. }
        eexists. split; [exact H|]. rewrite Hpainted, Hg. reflexivity.
      * destruct (so_hit_trace w ("edit-todo-" +:+ Js.of_index i) i Hin Hi) as (x & H & Hg).
        { unfold hits. rewrite edit_id_eqb, Nat.eqb_refl. apply orb_true_r. }
        eexists. split; [exact H|]. rewrite Hpainted, Hg. reflexivity.
  - intros w [Hin Hcur]. split.
    + destruct (hk_add_trace w Hin Hcur) as (w' & H & _ & Hg). eauto.
    + intros i Hi. split.
      * rewrite (hk_hit_loop w _ i Hin Hi)
          by (rewrite delete_id_hits; apply Nat.eqb_refl).
        destruct (hk_delete_trace w i Hin) as (w' & H & _ & Hg). eauto.
      * rewrite (hk_hit_loop w _ i Hin Hi)
          by (unfold hits; rewrite edit_id_eqb, Nat.eqb_refl; apply orb_true_r).
        destruct (hk_edit_trace w i Hin) as (w' & H & _ & Hg). eauto.
Qed.

Lemma repaints_per_click_witness :
  (exists w',
      Hooks.on_click "add-todo-button" (hooks_world ["a"; "b"] 1 "c") = Return tt w'
      /\ generation (Hooks.doc w')
         = (2 + generation (Hooks.doc (hooks_world ["a"; "b"] 1 "c")))%nat)
  /\ (exists w',
      StateObject.on_click "add-todo-button" (state_object_world ["a"; "b"] 1 "c")
      = Return tt w'
      /\ generation (StateObject.doc w')
         = (1 + generation (StateObject.doc (state_object_world ["a"; "b"] 1 "c")))%nat).
Proof.
  split.
  - destruct (proj2 (proj2 repaints_per_click) (hooks_world ["a"; "b"] 1 "c")) as [Hadd _];
      [split; [reflexivity | right; simpl; lia] | exact Hadd].
  - destruct (proj1 (proj2 repaints_per_click) (state_object_world ["a"; "b"] 1 "c"))
      as [Hadd _]; [split; [reflexivity | right; simpl; lia] | exact Hadd].
Defined.

(** ** Clicks and the list *)

Lemma elsewhere_idle (target_id : string) (n : nat) :
  elsewhere target_id n ->
  String.eqb target_id "add-todo-button" = false
  /\ forall j, (j < n)%nat -> hits target_id j = false.
Proof.
  intros [Hadd Hidle]. split; [apply String.eqb_neq, Hadd|].
  intros j Hj. destruct (Hidle j Hj) as [Hd He]. unfold hits.
  apply orb_false_iff. split; apply String.eqb_neq; assumption.
Qed.

Lemma so_other (w : StateObject.world) (target_id : string) :
  String.eqb target_id "add-todo-button" = false ->
  (forall j, (j < length (StateObject.todos w))%nat -> hits target_id j = false) ->
  StateObject.on_click target_id w = Return tt w.
Proof.
  intros Hadd Hidle. unfold StateObject.on_click.
  unfold bind at 1. unfold StateObject.in_doc, zoom, querySelector, gets.
  rewrite set_doc_doc.
  unfold bind at 1. rewrite Hadd. cbn [when ret].
  apply so_loop_idle, Hidle.
Qed.

Lemma hk_other (w : Hooks.world) (target_id : string) :
  String.eqb target_id "add-todo-button" = false ->
  (forall j, (j < length (Hooks.todos_value w))%nat -> hits target_id j = false) ->
  Hooks.on_click target_id w = Return tt w.
Proof.
  intros Hadd Hidle. unfold Hooks.on_click.
  unfold bind at 1. unfold Hooks.in_doc, zoom, querySelector, gets.
  rewrite hk_set_doc_doc.
  unfold bind at 1. rewrite Hadd. cbn [when ret].
  unfold bind at 1. unfold Hooks.getTodos, StateContainer.getState, gets.
  apply hk_loop_idle, Hidle.
Qed.

Lemma past_the_end_elsewhere (n i : nat) :
  (n <= i)%nat ->
  elsewhere ("delete-todo-" +:+ Js.of_index i) n
  /\ elsewhere ("edit-todo-" +:+ Js.of_index i) n.
Proof.
  intros Hi. split; (split; [discriminate|]); intros j Hj; split; try discriminate.
  - intros H. apply append_inj_r, of_index_inj in H. lia.
  - intros H. apply append_inj_r, of_index_inj in H. lia.
Qed.

(** X14.  A click whose target is neither the add/update button nor a
    control of an index below the length of the list changes nothing:
    the handler returns the world it was given, on any page.  The
    controls of indices at or past the length are such targets, and in
    the first two iterations so is every edit id. *)
Theorem other_clicks_change_nothing :
  (forall (w : TodosArray.world) (target_id : string),
      elsewhere target_id (length (TodosArray.todos w)) ->
      Legacy.on_click target_id w = Return tt w
      /\ Globals.on_click target_id w = Return tt w)
  /\ (forall (w : TodosArray.world) (i : nat),
      Legacy.on_click ("edit-todo-" +:+ Js.of_index i) w = Return tt w
      /\ Globals.on_click ("edit-todo-" +:+ Js.of_index i) w = Return tt w)
  /\ (forall (w : StateObject.world) (target_id : string),
      elsewhere target_id (length (StateObject.todos w)) ->
      StateObject.on_click target_id w = Return tt w)
  /\ (forall (w : Hooks.world) (target_id : string),
      elsewhere target_id (length (Hooks.todos_value w)) ->
      Hooks.on_click target_id w = Return tt w)
  /\ (forall n i : nat,
      (n <= i)%nat ->
      elsewhere ("delete-todo-" +:+ Js.of_index i) n
      /\ elsewhere ("edit-todo-" +:+ Js.of_index i) n).
Proof.
  split; [|split; [|split; [|split]]].
  - intros w target_id H. destruct (elsewhere_idle _ _ H) as [Hadd Hidle].
    assert (Hdel : forall j, (j < length (TodosArray.todos w))%nat ->
                     String.eqb target_id ("delete-todo-" +:+ Js.of_index j) = false).
    { intros j Hj. specialize (Hidle j Hj). unfold hits in Hidle.
      apply orb_false_iff in Hidle. tauto. }
    split; apply ta_other; assumption.
  - intros w i. split; apply ta_other; try reflexivity; intros j _; apply edit_id_not_delete.
  - intros w target_id H. destruct (elsewhere_idle _ _ H). apply so_other; assumption.
  - intros w target_id H. destruct (elsewhere_idle _ _ H). apply hk_other; assumption.
  - apply past_the_end_elsewhere.
Qed.

Lemma other_clicks_change_nothing_witness :
  Hooks.on_click "delete-todo-2" (hooks_world ["a"; "b"] 1 "typed")
  = Return tt (hooks_world ["a"; "b"] 1 "typed")
  /\ StateObject.on_click "todo-0" (state_object_world ["a"] (-1) "typed")
     = Return tt (state_object_world ["a"] (-1) "typed").
Proof.
  split.
  - apply (proj1 (proj2 (proj2 (proj2 other_clicks_change_nothing)))).
    apply (proj1 (proj2 (proj2 (proj2 (proj2 other_clicks_change_nothing))) 2%nat 2%nat
                    (Nat.le_refl 2))).
  - apply (proj1 (proj2 (proj2 other_clicks_change_nothing))).
    split; [discriminate|]. intros j Hj. split; discriminate.
Defined.

(** X15.  A click on the add button appends the trimmed text of the
    field at the end of the list and leaves the items before it alone: in
    the first two iterations whatever the text is, in the later two when
    the trimmed text is not empty and no item is being edited, and then
    the edit index stays [-1]. *)
Theorem add_click_appends :
  (forall (w : TodosArray.world) (v : string),
      input_field (TodosArray.doc w) = Some v ->
      (exists w', Legacy.on_click "add-todo-button" w = Return tt w'
                  /\ TodosArray.todos w' = TodosArray.todos w ++ [Js.trim v])
      /\ (exists w', Globals.on_click "add-todo-button" w = Return tt w'
                     /\ TodosArray.todos w' = TodosArray.todos w ++ [Js.trim v]))
  /\ (forall (w : StateObject.world) (v : string),
      input_field (StateObject.doc w) = Some v -> Js.trim v <> "" ->
      StateObject.editIndex w = (-1)%Z ->
      exists w', StateObject.on_click "add-todo-button" w = Return tt w'
                 /\ StateObject.todos w' = StateObject.todos w ++ [Js.trim v]
                 /\ StateObject.editIndex w' = (-1)%Z)
  /\ (forall (w : Hooks.world) (v : string),
      input_field (Hooks.doc w) = Some v -> Js.trim v <> "" ->
      Hooks.editIndex_value w = (-1)%Z ->
      exists w', Hooks.on_click "add-todo-button" w = Return tt w'
                 /\ Hooks.todos_value w' = Hooks.todos_value w ++ [Js.trim v]
                 /\ Hooks.editIndex_value w' = (-1)%Z).
Proof.
  split; [|split].
  - intros w v Hfield.
    assert (Hin : has_input (TodosArray.doc w) = true)
      by (eapply input_field_has_input; eauto).
    rewrite (input_field_live _ Hin) in Hfield. injection Hfield as Hv.
    split.
    + destruct (ta_click_add _ legacy_paints w Hin) as (w' & Hrun & Ht & _).
      exists w'. rewrite Hv in Ht. auto.
    + destruct (ta_click_add _ globals_paints w Hin) as (w' & Hrun & Ht & _).
      exists w'. rewrite Hv in Ht. auto.
  - intros w v Hfield Htext Hcur.
    assert (Hin : has_input (StateObject.doc w) = true)
      by (eapply input_field_has_input; eauto).
    rewrite (input_field_live _ Hin) in Hfield. injection Hfield as Hv.
    destruct (so_click_add w Hin (or_introl Hcur)) as (w' & Hrun & _ & _ & Hst).
    rewrite Hv, Hcur in Hst.
    destruct (Js.truthy (Js.trim v)) eqn:Ht; [|apply trim_truthy in Ht; contradiction].
    injection Hst as Hl Hc. exists w'. auto.
  - intros w v Hfield Htext Hcur.
    assert (Hin : has_input (Hooks.doc w) = true) by (eapply input_field_has_input; eauto).
    rewrite (input_field_live _ Hin) in Hfield. injection Hfield as Hv.
    destruct (hk_click_add w Hin (or_introl Hcur)) as (w' & Hrun & _ & _ & Hst).
    rewrite Hv, Hcur in Hst.
    destruct (Js.truthy (Js.trim v)) eqn:Ht; [|apply trim_truthy in Ht; contradiction].
    injection Hst as Hl Hc. exists w'. auto.
Qed.

Lemma add_click_appends_witness :
  exists w',
    Hooks.on_click "add-todo-button" (hooks_world ["Buy milk"] (-1) "  Walk dog ")
    = Return tt w'
    /\ Hooks.todos_value w' = ["Buy milk"; "Walk dog"].
Proof.
  destruct (proj2 (proj2 add_click_appends)
              (hooks_world ["Buy milk"] (-1) "  Walk dog ") "  Walk dog ")
    as (w' & Hrun & Ht & _); [reflexivity | discriminate | reflexivity |].
  exists w'. split; [exact Hrun | exact Ht].
Defined.

(** X16.  Editing as a whole: a click on the edit control of item [i],
    a text typed into the field, a click on the button.  The item at [i]
    holds the trimmed text, the other items are as before and the edit
    index is back at [-1]. *)
Theorem edit_then_submit_replaces_the_item :
  (forall (w : StateObject.world) (i : nat) (v : string),
      StateObjectRun.invariant w -> (i < length (StateObject.todos w))%nat ->
      Js.trim v <> "" ->
      exists w1 w2,
        StateObject.on_click ("edit-todo-" +:+ Js.of_index i) w = Return tt w1
        /\ StateObject.on_click "add-todo-button"
             (StateObject.set_doc (typed v (StateObject.doc w1)) w1) = Return tt w2
        /\ StateObject.todos w2 = <[i := Js.trim v]> (StateObject.todos w)
        /\ StateObject.editIndex w2 = (-1)%Z)
  /\ (forall (w : Hooks.world) (i : nat) (v : string),
      HooksRun.invariant w -> (i < length (Hooks.todos_value w))%nat ->
      Js.trim v <> "" ->
      exists w1 w2,
        Hooks.on_click ("edit-todo-" +:+ Js.of_index i) w = Return tt w1
        /\ Hooks.on_click "add-todo-button"
             (Hooks.set_doc (typed v (Hooks.doc w1)) w1) = Return tt w2
        /\ Hooks.todos_value w2 = <[i := Js.trim v]> (Hooks.todos_value w)
        /\ Hooks.editIndex_value w2 = (-1)%Z).
Proof.
  split; intros w i v [Hin Hcur] Hi Htext.
  - destruct (so_click_edit w i Hin Hi) as (w1 & Hrun1 & Ht1 & Hc1 & Hin1 & _).
    destruct (typed_so w1 v) as (Ht & Hc & Hin' & Hv).
    destruct (so_click_add (StateObject.set_doc (typed v (StateObject.doc w1)) w1))
      as (w2 & Hrun2 & _ & _ & Hst).
    { rewrite Hin'. exact Hin1. }
    { right. rewrite Hc, Hc1, Ht, Ht1. lia. }
    rewrite Hv, Hc, Hc1, Ht, Ht1 in Hst.
    destruct (Js.truthy (Js.trim v)) eqn:Hv'; [|apply trim_truthy in Hv'; contradiction].
    destruct (Z.eqb_spec (Z.of_nat i) (-1)) as [E|_]; [lia|].
    rewrite Nat2Z.id in Hst. injection Hst as Ht2 Hc2.
    exists w1, w2. auto.
  - destruct (hk_click_edit w i Hin Hi) as (w1 & Hrun1 & Ht1 & Hc1 & Hin1 & _).
    destruct (typed_hk w1 v) as (Ht & Hc & Hin' & Hv).
    destruct (hk_click_add (Hooks.set_doc (typed v (Hooks.doc w1)) w1))
      as (w2 & Hrun2 & _ & _ & Hst).
    { rewrite Hin'. exact Hin1. }
    { right. rewrite Hc, Hc1, Ht, Ht1. lia. }
    rewrite Hv, Hc, Hc1, Ht, Ht1 in Hst.
    destruct (Js.truthy (Js.trim v)) eqn:Hv'; [|apply trim_truthy in Hv'; contradiction].
    destruct (Z.eqb_spec (Z.of_nat i) (-1)) as [E|_]; [lia|].
    rewrite Nat2Z.id in Hst. injection Hst as Ht2 Hc2.
    exists w1, w2. auto.
Qed.

Lemma edit_then_submit_replaces_the_item_witness :
  exists w1 w2,
    Hooks.on_click "edit-todo-0" (hooks_world ["Buy milk"; "Walk dog"] (-1) "") = Return tt w1
    /\ Hooks.on_click "add-todo-button" (Hooks.set_doc (typed "Buy bread" (Hooks.doc w1)) w1)
       = Return tt w2
    /\ Hooks.todos_value w2 = ["Buy bread"; "Walk dog"]
    /\ Hooks.editIndex_value w2 = (-1)%Z.
Proof.
  destruct (proj2 edit_then_submit_replaces_the_item
              (hooks_world ["Buy milk"; "Walk dog"] (-1) "") 0%nat "Buy bread")
    as (w1 & w2 & H1 & H2 & Ht & Hc).
  - split; [reflexivity | left; reflexivity].
  - simpl. lia.
  - discriminate.
  - exists w1, w2. split; [exact H1|]. split; [exact H2|]. split; [exact Ht | exact Hc].
Defined.

(** X17.  Adding an item and deleting it through the control of the
    last position gives back the list as it was. *)
Theorem add_then_delete_restores_the_list :
  (forall (w : TodosArray.world) (v : string),
      input_field (TodosArray.doc w) = Some v ->
      (exists w1 w2,
          Legacy.on_click "add-todo-button" w = Return tt w1
          /\ Legacy.on_click ("delete-todo-" +:+ Js.of_index (length (TodosArray.todos w))) w1
             = Return tt w2
          /\ TodosArray.todos w2 = TodosArray.todos w)
      /\ (exists w1 w2,
          Globals.on_click "add-todo-button" w = Return tt w1
          /\ Globals.on_click ("delete-todo-" +:+ Js.of_index (length (TodosArray.todos w))) w1
             = Return tt w2
          /\ TodosArray.todos w2 = TodosArray.todos w))
  /\ (forall (w : StateObject.world) (v : string),
      input_field (StateObject.doc w) = Some v -> Js.trim v <> "" ->
      StateObject.editIndex w = (-1)%Z ->
      exists w1 w2,
        StateObject.on_click "add-todo-button" w = Return tt w1
        /\ StateObject.on_click
             ("delete-todo-" +:+ Js.of_index (length (StateObject.todos w))) w1
           = Return tt w2
        /\ StateObject.todos w2 = StateObject.todos w
        /\ StateObject.editIndex w2 = (-1)%Z)
  /\ (forall (w : Hooks.world) (v : string),
      input_field (Hooks.doc w) = Some v -> Js.trim v <> "" ->
      Hooks.editIndex_value w = (-1)%Z ->
      exists w1 w2,
        Hooks.on_click "add-todo-button" w = Return tt w1
        /\ Hooks.on_click
             ("delete-todo-" +:+ Js.of_index (length (Hooks.todos_value w))) w1
           = Return tt w2
        /\ Hooks.todos_value w2 = Hooks.todos_value w
        /\ Hooks.editIndex_value w2 = (-1)%Z).
Proof.
  assert (Hlast : forall (l : list string) (x : string), delete (length l) (l ++ [x]) = l).
  { intros l x. induction l as [|a l IH]; [reflexivity|]. simpl. f_equal. exact IH. }
  split; [|split].
  - intros w v Hfield.
    assert (Hin : has_input (TodosArray.doc w) = true)
      by (eapply input_field_has_input; eauto).
    split.
    + destruct (ta_click_add _ legacy_paints w Hin) as (w1 & Hrun1 & Ht1 & Hin1 & _).
      destruct (ta_click_delete _ legacy_paints w1 (length (TodosArray.todos w)) Hin1)
        as (w2 & Hrun2 & Ht2 & _).
      { rewrite Ht1, length_app. simpl. lia. }
      exists w1, w2. split; [exact Hrun1|]. split; [exact Hrun2|].
      rewrite Ht2, Ht1. apply Hlast.
    + destruct (ta_click_add _ globals_paints w Hin) as (w1 & Hrun1 & Ht1 & Hin1 & _).
      destruct (ta_click_delete _ globals_paints w1 (length (TodosArray.todos w)) Hin1)
        as (w2 & Hrun2 & Ht2 & _).
      { rewrite Ht1, length_app. simpl. lia. }
      exists w1, w2. split; [exact Hrun1|]. split; [exact Hrun2|].
      rewrite Ht2, Ht1. apply Hlast.
  - intros w v Hfield Htext Hcur.
    assert (Hin : has_input (StateObject.doc w) = true)
      by (eapply input_field_has_input; eauto).
    rewrite (input_field_live _ Hin) in Hfield. injection Hfield as Hv.
    destruct (so_click_add w Hin (or_introl Hcur)) as (w1 & Hrun1 & Hin1 & _ & Hst).
    rewrite Hv, Hcur in Hst.
    destruct (Js.truthy (Js.trim v)) eqn:Hv'; [|apply trim_truthy in Hv'; contradiction].
    injection Hst as Ht1 Hc1.
    destruct (so_click_delete w1 (length (StateObject.todos w)) Hin1)
      as (w2 & Hrun2 & Ht2 & Hc2 & _).
    { rewrite Ht1, length_app. simpl. lia. }
    exists w1, w2. split; [exact Hrun1|]. split; [exact Hrun2|].
    split; [rewrite Ht2, Ht1; apply Hlast|].
    rewrite Hc2, Hc1.
    destruct (Z.eqb_spec (-1) (Z.of_nat (length (StateObject.todos w)))) as [E|_]; [lia|].
    destruct (Z.ltb_spec (Z.of_nat (length (StateObject.todos w))) (-1)) as [E|_]; [lia|].
    reflexivity.
  - intros w v Hfield Htext Hcur.
    assert (Hin : has_input (Hooks.doc w) = true) by (eapply input_field_has_input; eauto).
    rewrite (input_field_live _ Hin) in Hfield. injection Hfield as Hv.
    destruct (hk_click_add w Hin (or_introl Hcur)) as (w1 & Hrun1 & Hin1 & _ & Hst).
    rewrite Hv, Hcur in Hst.
    destruct (Js.truthy (Js.trim v)) eqn:Hv'; [|apply trim_truthy in Hv'; contradiction].
    injection Hst as Ht1 Hc1.
    destruct (hk_click_delete w1 (length (Hooks.todos_value w)) Hin1)
      as (w2 & Hrun2 & Ht2 & Hc2 & _).
    { rewrite Ht1, length_app. simpl. lia. }
    exists w1, w2. split; [exact Hrun1|]. split; [exact Hrun2|].
    split; [rewrite Ht2, Ht1; apply Hlast|].
    rewrite Hc2, Hc1.
    destruct (Z.eqb_spec (-1) (Z.of_nat (length (Hooks.todos_value w)))) as [E|_]; [lia|].
    destruct (Z.ltb_spec (Z.of_nat (length (Hooks.todos_value w))) (-1)) as [E|_]; [lia|].
    reflexivity.
Qed.

Lemma add_then_delete_restores_the_list_witness :
  exists w1 w2,
    StateObject.on_click "add-todo-button" (state_object_world ["a"; "b"] (-1) " c ")
    = Return tt w1
    /\ StateObject.on_click "delete-todo-2" w1 = Return tt w2
    /\ StateObject.todos w2 = ["a"; "b"].
Proof.
  destruct (proj1 (proj2 add_then_delete_restores_the_list)
              (state_object_world ["a"; "b"] (-1) " c ") " c ")
    as (w1 & w2 & H1 & H2 & Ht & _); [reflexivity | discriminate | reflexivity |].
  exists w1, w2. split; [exact H1|]. split; [exact H2 | exact Ht].
Defined.

(** ** What the list holds *)

Lemma trimStart_fixed (c : ascii) (s : string) :
  Js.is_white_space c = false -> Js.trimStart (String c s) = String c s.
Proof. intros H. cbn [Js.trimStart]. rewrite H. reflexivity. Qed.

Lemma trimStart_head (s : string) :
  Js.trimStart s = ""
  \/ exists c r, Js.trimStart s = String c r /\ Js.is_white_space c = false.
Proof.
  induction s as [|c s IH]; [left; reflexivity|].
  cbn [Js.trimStart]. destruct (Js.is_white_space c) eqn:Hc; [exact IH|].
  right. eauto.
Qed.

Lemma trimEnd_head (c : ascii) (s : string) :
  Js.is_white_space c = false -> exists r, Js.trimEnd (String c s) = String c r.
Proof.
  intros Hc. cbn [Js.trimEnd]. destruct (Js.trimEnd s); [rewrite Hc|]; eauto.
Qed.

Lemma trimEnd_idempotent (s : string) : Js.trimEnd (Js.trimEnd s) = Js.trimEnd s.
Proof.
  induction s as [|c s IH]; [reflexivity|].
  cbn [Js.trimEnd]. destruct (Js.trimEnd s) as [|d r] eqn:E.
  - destruct (Js.is_white_space c) eqn:Hc; [reflexivity|].
    cbn [Js.trimEnd]. rewrite Hc. reflexivity.
  - cbn [Js.trimEnd] in IH |- *. rewrite IH. reflexivity.
Qed.

Lemma trim_idempotent (s : string) : Js.trim (Js.trim s) = Js.trim s.
Proof.
  unfold Js.trim. destruct (trimStart_head s) as [-> | (c & r & -> & Hc)]; [reflexivity|].
  destruct (trimEnd_head c r Hc) as [r' E]. rewrite E, (trimStart_fixed c r' Hc), <- E.
  apply trimEnd_idempotent.
Qed.

Lemma so_boot_state (w0 w : StateObject.world) :
  StateObject.boot w0 = Return tt w ->
  StateObject.todos w = [] /\ StateObject.editIndex w = (-1)%Z.
Proof.
  intros H. destruct (root (StateObject.doc w0)) as [old|] eqn:Hroot.
  - destruct (so_boot_returns w0 old Hroot) as (w' & Hrun & Ht & Hc & _).
    rewrite Hrun in H. injection H as <-. auto.
  - unfold StateObject.boot, bind, modify in H.
    rewrite render_absent_state_object in H by exact Hroot. discriminate.
Qed.

Lemma hk_boot_state (w0 w : Hooks.world) :
  Hooks.boot w0 = Return tt w ->
  Hooks.todos_value w = [] /\ Hooks.editIndex_value w = (-1)%Z.
Proof.
  intros H. destruct (root (Hooks.doc w0)) as [old|] eqn:Hroot.
  - destruct (hk_boot_returns w0 old Hroot) as (w' & Hrun & Ht & Hc & _).
    rewrite Hrun in H. injection H as <-. auto.
  - unfold Hooks.boot, StateContainer.useState, bind, modify, ret in H.
    rewrite render_absent_hooks in H by exact Hroot. discriminate.
Qed.

Lemma so_click_todos (P : string -> Prop) (w w' : StateObject.world) (target_id : string) :
  (forall v, Js.truthy (Js.trim v) = true -> P (Js.trim v)) ->
  StateObjectRun.invariant w ->
  StateObject.on_click target_id w = Return tt w' ->
  Forall P (StateObject.todos w) -> Forall P (StateObject.todos w').
Proof.
  intros Htext [Hin Hcur] Hrun Hall.
  destruct (String.eqb target_id "add-todo-button") eqn:Hadd.
  - apply String.eqb_eq in Hadd. subst target_id.
    destruct (so_click_add w Hin Hcur) as (w'' & Hrun' & _ & _ & Hst).
    rewrite Hrun' in Hrun. injection Hrun as <-.
    destruct (Js.truthy _) eqn:Ht; [destruct (StateObject.editIndex w =? -1)%Z|];
      injection Hst as -> _.
    + apply Forall_app. split; [exact Hall | apply Forall_singleton, Htext, Ht].
    + apply Forall_insert; [exact Hall | apply Htext, Ht].
    + exact Hall.
  - destruct (hits_search target_id (length (StateObject.todos w))) as [Hnone|(i & Hi & Hhit)].
    + rewrite so_click_other in Hrun by assumption. injection Hrun as <-. exact Hall.
    + destruct (hits_names _ _ Hhit) as [-> | ->].
      * destruct (so_click_delete w i Hin Hi) as (w'' & Hrun' & Ht & _).
        rewrite Hrun' in Hrun. injection Hrun as <-. rewrite Ht.
        apply Forall_delete, Hall.
      * destruct (so_click_edit w i Hin Hi) as (w'' & Hrun' & Ht & _).
        rewrite Hrun' in Hrun. injection Hrun as <-. rewrite Ht. exact Hall.
Qed.

Lemma hk_click_todos (P : string -> Prop) (w w' : Hooks.world) (target_id : string) :
  (forall v, Js.truthy (Js.trim v) = true -> P (Js.trim v)) ->
  HooksRun.invariant w ->
  Hooks.on_click target_id w = Return tt w' ->
  Forall P (Hooks.todos_value w) -> Forall P (Hooks.todos_value w').
Proof.
  intros Htext [Hin Hcur] Hrun Hall.
  destruct (String.eqb target_id "add-todo-button") eqn:Hadd.
  - apply String.eqb_eq in Hadd. subst target_id.
    destruct (hk_click_add w Hin Hcur) as (w'' & Hrun' & _ & _ & Hst).
    rewrite Hrun' in Hrun. injection Hrun as <-.
    destruct (Js.truthy _) eqn:Ht; [destruct (Hooks.editIndex_value w =? -1)%Z|];
      injection Hst as -> _.
    + apply Forall_app. split; [exact Hall | apply Forall_singleton, Htext, Ht].
    + apply Forall_insert; [exact Hall | apply Htext, Ht].
    + exact Hall.
  - destruct (hits_search target_id (length (Hooks.todos_value w))) as [Hnone|(i & Hi & Hhit)].
    + rewrite hk_click_other in Hrun by assumption. injection Hrun as <-. exact Hall.
    + destruct (hits_names _ _ Hhit) as [-> | ->].
      * destruct (hk_click_delete w i Hin Hi) as (w'' & Hrun' & Ht & _).
        rewrite Hrun' in Hrun. injection Hrun as <-. rewrite Ht.
        apply Forall_delete, Hall.
      * destruct (hk_click_edit w i Hin Hi) as (w'' & Hrun' & Ht & _).
        rewrite Hrun' in Hrun. injection Hrun as <-. rewrite Ht. exact Hall.
Qed.

Lemma ta_click_todos (render : M TodosArray.world unit) (w w' : TodosArray.world)
    (target_id : string) :
  paints render ->
  has_input (TodosArray.doc w) = true ->
  TodosArray.on_click render target_id w = Return tt w' ->
  Forall trimmed (TodosArray.todos w) -> Forall trimmed (TodosArray.todos w').
Proof.
  intros Hpaints Hin Hrun Hall.
  destruct (String.eqb target_id "add-todo-button") eqn:Hadd.
  - apply String.eqb_eq in Hadd. subst target_id.
    destruct (ta_click_add render Hpaints w Hin) as (w'' & Hrun' & Ht & _).
    rewrite Hrun' in Hrun. injection Hrun as <-. rewrite Ht.
    apply Forall_app. split; [exact Hall | apply Forall_singleton, trim_idempotent].
  - destruct (hits_search target_id (length (TodosArray.todos w)))
      as [Hnone|(i & Hi & Hhit)].
    + rewrite ta_other in Hrun; [injection Hrun as <-; exact Hall | exact Hadd |].
      intros j Hj. specialize (Hnone j Hj). unfold hits in Hnone.
      apply orb_false_iff in Hnone. tauto.
    + destruct (hits_names _ _ Hhit) as [-> | ->].
      * destruct (ta_click_delete render Hpaints w i Hin Hi) as (w'' & Hrun' & Ht & _).
        rewrite Hrun' in Hrun. injection Hrun as <-. rewrite Ht.
        apply Forall_delete, Hall.
      * rewrite ta_other in Hrun; [injection Hrun as <-; exact Hall | reflexivity |].
        intros j _. apply edit_id_not_delete.
Qed.

Lemma legacy_boot_state (w0 w : TodosArray.world) :
  Legacy.boot w0 = Return tt w ->
  has_input (TodosArray.doc w) = true /\ TodosArray.todos w = [].
Proof.
  unfold Legacy.boot, bind, modify. intros H.
  destruct (root (TodosArray.doc w0)) as [old|] eqn:Hroot.
  - rewrite (legacy_render_returns _ old) in H by exact Hroot.
    match type of H with Return tt ?x = _ => assert (w = x) as -> by congruence end.
    split; [apply repaint_has_input, legacy_tree_has_input | reflexivity].
  - rewrite render_absent_legacy in H by exact Hroot. discriminate.
Qed.

Lemma globals_boot_state (w0 w : TodosArray.world) :
  Globals.boot w0 = Return tt w ->
  has_input (TodosArray.doc w) = true /\ TodosArray.todos w = [].
Proof.
  unfold Globals.boot, bind, modify. intros H.
  destruct (root (TodosArray.doc w0)) as [old|] eqn:Hroot.
  - rewrite (globals_render_returns _ old) in H by exact Hroot.
    match type of H with Return tt ?x = _ => assert (w = x) as -> by congruence end.
    split; [apply repaint_has_input, globals_tree_has_input | reflexivity].
  - rewrite render_absent_globals in H by exact Hroot. discriminate.
Qed.

Lemma ta_reachable_trimmed (boot render : M TodosArray.world unit) (w : TodosArray.world) :
  paints render ->
  (forall w0 w1, boot w0 = Return tt w1 ->
     has_input (TodosArray.doc w1) = true /\ TodosArray.todos w1 = []) ->
  TodosArrayRun.reachable boot (TodosArray.on_click render) w ->
  has_input (TodosArray.doc w) = true /\ Forall trimmed (TodosArray.todos w).
Proof.
  intros Hpaints Hboot.
  induction 1 as [w0 w Hrun | w v Hreach IH | w target_id w' Hreach IH Hclick].
  - destruct (Hboot w0 w Hrun) as [Hin ->]. split; [exact Hin | constructor].
  - destruct w; exact IH.
  - destruct IH as [Hin Hall].
    destruct (String.eqb target_id "add-todo-button") eqn:Hadd.
    + apply String.eqb_eq in Hadd. subst target_id.
      destruct (ta_click_add render Hpaints w Hin) as (w'' & Hrun' & Ht & Hin' & _).
      rewrite Hrun' in Hclick. injection Hclick as <-. split; [exact Hin'|].
      apply (ta_click_todos render w w'' "add-todo-button"); assumption.
    + destruct (hits_search target_id (length (TodosArray.todos w)))
        as [Hnone|(i & Hi & Hhit)].
      * rewrite ta_other in Hclick; [injection Hclick as <-; auto | exact Hadd |].
        intros j Hj. specialize (Hnone j Hj). unfold hits in Hnone.
        apply orb_false_iff in Hnone. tauto.
      * destruct (hits_names _ _ Hhit) as [-> | ->].
        -- destruct (ta_click_delete render Hpaints w i Hin Hi) as (w'' & Hrun' & Ht & Hin' & _).
           rewrite Hrun' in Hclick. injection Hclick as <-. split; [exact Hin'|].
           apply (ta_click_todos render w w'' ("delete-todo-" +:+ Js.of_index i));
             assumption.
        -- rewrite ta_other in Hclick; [injection Hclick as <-; auto | reflexivity |].
           intros j _. apply edit_id_not_delete.
Qed.

(** X18.  In every state reached from boot through typing and clicks,
    every stored todo is its own trimmed form; in the two iterations that
    test the text, none is empty either. *)
Theorem stored_todos_are_trimmed :
  (forall w : TodosArray.world,
      TodosArrayRun.reachable Legacy.boot Legacy.on_click w ->
      Forall trimmed (TodosArray.todos w))
  /\ (forall w : TodosArray.world,
      TodosArrayRun.reachable Globals.boot Globals.on_click w ->
      Forall trimmed (TodosArray.todos w))
  /\ (forall w : StateObject.world,
      StateObjectRun.reachable w ->
      Forall (fun t => trimmed t /\ t <> "") (StateObject.todos w))
  /\ (forall w : Hooks.world,
      HooksRun.reachable w ->
      Forall (fun t => trimmed t /\ t <> "") (Hooks.todos_value w)).
Proof.
  assert (Htext : forall v, Js.truthy (Js.trim v) = true ->
                    trimmed (Js.trim v) /\ Js.trim v <> "").
  { intros v Hv. split; [apply trim_idempotent|].
    intros E. apply trim_truthy in E. congruence. }
  split; [|split; [|split]].
  - intros w Hreach.
    apply (ta_reachable_trimmed Legacy.boot Legacy.render w legacy_paints legacy_boot_state
             Hreach).
  - intros w Hreach.
    apply (ta_reachable_trimmed Globals.boot Globals.render w globals_paints
             globals_boot_state Hreach).
  - induction 1 as [w0 w Hboot | w v Hreach IH | w target_id w' Hreach IH Hclick].
    + destruct (so_boot_state w0 w Hboot) as [-> _]. constructor.
    + destruct w; exact IH.
    + destruct (so_step w target_id (so_reachable_invariant w Hreach)) as (w'' & Hrun & _).
      rewrite Hrun in Hclick. injection Hclick as <-.
      apply (so_click_todos _ w w'' target_id Htext (so_reachable_invariant w Hreach) Hrun IH).
  - induction 1 as [w0 w Hboot | w v Hreach IH | w target_id w' Hreach IH Hclick].
    + destruct (hk_boot_state w0 w Hboot) as [-> _]. constructor.
    + destruct w; exact IH.
    + destruct (hk_step w target_id (hk_reachable_invariant w Hreach)) as (w'' & Hrun & _).
      rewrite Hrun in Hclick. injection Hclick as <-.
      apply (hk_click_todos _ w w'' target_id Htext (hk_reachable_invariant w Hreach) Hrun IH).
Qed.

Lemma stored_todos_are_trimmed_witness :
  exists w,
    HooksRun.reachable w /\ Hooks.todos_value w = ["Buy milk"]
    /\ Forall (fun t => trimmed t /\ t <> "") (Hooks.todos_value w).
Proof.
  destruct hk_reachable_example as (w & Hreach & Ht & _).
  exists w. split; [exact Hreach|]. split; [exact Ht|].
  apply (proj2 (proj2 (proj2 stored_todos_are_trimmed)) w Hreach).
Defined.

(** ** A container without a callback *)

Lemma plain_setState {T} (s : Plain.step T) (w : Plain.world T) :
  Plain.setState s w
  = Return tt (Plain.run (fst w) s,
               snd w ++ ["No render function provided or it is not a function"]).
Proof. destruct s, w; reflexivity. Qed.

(** X19.  A container made without a callback: a sequence of setter
    calls leaves the value that the calls give one after the other, each
    function applied to the value the call before it left, and prints the
    warning exactly once per call. *)
Theorem setters_compose_and_warn {T} (steps : list (Plain.step T)) :
  forall w : Plain.world T,
    iter Plain.setState steps w
    = Return tt (fold_left Plain.run steps (fst w),
                 snd w ++ repeat "No render function provided or it is not a function"
                            (length steps)).
Proof.
  induction steps as [|s steps IH]; intros [v log].
  - cbn. rewrite app_nil_r. reflexivity.
  - cbn [iter]. unfold bind. rewrite plain_setState, IH.
    cbn [fst snd fold_left length repeat]. rewrite <- app_assoc. reflexivity.
Qed.

(** ** The listener that deletes, in [unnamed/part_000] *)

Lemma closest_from_none (n : nat) (path : list nat) (forest : list node) :
  (forall k, InlineTree.li_at (take k path) forest = false) ->
  InlineTree.closest_from n path forest = None.
Proof.
  intros Hnone. induction n as [|n IH]; [reflexivity|].
  cbn [InlineTree.closest_from]. rewrite Hnone. exact IH.
Qed.

Lemma closest_from_hit (n m : nat) (path : list nat) (forest : list node) :
  (0 < m <= n)%nat ->
  InlineTree.li_at (take m path) forest = true ->
  (forall j, (m < j <= n)%nat -> InlineTree.li_at (take j path) forest = false) ->
  InlineTree.closest_from n path forest = Some (take m path).
Proof.
  intros Hm Hli Habove. induction n as [|n IH]; [lia|].
  cbn [InlineTree.closest_from].
  destruct (Nat.eq_dec m (S n)) as [->|Hne].
  - rewrite Hli. reflexivity.
  - rewrite Habove by lia. apply IH; [lia|]. intros j Hj. apply Habove. lia.
Qed.

Lemma remove_at_below (i : nat) (rest : list nat) (forest : list node) :
  rest <> [] ->
  InlineTree.remove_at (i :: rest) forest
  = alter (fun n => match n with
                    | Element t p children => Element t p (InlineTree.remove_at rest children)
                    | Text _ => n
                    end) i forest.
Proof. destruct rest; [congruence | reflexivity]. Qed.

Lemma children_at_below (i : nat) (q : list nat) (forest : list node) :
  InlineTree.children_at (i :: q) forest
  = match forest !! i with
    | Some (Element _ _ children) => InlineTree.children_at q children
    | _ => None
    end.
Proof.
  cbn [InlineTree.children_at InlineTree.node_at].
  destruct (forest !! i) as [[s|t p cs]|]; destruct q; reflexivity.
Qed.

Lemma remove_at_children (k : nat) (q : list nat) :
  forall (forest items : list node),
    InlineTree.children_at q forest = Some items ->
    InlineTree.children_at q (InlineTree.remove_at (q ++ [k]) forest)
    = Some (delete k items).
Proof.
  induction q as [|i q IH]; intros forest items H.
  - injection H as <-. reflexivity.
  - change ((i :: q) ++ [k]) with (i :: (q ++ [k])).
    rewrite remove_at_below by (destruct q; discriminate).
    rewrite children_at_below in H |- *. rewrite list_lookup_alter.
    destruct (forest !! i) as [[s|t p cs]|]; try discriminate.
    destruct (decide (i = i)) as [_|Hne]; [|congruence].
    cbn [fmap option_fmap option_map]. apply IH, H.
Qed.

(** X20.  The click listener of [unnamed/part_000].  A click on an
    element without the class [delete-btn] changes nothing.  A click on
    a [delete-btn] element with no [li] among its inclusive ancestors
    shows the alert and leaves the tree alone.  A click on a
    [delete-btn] element whose nearest [li] is child [k] of its parent
    removes that child and nothing else of the parent, with no alert. *)
Theorem inline_delete_removes_the_item (p : InlineTree.page) (target : list nat)
    (t : string) (props : properties) (cs : list node) :
  InlineTree.node_at target (InlineTree.tree p) = Some (Element t props cs) ->
  (has_class "delete-btn" (Element t props cs) = false ->
     InlineTree.on_click target p = Return tt p)
  /\ (has_class "delete-btn" (Element t props cs) = true ->
      (forall k, InlineTree.li_at (take k target) (InlineTree.tree p) = false) ->
      InlineTree.on_click target p
      = Return tt {| InlineTree.tree := InlineTree.tree p;
                     InlineTree.alerts := InlineTree.alerts p ++ ["Todo item not found."] |})
  /\ (has_class "delete-btn" (Element t props cs) = true ->
      forall (q : list nat) (k : nat) (rest : list nat) (items : list node),
        target = q ++ k :: rest ->
        InlineTree.li_at (q ++ [k]) (InlineTree.tree p) = true ->
        (forall j, (0 < j <= length rest)%nat ->
           InlineTree.li_at (q ++ k :: take j rest) (InlineTree.tree p) = false) ->
        InlineTree.children_at q (InlineTree.tree p) = Some items ->
        exists p',
          InlineTree.on_click target p = Return tt p'
          /\ InlineTree.tree p' = InlineTree.remove_at (q ++ [k]) (InlineTree.tree p)
          /\ InlineTree.children_at q (InlineTree.tree p') = Some (delete k items)
          /\ InlineTree.alerts p' = InlineTree.alerts p).
Proof.
  intros Htarget. unfold InlineTree.on_click, bind, gets. rewrite Htarget.
  cbn [has_class]. split; [|split].
  - intros ->. destruct p; reflexivity.
  - intros -> Hnone. cbn [when].
    unfold InlineTree.deleteTodo, bind, gets, InlineTree.closest_li.
    rewrite closest_from_none by exact Hnone. reflexivity.
  - intros -> q k rest items -> Hli Habove Hitems. cbn [when].
    unfold InlineTree.deleteTodo, bind, gets, InlineTree.closest_li.
    assert (Htake : forall j, take (length q + 1 + j) (q ++ k :: rest) = q ++ k :: take j rest).
    { intros j. rewrite take_app_ge by lia.
      replace (length q + 1 + j - length q)%nat with (S j) by lia. reflexivity. }
    rewrite (closest_from_hit _ (length q + 1)).
    + replace (length q + 1)%nat with (length q + 1 + 0)%nat by lia.
      rewrite Htake, take_0. unfold modify. eexists. split; [reflexivity|].
      cbn [InlineTree.tree InlineTree.alerts]. split; [reflexivity|].
      split; [apply remove_at_children, Hitems | reflexivity].
    + rewrite length_app. simpl. lia.
    + replace (length q + 1)%nat with (length q + 1 + 0)%nat by lia.
      rewrite Htake, take_0. exact Hli.
    + intros j Hj. rewrite length_app in Hj. simpl in Hj.
      replace j with (length q + 1 + (j - length q - 1))%nat by lia.
      rewrite Htake. apply Habove. lia.
Qed.

Lemma inline_delete_removes_the_item_witness :
  exists p',
    InlineTree.on_click [0; 1; 1; 0]%nat (InlineTree.listing ["milk"; "dog"; "tea"])
    = Return tt p'
    /\ InlineTree.children_at [0%nat] (InlineTree.tree p')
       = Some (map InlineTree.item ["milk"; "tea"])
    /\ InlineTree.alerts p' = [].
Proof.
  destruct (proj2 (proj2 (inline_delete_removes_the_item
                            (InlineTree.listing ["milk"; "dog"; "tea"]) [0; 1; 1; 0]%nat
                            _ _ _ eq_refl))
              eq_refl [0%nat] 1%nat [1; 0]%nat (map InlineTree.item ["milk"; "dog"; "tea"]))
    as (p' & Hrun & _ & Hitems & Halerts).
  - reflexivity.
  - reflexivity.
  - intros j Hj. simpl in Hj.
    destruct j as [|[|[|j]]]; [lia | reflexivity | reflexivity | lia].
  - reflexivity.
  - exists p'. split; [exact Hrun | split; [exact Hitems | exact Halerts]].
Defined.
